(** * Develeb-Platform: the job service and the user repository

    A shallow embedding of [packages/backend/src/api/job/jobService.ts]
    and of the [userRepository] object, together with the properties that
    the specification states about them.

    The handlers are Express handlers over a drizzle-orm connection to
    PostgreSQL.  A handler is embedded as a function from the request, the
    clock and the stored tables to a response (or a rejected promise) and
    the new stored tables.  Rows are JavaScript objects: finite maps from
    column names to values. *)

From Stdlib Require Import ZArith Ascii String List Bool Lia.
From Stdlib Require Import DecimalString DecimalNat.
From stdpp Require Import base option gmap strings list fin_maps.

Local Open Scope string_scope.
Local Open Scope Z_scope.

(** ** JavaScript strings and numbers *)

Module JS.

(** A JavaScript number that is an integer or NaN; [None] is NaN.  The
    embedding is exact for integers below 2^53 in absolute value. *)
Definition Num := option Z.

Definition code (c : ascii) : N := N_of_ascii c.

(** [String.prototype.toLowerCase] on the ASCII range.  Bytes above 127
    are left alone: no code point outside ASCII lowers to a string of the
    letters a, d, m, i, n, so comparisons with ['admin'] are exact. *)
Definition lower_char (c : ascii) : ascii :=
  if ((65 <=? code c) && (code c <=? 90))%N
  then ascii_of_N (code c + 32) else c.

Fixpoint toLowerCase (s : string) : string :=
  match s with
  | EmptyString => EmptyString
  | String c s' => String (lower_char c) (toLowerCase s')
  end.

(** [toLocaleLowerCase] under the default (root) locale. *)
Definition toLocaleLowerCase (s : string) : string := toLowerCase s.

Fixpoint startsWith (p s : string) : bool :=
  match p, s with
  | EmptyString, _ => true
  | String a p', String b s' => if decide (a = b) then startsWith p' s' else false
  | String _ _, EmptyString => false
  end.

(** [String.prototype.includes]. *)
Fixpoint includes (s sub : string) : bool :=
  startsWith sub s ||
  match s with
  | EmptyString => false
  | String _ s' => includes s' sub
  end.

(** The white space that [parseInt] skips: the code points of
    StrWhiteSpaceChar.  Strings are held as their UTF-8 bytes, so the
    code points above U+007F are sequences of two or three bytes. *)
Definition is_space (c : ascii) : bool :=
  ((9 <=? code c) && (code c <=? 13) || (code c =? 32))%N.

(** U+00A0 *)
Definition is_space2 (c1 c2 : ascii) : bool :=
  ((code c1 =? 194) && (code c2 =? 160))%N.

(** U+1680, U+2000 to U+200A, U+2028, U+2029, U+202F, U+205F, U+3000 and
    U+FEFF *)
Definition is_space3 (c1 c2 c3 : ascii) : bool :=
  ((code c1 =? 225) && (code c2 =? 154) && (code c3 =? 128)
   || (code c1 =? 226) && (code c2 =? 128)
      && ((128 <=? code c3) && (code c3 <=? 138)
          || (code c3 =? 168) || (code c3 =? 169) || (code c3 =? 175))
   || (code c1 =? 226) && (code c2 =? 129) && (code c3 =? 159)
   || (code c1 =? 227) && (code c2 =? 128) && (code c3 =? 128)
   || (code c1 =? 239) && (code c2 =? 187) && (code c3 =? 191))%N.

Fixpoint skip_ws (s : string) : string :=
  match s with
  | String c1 s1 =>
      if is_space c1 then skip_ws s1
      else if (code c1 <? 128)%N then s
      else
        match s1 with
        | String c2 s2 =>
            if is_space2 c1 c2 then skip_ws s2
            else
              match s2 with
              | String c3 s3 => if is_space3 c1 c2 c3 then skip_ws s3 else s
              | EmptyString => s
              end
        | EmptyString => s
        end
  | EmptyString => s
  end.

Definition digit_of (c : ascii) : option Z :=
  if ((48 <=? code c) && (code c <=? 57))%N
  then Some (Z.of_N (code c) - 48) else None.

(** The longest prefix of decimal digits; [acc] is NaN until a digit
    has been read. *)
Fixpoint parse_digits (s : string) (acc : Num) : Num :=
  match s with
  | String c s' =>
      match digit_of c with
      | Some d => parse_digits s' (Some (10 * match acc with Some a => a | None => 0 end + d))
      | None => acc
      end
  | EmptyString => acc
  end.

(** [parseInt(s, 10)]: leading white space, an optional sign, then the
    longest run of digits; NaN when there is no digit.  The value is the
    exact integer that the digits denote, which is the number JavaScript
    returns up to 2^53. *)
Definition parseInt (s : string) : Num :=
  match skip_ws s with
  | String "-" s' => Z.opp <$> parse_digits s' None
  | String "+" s' => parse_digits s' None
  | s' => parse_digits s' None
  end.

(** [parseInt(x, 10)] where [x] may be undefined: the argument is first
    turned into the string ["undefined"], which has no digit. *)
Definition parseInt_opt (o : option string) : Num :=
  match o with
  | Some s => parseInt s
  | None => None
  end.

(** [n || d] on numbers: 0 and NaN are falsy. *)
Definition or_default (n : Num) (d : Z) : Z :=
  match n with
  | Some 0 | None => d
  | Some v => v
  end.

(** [String(n)] for an integer. *)
Definition Number_toString (z : Z) : string :=
  if z <? 0
  then String "-" (NilZero.string_of_uint (Nat.to_uint (Z.to_nat (- z))))
  else NilZero.string_of_uint (Nat.to_uint (Z.to_nat z)).

(** [Number(s)], the number a string is converted to in arithmetic,
    where [s] is the decimal text of an integer as PostgreSQL prints a
    [bigint].  Numeric literals of another form are not embedded: they
    read as NaN here. *)
Definition Number (s : string) : Num :=
  match parseInt s with
  | Some z => if decide (Number_toString z = s) then Some z else None
  | None => None
  end.

(** [Math.ceil(a / b)] for integers [a] and [b <> 0]. *)
Definition Math_ceil_div (a b : Z) : Z := - ((- a) / b).

End JS.

(** ** Values, rows, errors *)

(** A column value or a field of a JSON object. *)
Inductive Value :=
| VNull
| VBool (b : bool)
| VNum (z : Z)
| VStr (s : string)
| VDate (t : Z).

#[global] Instance Value_eq_dec : EqDecision Value.
Proof. solve_decision. Defined.

(** A row and a parsed request body are JavaScript objects; an absent key
    is [undefined]. *)
Abbreviation Row := (gmap string Value).

(** [{ ...o, k: v }] where [v] may be undefined: drizzle skips undefined
    fields of [values] and [set]. *)
Definition set_field (k : string) (v : option Value) (o : Row) : Row :=
  match v with
  | Some x => <[k := x]> o
  | None => o
  end.

(** What can be thrown. *)
Inductive Exn :=
| ZodError (issues : list string)
| PostgresError (msg : string)
| TypeError (msg : string)
| Error (msg : string).

(** [error.message]; a ZodError's message is the rendering of its issues. *)
Definition message (e : Exn) : string :=
  match e with
  | ZodError issues => String.concat ", " issues
  | PostgresError msg | TypeError msg | Error msg => msg
  end.

(** [error instanceof ZodError]. *)
Definition instanceof_ZodError (e : Exn) : bool :=
  match e with
  | ZodError _ => true
  | _ => false
  end.

(** What [res.json] is given. *)
#[warnings="-register-all"]
Inductive Json :=
| JVal (v : Value)
| JRow (r : Row)
| JArr (l : list Json)
| JObj (fields : list (string * Json)).

Definition JStr (s : string) : Json := JVal (VStr s).
Definition JNum (z : Z) : Json := JVal (VNum z).
(** A number: [JSON.stringify] writes NaN as [null]. *)
Definition JNumber (n : JS.Num) : Json :=
  match n with
  | Some z => JNum z
  | None => JVal VNull
  end.

Record Response := { status : Z; json : Json }.

(** [res.status(c).json(b)]. *)
Definition res_status_json (c : Z) (b : Json) : Response := {| status := c; json := b |}.
(** [res.json(b)]: the status stays at its default. *)
Definition res_json (b : Json) : Response := {| status := 200; json := b |}.

Definition field (k : string) (j : Json) : option Json :=
  match j with
  | JObj fs => snd <$> List.find (fun kv => if decide (kv.1 = k) then true else false) fs
  | _ => None
  end.

(** ** The stored tables *)

Module schema.
Inductive Table := job | jobCategory | jobLevel | company | jobSaved | user.

#[global] Instance Table_eq_dec : EqDecision Table.
Proof. solve_decision. Defined.

Definition name (t : Table) : string :=
  match t with
  | job => "job"
  | jobCategory => "job_category"
  | jobLevel => "job_level"
  | company => "company"
  | jobSaved => "job_saved"
  | user => "user"
  end.

(** Modelled from the spec: [src/db/schema] is not part of the sources.
    The data model gives every entity but the saved-job pairing an [id]
    key, makes category and level titles unique, and makes a user's
    email and username unique. *)
Definition unique_columns (t : Table) : list string :=
  match t with
  | job => ["id"]
  | jobCategory => ["id"; "title"]
  | jobLevel => ["id"; "title"]
  | company => ["id"]
  | jobSaved => []
  | user => ["id"; "email"; "username"]
  end.

(** How a missing [id] is filled in on insert: [job.id] is a uuid
    ([updateJob] checks the route id as one), category and level ids are
    integers (their route ids go through [parseInt]). *)
Inductive IdDefault := Serial | RandomUuid | NoDefault.

Definition id_default (t : Table) : IdDefault :=
  match t with
  | jobCategory | jobLevel => Serial
  | job => RandomUuid
  | _ => NoDefault
  end.
End schema.

(** A stored table: its rows in physical order, and the number its id
    default is at (the next value of a serial sequence, or the index of
    the next uuid drawn). *)
Record Stored := { rows : list Row; id_seq : Z }.

Record DB := {
  job_table : Stored;
  jobCategory_table : Stored;
  jobLevel_table : Stored;
  company_table : Stored;
  jobSaved_table : Stored;
  user_table : Stored
}.

Definition table (t : schema.Table) (db : DB) : Stored :=
  match t with
  | schema.job => job_table db
  | schema.jobCategory => jobCategory_table db
  | schema.jobLevel => jobLevel_table db
  | schema.company => company_table db
  | schema.jobSaved => jobSaved_table db
  | schema.user => user_table db
  end.

Definition with_table (t : schema.Table) (s : Stored) (db : DB) : DB :=
  {| job_table := if decide (t = schema.job) then s else job_table db;
     jobCategory_table := if decide (t = schema.jobCategory) then s else jobCategory_table db;
     jobLevel_table := if decide (t = schema.jobLevel) then s else jobLevel_table db;
     company_table := if decide (t = schema.company) then s else company_table db;
     jobSaved_table := if decide (t = schema.jobSaved) then s else jobSaved_table db;
     user_table := if decide (t = schema.user) then s else user_table db |}.

(** The clock and the health of the connection while one request is
    served: [outage = Some msg] makes every statement fail with [msg]. *)
Record Env := { now : Z; outage : option string }.

(** What the code uses and the sources do not contain: the zod schemas of
    [jobModel.ts], zod's uuid check, the uuid generator behind [job.id],
    and the driver under drizzle. *)
Class Externals := {
  (** [JobSchema.parse(body)]: the issues, or the parsed object *)
  JobSchema_parse : Row -> list string + Row;
  (** [createJobSchema.safeParse(body)] *)
  createJobSchema_safeParse : Row -> list string + Row;
  (** [JobCategorySchema.parse(body)], then the [title] of the result *)
  JobCategorySchema_parse : Row -> list string + string;
  (** [z.string().uuid().safeParse(s).success] *)
  uuid_success : string -> bool;
  (** the [n]-th uuid that the database draws *)
  gen_random_uuid : Z -> string;
  (** the [length] property of what a DELETE without RETURNING resolves
      to, from the number of deleted rows; [None] when the driver's
      result has no such property *)
  delete_result_length : nat -> option Z
}.

(** ** Promises over the database: state and exceptions *)

Inductive Result (A : Type) :=
| Ok (a : A)
| Throw (e : Exn).
Arguments Ok {A} a.
Arguments Throw {A} e.

(** An asynchronous computation: it reads and writes the stored tables
    and resolves to a value or rejects with an error. *)
Definition M (A : Type) : Type := DB -> Result A * DB.

#[global] Instance M_ret : MRet M := fun A a db => (Ok a, db).

#[global] Instance M_bind : MBind M := fun A B f m db =>
  match m db with
  | (Ok a, db') => f a db'
  | (Throw e, db') => (Throw e, db')
  end.

Definition throw {A} (e : Exn) : M A := fun db => (Throw e, db).

(** [try { m } catch (error) { h error }], and [promise.catch(h)]. *)
Definition try_catch {A} (m : M A) (h : Exn -> M A) : M A := fun db =>
  match m db with
  | (Ok a, db') => (Ok a, db')
  | (Throw e, db') => h e db'
  end.

(** ** SQL conditions *)

Module sql.

(** [LIKE] with [%], [_] and the backslash escape, on ASCII text.  A
    lone escape at the end of the pattern matches nothing; the only
    patterns built here end in [%], so none ends in a lone escape. *)
Fixpoint like_match (p s : string) : bool :=
  match p with
  | EmptyString => if decide (s = EmptyString) then true else false
  | String "%" p' =>
      (fix star (s : string) : bool :=
         like_match p' s ||
         match s with
         | EmptyString => false
         | String _ s' => star s'
         end) s
  | String "_" p' =>
      match s with
      | EmptyString => false
      | String _ s' => like_match p' s'
      end
  | String "\" EmptyString => false
  | String "\" (String c p') =>
      match s with
      | String d s' => (if decide (c = d) then true else false) && like_match p' s'
      | EmptyString => false
      end
  | String c p' =>
      match s with
      | String d s' => (if decide (c = d) then true else false) && like_match p' s'
      | EmptyString => false
      end
  end.

(** A column of the rows a statement ranges over; [None] is NULL. *)
Definition Column (R : Type) : Type := R -> option Value.

Definition col (c : string) : Column Row := fun r =>
  match r !! c with
  | Some VNull => None
  | o => o
  end.
#[global] Arguments col : simpl never.

(** A condition: the message PostgreSQL rejects the statement with, or
    the predicate on rows. *)
Definition SQL (R : Type) : Type := string + (R -> bool).

(** [eq(column, v)] for a string or a boolean. *)
Definition eq {R} (c : Column R) (v : Value) : SQL R :=
  inr (fun r => if decide (c r = Some v) then true else false).

(** The range of PostgreSQL's [integer]. *)
Definition int4 (z : Z) : bool := (-2147483648 <=? z) && (z <=? 2147483647).

(** The upper end of the range of [bigint] is 2^63 - 1. *)
Definition above_int8 (z : Z) : bool := 9223372036854775808 <=? z.

(** [eq(column, n)] for a number and a column of type [integer]:
    PostgreSQL rejects NaN, which is no integer, and a number outside the
    range of the type. *)
Definition eq_num {R} (c : Column R) (n : JS.Num) : SQL R :=
  match n with
  | Some z =>
      if int4 z then eq c (VNum z)
      else inl "value is out of range for type integer"
  | None => inl "invalid input syntax for type integer: NaN"
  end.

(** [like(column, pattern)]. *)
Definition like {R} (c : Column R) (p : string) : SQL R :=
  inr (fun r => match c r with
                | Some (VStr s) => like_match p s
                | _ => false
                end).

(** [and(...conditions)]. *)
Fixpoint and {R} (cs : list (SQL R)) : SQL R :=
  match cs with
  | [] => inr (fun _ => true)
  | c :: cs' =>
      match c, and cs' with
      | inl msg, _ => inl msg
      | _, inl msg => inl msg
      | inr p, inr q => inr (fun r => p r && q r)
      end
  end.

End sql.

(** ** The statements drizzle sends *)

Module drizzle.
Section statements.
Context `{Externals} (env : Env).

(** Every statement goes through the connection, and is rejected when
    its condition is. *)
Definition execute {R A} (c : sql.SQL R) (stmt : (R -> bool) -> DB -> Result A * DB) : M A :=
  fun db =>
    match outage env, c with
    | Some msg, _ => (Throw (PostgresError msg), db)
    | None, inl msg => (Throw (PostgresError msg), db)
    | None, inr p => stmt p db
    end.

Definition no_condition : sql.SQL Row := sql.and [].

(** [db.select().from(t)]. *)
Definition select_from (t : schema.Table) : M (list Row) :=
  execute no_condition (fun _ db => (Ok (rows (table t db)), db)).

(** [db.select().from(t).where(c)]. *)
Definition select_from_where (t : schema.Table) (c : sql.SQL Row) : M (list Row) :=
  execute c (fun p db => (Ok (List.filter p (rows (table t db))), db)).

(** [db.query.t.findFirst({ where: c })]. *)
Definition findFirst (t : schema.Table) (c : sql.SQL Row) : M (option Row) :=
  execute c (fun p db => (Ok (List.find p (rows (table t db))), db)).

Definition column_values (c : string) (l : list Row) : list Value :=
  omap (sql.col c) l.

Definition duplicate_key (t : schema.Table) (c : string) : Exn :=
  PostgresError ("duplicate key value violates unique constraint "
                 +:+ schema.name t +:+ "_" +:+ c +:+ "_unique").

(** The row as stored: a missing [id] takes the table's default, which
    is consumed whether or not the insert goes through. *)
Definition fill_id (t : schema.Table) (v : Row) (s : Stored) : Row * Stored :=
  match v !! "id", schema.id_default t with
  | None, schema.Serial =>
      (<["id" := VNum (id_seq s)]> v, {| rows := rows s; id_seq := id_seq s + 1 |})
  | None, schema.RandomUuid =>
      (<["id" := VStr (gen_random_uuid (id_seq s))]> v, {| rows := rows s; id_seq := id_seq s + 1 |})
  | _, _ => (v, s)
  end.

(** The unique column on which [r] collides with a row of [l]. *)
Definition collides (t : schema.Table) (r : Row) (l : list Row) : option string :=
  List.find (fun c => match sql.col c r with
                      | Some v => bool_decide (v ∈ column_values c l)
                      | None => false
                      end) (schema.unique_columns t).

(** A serial [id] is an [integer]: a sequence that has left the range of
    the type gives no id. *)
Definition id_in_range (t : schema.Table) (r : Row) : bool :=
  match schema.id_default t, r !! "id" with
  | schema.Serial, Some (VNum z) => sql.int4 z
  | _, _ => true
  end.

(** [db.insert(t).values(v).returning()]. *)
Definition insert_values_returning (t : schema.Table) (v : Row) : M (list Row) :=
  execute no_condition (fun _ db =>
    let '(r, s) := fill_id t v (table t db) in
    if id_in_range t r then
      match collides t r (rows s) with
      | Some c => (Throw (duplicate_key t c), with_table t s db)
      | None => (Ok [r], with_table t {| rows := rows s ++ [r]; id_seq := id_seq s |} db)
      end
    else (Throw (PostgresError "integer out of range"), db)).

(** The rows of a table after [SET a WHERE p].  PostgreSQL writes a new
    version of every row it updates: a scan with no [ORDER BY] meets the
    rows that were left alone first, in their old order, and then the new
    versions. *)
Definition updated (a : Row) (p : Row -> bool) (l : list Row) : list Row :=
  List.filter (fun r => negb (p r)) l ++ List.map (fun r => a ∪ r) (List.filter p l).

(** A unique column that [SET a] assigns and on which an updated row now
    shares its value with another row. *)
Definition update_collides (t : schema.Table) (a : Row) (p : Row -> bool) (l : list Row)
  : option string :=
  let l' := updated a p l in
  List.find (fun c =>
    bool_decide (is_Some (a !! c)) &&
    existsb (fun r => match sql.col c r with
                      | Some v => (2 <=? length (List.filter (fun w => bool_decide (w = v)) (column_values c l')))%nat
                      | None => false
                      end) (List.map (fun r => a ∪ r) (List.filter p l)))
    (schema.unique_columns t).

(** [db.update(t).set(a).where(c).returning()]. *)
Definition update_set_where_returning (t : schema.Table) (a : Row) (c : sql.SQL Row)
  : M (list Row) :=
  execute c (fun p db =>
    let s := table t db in
    match update_collides t a p (rows s) with
    | Some k => (Throw (duplicate_key t k), db)
    | None =>
        (Ok (List.map (fun r => a ∪ r) (List.filter p (rows s))),
         with_table t {| rows := updated a p (rows s); id_seq := id_seq s |} db)
    end).

(** [db.delete(t).where(c).returning()]. *)
Definition delete_where_returning (t : schema.Table) (c : sql.SQL Row) : M (list Row) :=
  execute c (fun p db =>
    let s := table t db in
    (Ok (List.filter p (rows s)),
     with_table t {| rows := List.filter (fun r => negb (p r)) (rows s); id_seq := id_seq s |} db)).

(** [db.delete(t).where(c)] without RETURNING: what the driver resolves
    to has at most a [length]. *)
Definition delete_where (t : schema.Table) (c : sql.SQL Row) : M (option Z) :=
  n ← delete_where_returning t c;
  mret (delete_result_length (length n)).

(** [.limit(limit).offset(offset)].  drizzle writes the [LIMIT] clause
    only for a limit that is not negative, and the [OFFSET] clause for
    every offset but 0; both are sent as parameters of type [bigint].
    PostgreSQL rejects a negative offset. *)
Definition limit_offset {A} (limit offset : Z) (l : list A) : string + list A :=
  if offset <? 0 then inl "OFFSET must not be negative"
  else if sql.above_int8 offset || sql.above_int8 limit
  then inl "value is out of range for type bigint"
  else
    let rest := drop (Z.to_nat offset) l in
    inr (if limit <? 0 then rest else take (Z.to_nat limit) rest).

(** [.leftJoin(t, eq(left column, t.column))]: every row of the left side
    with each row of [t] it matches, or with NULLs when it matches none. *)
Definition leftJoin {A B} (l : list A) (right : list Row) (lc : sql.Column A) (rc : sql.Column Row)
    (pair : A -> option Row -> B) : list B :=
  flat_map (fun a =>
    match List.filter (fun r => match lc a, rc r with
                                | Some x, Some y => bool_decide (x = y)
                                | _, _ => false
                                end) right with
    | [] => [pair a None]
    | ms => List.map (fun r => pair a (Some r)) ms
    end) l.

End statements.
End drizzle.

(** ** Requests *)

Module express.
(** The principal that the authentication layer attaches. *)
Record User := { id : string; role : string }.

Record Request := {
  user : option User;
  params : gmap string string;
  query : gmap string string;
  body : Row
}.
End express.
Import express.

(** [{ k1: v1, ... }] as [res.json] serialises it: an undefined field is
    left out. *)
Definition obj (fs : list (string * option Json)) : Json :=
  JObj (omap (fun kv => pair kv.1 <$> kv.2) fs).

(** [new v(msg)] where [v] is a caught error object: not a constructor. *)
Definition new_ (v : Exn) (msg : string) : Result Exn :=
  Throw (TypeError "error is not a constructor").

(** [v(msg)] where [v] is a caught error object: not a function. *)
Definition call_ (v : Exn) (msg : string) : Result Exn :=
  Throw (TypeError "error is not a function").

(** [throw e] where evaluating [e] may itself throw. *)
Definition throw_result {A} (e : Result Exn) : M A :=
  match e with
  | Ok x => throw x
  | Throw x => throw x
  end.

(** [rows[0].k] *)
Definition first_field (k : string) (l : list Row) : M (option Value) :=
  match l with
  | r :: _ => mret (r !! k)
  | [] => throw (TypeError ("Cannot read properties of undefined (reading '" +:+ k +:+ "')"))
  end.

(** ** jobService.ts *)

Module jobService.
Section handlers.
Context `{Externals} (env : Env).

Definition message_body (k msg : string) : Json := JObj [(k, JStr msg)].

(** *** getJobById *)

Definition getJobById_try (req : Request) : M Response :=
  match params req !! "id" with
  | None | Some EmptyString =>
      mret (res_status_json 400 (message_body "message" "Job ID is required"))
  | Some id =>
      foundJob ← drizzle.findFirst env schema.job (sql.eq (sql.col "id") (VStr id));
      match foundJob with
      | None => mret (res_status_json 404 (message_body "message" "Job not found"))
      | Some j => mret (res_status_json 200 (JRow j))
      end
  end.

Definition getJobById_catch (error : Exn) : M Response :=
  mret (res_status_json 500
          (JObj [("message", JStr "Internal Server Error"); ("error", JStr (message error))])).

Definition getJobById (req : Request) : M Response :=
  try_catch (getJobById_try req) getJobById_catch.

(** *** deleteJobById *)

Definition deleteJobById_try (req : Request) : M Response :=
  match params req !! "id" with
  | None | Some EmptyString =>
      mret (res_status_json 400 (message_body "message" "Job ID is required"))
  | Some id =>
      result ← drizzle.delete_where env schema.job (sql.eq (sql.col "id") (VStr id));
      match result with
      | Some 0 => mret (res_status_json 404 (message_body "message" "Job not found"))
      | _ => mret (res_status_json 204 (JArr []))
      end
  end.

Definition deleteJobById_catch (error : Exn) : M Response :=
  mret (res_status_json 500
          (JObj [("message", JStr "Internal Server Error"); ("error", JStr (message error))])).

Definition deleteJobById (req : Request) : M Response :=
  match user req with
  | Some u =>
      if decide (JS.toLowerCase (role u) = "admin")
      then try_catch (deleteJobById_try req) deleteJobById_catch
      else mret (res_status_json 401 (message_body "message" "Unauthorized"))
  | None => mret (res_status_json 401 (message_body "message" "Unauthorized"))
  end.

(** *** updateJob *)

Definition updateJob_try (req : Request) : M Response :=
  match params req !! "jobId" with
  | Some jobId =>
      if uuid_success jobId then
        match JobSchema_parse (body req) with
        | inl issues => throw (ZodError issues)
        | inr jobData =>
            updatedJob ← drizzle.update_set_where_returning env schema.job
                           (<["updatedAt" := VDate (now env)]> jobData)
                           (sql.eq (sql.col "id") (VStr jobId));
            match updatedJob with
            | [] => mret (res_status_json 404 (message_body "error" "Job not found"))
            | j :: _ => mret (res_status_json 200 (JRow j))
            end
        end
      else mret (res_status_json 400 (message_body "error" "Invalid job ID format"))
  | None => mret (res_status_json 400 (message_body "error" "Invalid job ID format"))
  end.

Definition updateJob_catch (error : Exn) : M Response :=
  match error with
  | ZodError issues =>
      mret (res_status_json 422
              (JObj [("error", JStr "Validation exception"); ("msg", JArr (JStr <$> issues))]))
  | _ => mret (res_status_json 500 (message_body "error" "Internal server error"))
  end.

Definition updateJob (req : Request) : M Response :=
  match user req with
  | Some u =>
      if decide (JS.toLowerCase (role u) = "admin")
      then try_catch (updateJob_try req) updateJob_catch
      else mret (res_status_json 401 (message_body "message" "Unauthorized"))
  | None => mret (res_status_json 401 (message_body "message" "Unauthorized"))
  end.

(** *** getJobs *)

(** A row of [job] left-joined with its category, level and company. *)
Record Joined := {
  j_job : Row;
  j_jobCategory : option Row;
  j_jobLevel : option Row;
  j_company : option Row
}.

Definition job_col (c : string) : sql.Column Joined := fun j => sql.col c (j_job j).
Definition jobCategory_col (c : string) : sql.Column Joined := fun j => j_jobCategory j ≫= sql.col c.
Definition jobLevel_col (c : string) : sql.Column Joined := fun j => j_jobLevel j ≫= sql.col c.
Definition company_col (c : string) : sql.Column Joined := fun j => j_company j ≫= sql.col c.

(** [.from(job).leftJoin(jobCategory, ..).leftJoin(jobLevel, ..).leftJoin(company, ..)] *)
Definition from_job_joined (db : DB) : list Joined :=
  let j1 := drizzle.leftJoin (rows (job_table db)) (rows (jobCategory_table db))
              (sql.col "categoryId") (sql.col "id") pair in
  let j2 := drizzle.leftJoin j1 (rows (jobLevel_table db))
              (fun jc => sql.col "levelId" jc.1) (sql.col "id") pair in
  drizzle.leftJoin j2 (rows (company_table db))
    (fun jcl => sql.col "companyId" jcl.1.1) (sql.col "id")
    (fun jcl co => {| j_job := jcl.1.1; j_jobCategory := jcl.1.2;
                      j_jobLevel := jcl.2; j_company := co |}).

(** The selected fields of one result row. *)
Definition selected (j : Joined) : Json :=
  JObj [("job", JRow (j_job j));
        ("category", JVal (default VNull (jobCategory_col "title" j)));
        ("level", JVal (default VNull (jobLevel_col "title" j)));
        ("companyName", JVal (default VNull (company_col "name" j)))].

Definition truthy (o : option string) : bool :=
  match o with
  | None | Some EmptyString => false
  | Some _ => true
  end.

Definition conditions (req : Request) : list (sql.SQL Joined) :=
  [sql.eq (job_col "isApproved") (VBool true)]
  ++ (if truthy (query req !! "categoryId")
      then [sql.eq_num (job_col "categoryId") (JS.parseInt_opt (query req !! "categoryId"))]
      else [])
  ++ (if truthy (query req !! "levelId")
      then [sql.eq_num (job_col "levelId") (JS.parseInt_opt (query req !! "levelId"))]
      else [])
  ++ (match query req !! "companyName" with
      | None | Some EmptyString => []
      | Some companyName => [sql.like (company_col "name") ("%" +:+ companyName +:+ "%")]
      end).

Definition page_of (req : Request) : Z :=
  JS.or_default (JS.parseInt (default "1" (query req !! "pageIndex"))) 1.

Definition limit_of (req : Request) : Z :=
  JS.or_default (JS.parseInt (default "10" (query req !! "pageSize"))) 10.

(** [countQuery.execute()], then [totalCount[0].count].  [count( * )] is
    a [bigint], which the driver hands over as its decimal text. *)
Definition countQuery (req : Request) : M string :=
  drizzle.execute env (sql.and (conditions req)) (fun p db =>
    (Ok (JS.Number_toString (Z.of_nat (length (List.filter p (from_job_joined db))))), db)).

(** [finalQuery.execute()] *)
Definition finalQuery (req : Request) (limit offset : Z) : M (list Joined) :=
  drizzle.execute env (sql.and (conditions req)) (fun p db =>
    match drizzle.limit_offset limit offset (List.filter p (from_job_joined db)) with
    | inl msg => (Throw (PostgresError msg), db)
    | inr l => (Ok l, db)
    end).

(** The check [!totalCount || !result] is left out: both are arrays, which
    are never falsy. *)
Definition getJobs_try (req : Request) : M Response :=
  let page := page_of req in
  let limit := limit_of req in
  let offset := (page - 1) * limit in
  totalCount ← countQuery req;
  result ← finalQuery req limit offset;
  match result with
  | [] => mret (res_status_json 404 (JStr "No job found"))
  | _ =>
      mret (res_json
              (JObj [("data", JArr (selected <$> result));
                     ("pagination",
                      JObj [("currentPage", JNum page);
                            ("pageSize", JNum limit);
                            ("totalCount", JStr totalCount);
                            ("totalPages",
                             JNumber ((fun count => JS.Math_ceil_div count limit)
                                        <$> JS.Number totalCount))])]))
  end.

Definition getJobs_catch (error : Exn) : M Response :=
  mret (res_status_json 500 (message_body "error" "Internal server error")).

Definition getJobs (req : Request) : M Response :=
  try_catch (getJobs_try req) getJobs_catch.

(** *** submitJobForApproval *)

Definition submitJobForApproval_try (req : Request) : M Response :=
  match user req with
  | None => mret (res_status_json 401 (message_body "message" "Unauthorized"))
  | Some u =>
      let isAdmin := if decide (JS.toLowerCase (role u) = "admin") then true else false in
      match createJobSchema_safeParse (body req) with
      | inl issues =>
          mret (res_status_json 422
                  (JObj [("message", JStr "Validation error"); ("errors", JArr (JStr <$> issues))]))
      | inr data =>
          newJob ← drizzle.insert_values_returning env schema.job
                     (set_field "title" (data !! "title")
                     (set_field "levelId" (data !! "level_id")
                     (set_field "categoryId" (data !! "category_id")
                     (set_field "typeId" (data !! "type_id")
                     (set_field "location" (data !! "location")
                     (set_field "description" (data !! "description")
                     (set_field "compensation" (data !! "compensation")
                     (set_field "applicationLink" (data !! "application_link")
                     (set_field "isExternal" (data !! "is_external")
                     (set_field "companyId" (data !! "company_id")
                     (set_field "tags" (data !! "tags")
                     {["isApproved" := VBool isAdmin]})))))))))));
          jobId ← first_field "id" newJob;
          mret (res_status_json 202
                  (obj [("message", Some (JStr "Job submitted for approval"));
                        ("jobId", JVal <$> jobId)]))
      end
  end.

Definition submitJobForApproval_catch (error : Exn) : M Response :=
  mret (res_status_json 400 (message_body "message" "Invalid input")).

Definition submitJobForApproval (req : Request) : M Response :=
  try_catch (submitJobForApproval_try req) submitJobForApproval_catch.

(** *** approveJob *)

Definition approveJob_try (req : Request) : M Response :=
  match params req !! "jobId" with
  | None | Some EmptyString =>
      mret (res_status_json 400 (message_body "message" "Invalid job ID"))
  | Some jobId =>
      updatedRows ← drizzle.update_set_where_returning env schema.job
                      {["isApproved" := VBool true]} (sql.eq (sql.col "id") (VStr jobId));
      (* .returning({ id: job.id }) *)
      let result : list Row := (fun r => set_field "id" (r !! "id") ∅) <$> updatedRows in
      match result with
      | [] => mret (res_status_json 404 (message_body "message" "Job not found"))
      | r :: _ =>
          mret (res_status_json 200
                  (obj [("message", Some (JStr "Job approved successfully"));
                        ("jobId", JVal <$> r !! "id")]))
      end
  end.

Definition approveJob_catch (error : Exn) : M Response :=
  mret (res_status_json 500 (message_body "message" "Internal server error")).

Definition approveJob (req : Request) : M Response :=
  match user req with
  | Some u =>
      if decide (JS.toLocaleLowerCase (role u) = "admin")
      then try_catch (approveJob_try req) approveJob_catch
      else mret (res_status_json 401 (message_body "message" "Unauthorized"))
  | None => mret (res_status_json 401 (message_body "message" "Unauthorized"))
  end.

(** *** rejectJob *)

Definition rejectJob_try (req : Request) : M Response :=
  match params req !! "jobId" with
  | None | Some EmptyString =>
      mret (res_status_json 400 (message_body "message" "Invalid job ID"))
  | Some jobId =>
      rejectedJob ← drizzle.delete_where_returning env schema.job
                      (sql.eq (sql.col "id") (VStr jobId));
      match rejectedJob with
      | [] => mret (res_status_json 404 (message_body "message" "Job not found"))
      | j :: _ =>
          mret (res_status_json 200
                  (JObj [("message", JStr "Job rejected successfully"); ("jobId", JRow j)]))
      end
  end.

Definition rejectJob_catch (error : Exn) : M Response :=
  mret (res_status_json 500 (message_body "message" "Internal server error")).

Definition rejectJob (req : Request) : M Response :=
  match user req with
  | Some u =>
      if decide (JS.toLocaleLowerCase (role u) = "admin")
      then try_catch (rejectJob_try req) rejectJob_catch
      else mret (res_status_json 401 (message_body "message" "Unauthorized"))
  | None => mret (res_status_json 401 (message_body "message" "Unauthorized"))
  end.

(** *** createJobCategory *)

(** [rows[0]] as a field of a JSON body *)
Definition first_row (l : list Row) : option Json := JRow <$> head l.

Definition createJobCategory_try (title : string) : M Response :=
  newCategory ← try_catch
      (drizzle.insert_values_returning env schema.jobCategory {["title" := VStr title]})
      (fun error => throw_result (new_ error "Job category already exist"));
  mret (res_status_json 201
          (obj [("message", Some (JStr "Job category created successfully"));
                ("category", first_row newCategory)])).

Definition createJobCategory_catch (error : Exn) : M Response :=
  match error with
  | ZodError issues =>
      mret (res_status_json 400
              (JObj [("message", JStr "Invalid input"); ("errors", JArr (JStr <$> issues))]))
  | _ =>
      if decide (message error = "Job category already exists")
      then mret (res_status_json 409 (message_body "message" (message error)))
      else mret (res_status_json 500 (message_body "message" "Internal server error"))
  end.

(** The body is parsed before the [try]: a ZodError leaves the handler. *)
Definition createJobCategory (req : Request) : M Response :=
  match JobCategorySchema_parse (body req) with
  | inl issues => throw (ZodError issues)
  | inr title => try_catch (createJobCategory_try title) createJobCategory_catch
  end.

(** *** getCategoryById *)

Definition getCategoryById_try (req : Request) : M Response :=
  let categoryID := JS.parseInt_opt (params req !! "id") in
  categoryFound ← drizzle.select_from_where env schema.jobCategory
                    (sql.eq_num (sql.col "id") categoryID);
  match categoryFound with
  | [] => mret (res_status_json 404 (message_body "message" "Category not found"))
  | c :: _ => mret (res_status_json 200 (JObj [("category", JRow c)]))
  end.

Definition getCategoryById_catch (error : Exn) : M Response :=
  mret (res_status_json 500 (message_body "message" "Internal server error")).

Definition getCategoryById (req : Request) : M Response :=
  try_catch (getCategoryById_try req) getCategoryById_catch.

(** *** upadteJobCategory *)

Definition upadteJobCategory_try (req : Request) : M Response :=
  let categoryID := JS.parseInt_opt (params req !! "id") in
  match JobCategorySchema_parse (body req) with
  | inl issues => throw (ZodError issues)
  | inr title =>
      updatedCategory ← drizzle.update_set_where_returning env schema.jobCategory
                          {["title" := VStr title]} (sql.eq_num (sql.col "id") categoryID);
      match updatedCategory with
      | [] => mret (res_status_json 404 (message_body "message" "Job category not found"))
      | c :: _ =>
          mret (res_status_json 200
                  (JObj [("message", JStr "Job category updated successfully");
                         ("category", JRow c)]))
      end
  end.

Definition upadteJobCategory_catch (error : Exn) : M Response :=
  match error with
  | ZodError issues =>
      mret (res_status_json 400
              (JObj [("message", JStr "Invalid input"); ("errors", JArr (JStr <$> issues))]))
  | _ =>
      if JS.includes (message error) "unique constraint"
      then mret (res_status_json 409
                   (message_body "message" "A job category with this title already exists"))
      else mret (res_status_json 500 (message_body "message" "Internal server error"))
  end.

Definition upadteJobCategory (req : Request) : M Response :=
  try_catch (upadteJobCategory_try req) upadteJobCategory_catch.

(** *** deleteJobCategory *)

Definition deleteJobCategory_try (req : Request) : M Response :=
  let categoryID := JS.parseInt_opt (params req !! "id") in
  deletedCategory ← drizzle.delete_where_returning env schema.jobCategory
                      (sql.eq_num (sql.col "id") categoryID);
  match deletedCategory with
  | [] => mret (res_status_json 404 (message_body "error" "Job category not found"))
  | c :: _ =>
      mret (res_status_json 200
              (JObj [("message", JStr "Job category deleted successfully");
                     ("category", JRow c)]))
  end.

Definition deleteJobCategory_catch (error : Exn) : M Response :=
  mret (res_status_json 500 (message_body "error" "Internal server error")).

Definition deleteJobCategory (req : Request) : M Response :=
  try_catch (deleteJobCategory_try req) deleteJobCategory_catch.

(** *** createJobLevel *)

Definition createJobLevel_try (req : Request) : M Response :=
  match JobCategorySchema_parse (body req) with
  | inl issues => throw (ZodError issues)
  | inr title =>
      newLevel ← try_catch
          (drizzle.insert_values_returning env schema.jobLevel {["title" := VStr title]})
          (fun error => throw_result (call_ error "Job category already exist"));
      mret (res_status_json 201
              (obj [("message", Some (JStr "Job category created successfully"));
                    ("category", first_row newLevel)]))
  end.

Definition createJobLevel_catch (error : Exn) : M Response :=
  match error with
  | ZodError issues =>
      mret (res_status_json 400
              (JObj [("message", JStr "Invalid input"); ("errors", JArr (JStr <$> issues))]))
  | _ =>
      if decide (message error = "Job category already exists")
      then mret (res_status_json 409 (message_body "message" (message error)))
      else mret (res_status_json 500 (message_body "message" "Internal server error"))
  end.

Definition createJobLevel (req : Request) : M Response :=
  try_catch (createJobLevel_try req) createJobLevel_catch.

(** *** getJobLevelById *)

Definition getJobLevelById_try (req : Request) : M Response :=
  let levelID := JS.parseInt_opt (params req !! "id") in
  levelFound ← drizzle.select_from_where env schema.jobLevel
                 (sql.eq_num (sql.col "id") levelID);
  match levelFound with
  | [] => mret (res_status_json 404 (message_body "message" "Category not found"))
  | l :: _ => mret (res_status_json 200 (JObj [("category", JRow l)]))
  end.

Definition getJobLevelById_catch (error : Exn) : M Response :=
  mret (res_status_json 500 (message_body "message" "Internal server error")).

Definition getJobLevelById (req : Request) : M Response :=
  try_catch (getJobLevelById_try req) getJobLevelById_catch.

(** *** updateJobLevel *)

Definition updateJobLevel_try (req : Request) : M Response :=
  let levelID := JS.parseInt_opt (params req !! "id") in
  match JobCategorySchema_parse (body req) with
  | inl issues => throw (ZodError issues)
  | inr title =>
      updatedLevel ← drizzle.update_set_where_returning env schema.jobLevel
                       {["title" := VStr title]} (sql.eq_num (sql.col "id") levelID);
      match updatedLevel with
      | [] => mret (res_status_json 404 (message_body "message" "Job level not found"))
      | l :: _ =>
          mret (res_status_json 200
                  (JObj [("message", JStr "Job level updated successfully"); ("level", JRow l)]))
      end
  end.

Definition updateJobLevel_catch (error : Exn) : M Response :=
  match error with
  | ZodError issues =>
      mret (res_status_json 400
              (JObj [("message", JStr "Invalid input"); ("errors", JArr (JStr <$> issues))]))
  | _ =>
      if JS.includes (message error) "unique constraint"
      then mret (res_status_json 409
                   (message_body "message" "A job level with this title already exists"))
      else mret (res_status_json 500 (message_body "message" "Internal server error"))
  end.

Definition updateJobLevel (req : Request) : M Response :=
  try_catch (updateJobLevel_try req) updateJobLevel_catch.

(** *** deleteJobLevel *)

Definition deleteJobLevel_try (req : Request) : M Response :=
  let levelID := JS.parseInt_opt (params req !! "id") in
  deletedLevel ← drizzle.delete_where_returning env schema.jobLevel
                   (sql.eq_num (sql.col "id") levelID);
  match deletedLevel with
  | [] => mret (res_status_json 404 (message_body "error" "Job level not found"))
  | l :: _ =>
      mret (res_status_json 200
              (JObj [("message", JStr "Job level deleted successfully"); ("level", JRow l)]))
  end.

Definition deleteJobLevel_catch (error : Exn) : M Response :=
  mret (res_status_json 500 (message_body "error" "Internal server error")).

Definition deleteJobLevel (req : Request) : M Response :=
  try_catch (deleteJobLevel_try req) deleteJobLevel_catch.

(** *** saveJob *)

Definition saveJob_try (req : Request) : M Response :=
  match params req !! "id", id <$> user req with
  | Some (String a id'), Some (String b userId') =>
      savedJobResult ← drizzle.insert_values_returning env schema.jobSaved
                         (<["userId" := VStr (String b userId')]>
                            {["jobId" := VStr (String a id')]});
      match savedJobResult with
      | [] => mret (res_status_json 500 (message_body "error" "Failed to save job"))
      | savedJob :: _ =>
          mret (res_status_json 200
                  (JObj [("savedJob", JRow savedJob); ("message", JStr "Job saved successfully")]))
      end
  | _, _ => mret (res_status_json 400 (message_body "error" "bad request"))
  end.

Definition saveJob_catch (error : Exn) : M Response :=
  mret (res_status_json 500 (message_body "error" "Internal server error")).

Definition saveJob (req : Request) : M Response :=
  try_catch (saveJob_try req) saveJob_catch.

(** *** getCategories *)

Definition getCategories_try (req : Request) : M Response :=
  categories ← drizzle.select_from env schema.jobCategory;
  mret (res_status_json 200 (JArr (JRow <$> categories))).

Definition getCategories_catch (error : Exn) : M Response :=
  mret (res_status_json 500 (JStr "Internal server error")).

Definition getCategories (req : Request) : M Response :=
  try_catch (getCategories_try req) getCategories_catch.

(** *** The exported handlers *)

Inductive Handler :=
| GetJobById | DeleteJobById | UpdateJob | GetJobs | SubmitJobForApproval
| ApproveJob | RejectJob
| CreateJobCategory | GetCategoryById | UpadteJobCategory | DeleteJobCategory
| CreateJobLevel | GetJobLevelById | UpdateJobLevel | DeleteJobLevel
| SaveJob | GetCategories.

Definition handle (h : Handler) : Request -> M Response :=
  match h with
  | GetJobById => getJobById
  | DeleteJobById => deleteJobById
  | UpdateJob => updateJob
  | GetJobs => getJobs
  | SubmitJobForApproval => submitJobForApproval
  | ApproveJob => approveJob
  | RejectJob => rejectJob
  | CreateJobCategory => createJobCategory
  | GetCategoryById => getCategoryById
  | UpadteJobCategory => upadteJobCategory
  | DeleteJobCategory => deleteJobCategory
  | CreateJobLevel => createJobLevel
  | GetJobLevelById => getJobLevelById
  | UpdateJobLevel => updateJobLevel
  | DeleteJobLevel => deleteJobLevel
  | SaveJob => saveJob
  | GetCategories => getCategories
  end.

(** The [catch] clause of each handler. *)
Definition catch_clause (h : Handler) : Exn -> M Response :=
  match h with
  | GetJobById => getJobById_catch
  | DeleteJobById => deleteJobById_catch
  | UpdateJob => updateJob_catch
  | GetJobs => getJobs_catch
  | SubmitJobForApproval => submitJobForApproval_catch
  | ApproveJob => approveJob_catch
  | RejectJob => rejectJob_catch
  | CreateJobCategory => createJobCategory_catch
  | GetCategoryById => getCategoryById_catch
  | UpadteJobCategory => upadteJobCategory_catch
  | DeleteJobCategory => deleteJobCategory_catch
  | CreateJobLevel => createJobLevel_catch
  | GetJobLevelById => getJobLevelById_catch
  | UpdateJobLevel => updateJobLevel_catch
  | DeleteJobLevel => deleteJobLevel_catch
  | SaveJob => saveJob_catch
  | GetCategories => getCategories_catch
  end.

End handlers.
End jobService.

(** ** userRepository *)

Module userRepository.
Section repository.
Context `{Externals} (env : Env).

Definition findAllAsync : M (list Row) :=
  drizzle.select_from env schema.user.

Definition findByIdAsync (id : string) : M (option Row) :=
  result ← drizzle.select_from_where env schema.user (sql.eq (sql.col "id") (VStr id));
  mret (head result).

Definition findByEmailAsync (email : string) : M (option Row) :=
  result ← drizzle.select_from_where env schema.user (sql.eq (sql.col "email") (VStr email));
  mret (head result).

Definition findByUsernameAsync (username : string) : M (option Row) :=
  result ← drizzle.select_from_where env schema.user (sql.eq (sql.col "username") (VStr username));
  mret (head result).

(** [createUserRequest] is the validated request object; a field it lacks
    is undefined and left to the column's default. *)
Definition createUserAsync (createUserRequest : Row) : M unit :=
  _ ← drizzle.insert_values_returning env schema.user
        (set_field "email" (createUserRequest !! "email")
        (set_field "username" (createUserRequest !! "username")
        (set_field "password" (createUserRequest !! "password")
        (set_field "fullName" (createUserRequest !! "full_name")
        (set_field "phoneNumber" (createUserRequest !! "phone_number")
        (set_field "levelId" (createUserRequest !! "level_id") ∅))))));
  mret tt.

Definition deleteUserAsync (id : string) : M unit :=
  _ ← drizzle.delete_where env schema.user (sql.eq (sql.col "id") (VStr id));
  mret tt.

Definition updateUserAsync (id fullName : string) (levelId categoryId : Z) (tags : option string)
  : M (option Row) :=
  let updatedAt := VDate (now env) in
  result ← drizzle.update_set_where_returning env schema.user
             (<["fullName" := VStr fullName]>
             (<["levelId" := VNum levelId]>
             (<["categoryId" := VNum categoryId]>
             (set_field "tags" (VStr <$> tags)
             {["updatedAt" := updatedAt]}))))
             (sql.eq (sql.col "id") (VStr id));
  mret (head result).

Definition resetPasswordAsync (id password : string) : M (option Row) :=
  let updatedAt := VDate (now env) in
  result ← drizzle.update_set_where_returning env schema.user
             (<["password" := VStr password]> {["updatedAt" := updatedAt]})
             (sql.eq (sql.col "id") (VStr id));
  mret (head result).

(** [select({ password: user.password })] keeps that one column. *)
Definition getPasswordAsync (id : string) : M (option Value) :=
  found ← drizzle.select_from_where env schema.user (sql.eq (sql.col "id") (VStr id));
  let pass : list Row := (fun r => set_field "password" (r !! "password") ∅) <$> found in
  first_field "password" pass.

End repository.
End userRepository.

(** ** eventRouter: the routes that have no validation middleware *)

Module eventRouter.

(** [new ServiceResponse(status, message, responseObject, statusCode)] *)
Record ServiceResponse := {
  success : bool;
  message : string;
  responseObject : option Json;
  statusCode : Z
}.

(** What the router uses and the sources do not contain: the schemas of
    [eventRequest.ts], the event service, and [handleServiceResponse],
    which writes the response for a service response. *)
Class Collaborators := {
  (** [CreateEventSchema.parse({ body: req.body })] *)
  CreateEventSchema_parse : Row -> list string + Row;
  (** [UpdateEventSchema.parse(req)] *)
  UpdateEventSchema_parse : Request -> list string + Row;
  eventService_create : Row -> M ServiceResponse;
  eventService_update : option string -> Row -> M ServiceResponse;
  eventService_delete : option string -> M ServiceResponse;
  eventService_getRegistrations : option string -> M ServiceResponse;
  eventService_newRegisteration : option string -> option string -> option Value -> M ServiceResponse;
  handleServiceResponse : ServiceResponse -> Response
}.

Section routes.
Context `{Collaborators}.

(** [new ServiceResponse(ResponseStatus.Failed, 'bad request', null,
    StatusCodes.BAD_REQUEST)] *)
Definition bad_request : ServiceResponse :=
  {| success := false; message := "bad request"; responseObject := None; statusCode := 400 |}.

(** The [catch] of POST and PUT: only a ZodError is answered.  [None] is
    a handler that returns without having written a response. *)
Definition zod_catch (error : Exn) : M (option Response) :=
  if instanceof_ZodError error
  then mret (Some (handleServiceResponse bad_request))
  else mret None.

(** [router.post('/', ...)] *)
Definition post (req : Request) : M (option Response) :=
  try_catch
    (match CreateEventSchema_parse (body req) with
     | inl issues => throw (ZodError issues)
     | inr parsedEvent =>
         serviceResponse ← eventService_create parsedEvent;
         mret (Some (handleServiceResponse serviceResponse))
     end)
    zod_catch.

(** [router.put('/:id', ...)] *)
Definition put (req : Request) : M (option Response) :=
  try_catch
    (let id := params req !! "id" in
     match UpdateEventSchema_parse req with
     | inl issues => throw (ZodError issues)
     | inr parsedEvent =>
         serviceResponse ← eventService_update id parsedEvent;
         mret (Some (handleServiceResponse serviceResponse))
     end)
    zod_catch.

(** [router.delete('/:id', ...)] *)
Definition delete (req : Request) : M (option Response) :=
  serviceResponse ← eventService_delete (params req !! "id");
  mret (Some (handleServiceResponse serviceResponse)).

(** [router.get('/:eventId/registrations', ...)] *)
Definition registrations (req : Request) : M (option Response) :=
  serviceResponse ← eventService_getRegistrations (params req !! "eventId");
  mret (Some (handleServiceResponse serviceResponse)).

(** [router.post('/:eventId/register/:userId', ...)] *)
Definition register (req : Request) : M (option Response) :=
  serviceResponse ← eventService_newRegisteration
                      (params req !! "eventId") (params req !! "userId") (body req !! "userType");
  mret (Some (handleServiceResponse serviceResponse)).

End routes.
End eventRouter.

(** ** A concrete setting to run the handlers in *)

Module fixture.

Definition is_hex (c : ascii) : bool :=
  let n := JS.code c in
  ((48 <=? n) && (n <=? 57) || (65 <=? n) && (n <=? 70) || (97 <=? n) && (n <=? 102))%N.

(** Groups of 8, 4, 4, 4 and 12 hexadecimal digits, separated by dashes. *)
Fixpoint hex_groups (groups : list nat) (s : string) : bool :=
  match groups with
  | [] => false
  | O :: [] => if decide (s = EmptyString) then true else false
  | O :: rest =>
      match s with
      | String "-" s' => hex_groups rest s'
      | _ => false
      end
  | S n :: rest =>
      match s with
      | String c s' => is_hex c && hex_groups (n :: rest) s'
      | EmptyString => false
      end
  end.

Definition required_title (b : Row) : list string + string :=
  match b !! "title" with
  | Some (VStr t) => inr t
  | Some _ => inl ["title: Expected string"]
  | None => inl ["title: Required"]
  end.

(** Modelled from the spec: [jobModel.ts] is not part of the sources.  A
    category or level body is an object with a string [title] ("title
    field only"), and a job body needs at least its [title].  The uuids
    drawn are numbered; a DELETE without RETURNING resolves to an empty row
    list, as the postgres-js driver does. *)
Definition with_title (b : Row) : list string + Row :=
  match required_title b with
  | inl issues => inl issues
  | inr _ => inr b
  end.

Definition externals : Externals := {|
  JobSchema_parse := with_title;
  createJobSchema_safeParse := with_title;
  JobCategorySchema_parse := required_title;
  uuid_success := hex_groups [8; 4; 4; 4; 12]%nat;
  gen_random_uuid n :=
    "00000000-0000-4000-8000-00000000000" +:+ JS.Number_toString (n `mod` 10);
  delete_result_length _ := Some 0
|}.

Definition empty_table : Stored := {| rows := []; id_seq := 1 |}.

Definition empty_db : DB := {|
  job_table := empty_table; jobCategory_table := empty_table; jobLevel_table := empty_table;
  company_table := empty_table; jobSaved_table := empty_table; user_table := empty_table |}.

Definition healthy : Env := {| now := 1700000000000; outage := None |}.
Definition down : Env := {| now := 1700000000000; outage := Some "connect ECONNREFUSED 127.0.0.1:5432" |}.

Definition admin : User := {| id := "u-1"; role := "Admin" |}.
Definition member : User := {| id := "u-2"; role := "user" |}.

Definition request (u : option User) (ps qs : list (string * string)) (b : list (string * Value))
  : Request :=
  {| user := u; params := list_to_map ps; query := list_to_map qs; body := list_to_map b |}.

Definition uuid0 : string := "00000000-0000-4000-8000-000000000001".

(** A pending and an approved job. *)
Definition pending_job : Row :=
  list_to_map [("id", VStr uuid0); ("title", VStr "Backend developer"); ("isApproved", VBool false)].
Definition approved_job : Row :=
  list_to_map [("id", VStr "00000000-0000-4000-8000-000000000002");
               ("title", VStr "Designer"); ("isApproved", VBool true)].

Definition two_jobs : DB :=
  with_table schema.job {| rows := [pending_job; approved_job]; id_seq := 3 |} empty_db.

Definition engineering : Row := list_to_map [("id", VNum 1); ("title", VStr "Engineering")].

Definition one_category : DB :=
  with_table schema.jobCategory {| rows := [engineering]; id_seq := 2 |} empty_db.

Definition alice : Row :=
  list_to_map [("id", VStr "u-1"); ("email", VStr "alice@example.org");
               ("username", VStr "alice"); ("password", VStr "$2b$10$hash")].

Definition one_user : DB :=
  with_table schema.user {| rows := [alice]; id_seq := 1 |} empty_db.

(** The requests used below. *)
Definition post_job (u : User) : Request :=
  request (Some u) [] [] [("title", VStr "Backend developer"); ("level_id", VNum 2)].
Definition delete_job_as_member : Request := request (Some member) [("id", uuid0)] [] [].
Definition post_category (title : string) : Request :=
  request None [] [] [("title", VStr title)].
Definition get_category (id : string) : Request := request None [("id", id)] [] [].
Definition put_category (id title : string) : Request :=
  request None [("id", id)] [] [("title", VStr title)].
Definition put_job : Request :=
  request (Some admin) [("jobId", uuid0)] [] [("title", VStr "Backend engineer")].
Definition approve_job : Request := request (Some admin) [("jobId", uuid0)] [] [].
Definition list_jobs (pageIndex : string) : Request :=
  request None [] [("pageIndex", pageIndex)] [].
Definition get_job : Request := request None [("id", uuid0)] [] [].

(** The category that [post_category "Design"] stores in [one_category],
    and the tables afterwards. *)
Definition design : Row := <["id" := VNum 2]> {["title" := VStr "Design"]}.
Definition two_categories : DB :=
  with_table schema.jobCategory {| rows := [engineering; design]; id_seq := 3 |} empty_db.
Definition design_created : Response :=
  res_status_json 201
    (JObj [("message", JStr "Job category created successfully"); ("category", JRow design)]).

(** What [put_job] makes of the pending job, at the time of [healthy]. *)
Definition backend_engineer : Row :=
  <["updatedAt" := VDate 1700000000000]> (<["title" := VStr "Backend engineer"]> pending_job).
Definition jobs_after_put : DB :=
  with_table schema.job {| rows := [approved_job; backend_engineer]; id_seq := 3 |} empty_db.

(** What [put_category "1" "Platform"] makes of [one_category]. *)
Definition platform : Row := <["title" := VStr "Platform"]> engineering.
Definition platform_updated : Response :=
  res_status_json 200
    (JObj [("message", JStr "Job category updated successfully"); ("category", JRow platform)]).
Definition renamed_category : DB :=
  with_table schema.jobCategory {| rows := [platform]; id_seq := 2 |} empty_db.

(** The first page of [two_jobs]: the approved job alone. *)
Definition first_page : Response :=
  res_json
    (JObj [("data",
            JArr [JObj [("job", JRow approved_job); ("category", JVal VNull);
                        ("level", JVal VNull); ("companyName", JVal VNull)]]);
           ("pagination",
            JObj [("currentPage", JNum 1); ("pageSize", JNum 10);
                  ("totalCount", JStr "1"); ("totalPages", JNum 1)])]).

End fixture.

(** ** Vocabulary of the properties *)

Import jobService.

(** A request that carries no principal, or one whose role is not
    ['admin'] whatever its case. *)
Definition no_admin (req : Request) : Prop :=
  match user req with
  | None => True
  | Some u => JS.toLowerCase (role u) <> "admin"
  end.

Definition is_admin (req : Request) : bool :=
  match user req with
  | Some u => bool_decide (JS.toLowerCase (role u) = "admin")
  | None => false
  end.

(** The handlers that change a job and check the principal themselves. *)
Definition job_mutation (h : Handler) : bool :=
  match h with
  | UpdateJob | DeleteJobById | ApproveJob | RejectJob => true
  | _ => false
  end.

(** The handlers that create, update or delete a category or a level. *)
Definition title_mutation (h : Handler) : bool :=
  match h with
  | CreateJobCategory | UpadteJobCategory | DeleteJobCategory
  | CreateJobLevel | UpdateJobLevel | DeleteJobLevel => true
  | _ => false
  end.

Definition unauthorized : Response :=
  res_status_json 401 (message_body "message" "Unauthorized").

Definition internal_server_error : Response :=
  res_status_json 500 (message_body "message" "Internal server error").

(** The assignment and the condition of [approveJob]'s UPDATE. *)
Definition approval : Row := {["isApproved" := VBool true]}.
Definition has_id (jobId : string) (r : Row) : bool :=
  if decide (sql.col "id" r = Some (VStr jobId)) then true else false.

Definition accepts {A B} (r : A + B) : bool :=
  match r with
  | inl _ => false
  | inr _ => true
  end.

(** The requests that get past the checks a handler makes before its
    first statement. *)
Definition reaches_storage `{Externals} (h : Handler) (req : Request) : bool :=
  match h with
  | GetJobById => truthy (params req !! "id")
  | DeleteJobById => is_admin req && truthy (params req !! "id")
  | UpdateJob =>
      is_admin req
      && match params req !! "jobId" with Some jobId => uuid_success jobId | None => false end
      && accepts (JobSchema_parse (body req))
  | SubmitJobForApproval =>
      bool_decide (is_Some (user req)) && accepts (createJobSchema_safeParse (body req))
  | ApproveJob | RejectJob => is_admin req && truthy (params req !! "jobId")
  | CreateJobCategory | UpadteJobCategory | CreateJobLevel | UpdateJobLevel =>
      accepts (JobCategorySchema_parse (body req))
  | SaveJob => truthy (params req !! "id") && truthy (id <$> user req)
  | GetJobs | GetCategoryById | DeleteJobCategory | GetJobLevelById | DeleteJobLevel
  | GetCategories => true
  end.

(** What each handler's [catch] answers to an error of the driver whose
    message is [msg]. *)
Definition storage_error_response (h : Handler) (msg : string) : Response :=
  match h with
  | GetJobById | DeleteJobById =>
      res_status_json 500 (JObj [("message", JStr "Internal Server Error"); ("error", JStr msg)])
  | SubmitJobForApproval => res_status_json 400 (message_body "message" "Invalid input")
  | UpdateJob | GetJobs | DeleteJobCategory | DeleteJobLevel | SaveJob =>
      res_status_json 500 (message_body "error" "Internal server error")
  | GetCategories => res_status_json 500 (JStr "Internal server error")
  | UpadteJobCategory =>
      if JS.includes msg "unique constraint"
      then res_status_json 409
             (message_body "message" "A job category with this title already exists")
      else res_status_json 500 (message_body "message" "Internal server error")
  | UpdateJobLevel =>
      if JS.includes msg "unique constraint"
      then res_status_json 409
             (message_body "message" "A job level with this title already exists")
      else res_status_json 500 (message_body "message" "Internal server error")
  | ApproveJob | RejectJob | CreateJobCategory | GetCategoryById | CreateJobLevel
  | GetJobLevelById =>
      res_status_json 500 (message_body "message" "Internal server error")
  end.

(** Every string a response body carries. *)
Fixpoint strings_of (j : Json) : list string :=
  match j with
  | JVal (VStr s) => [s]
  | JVal _ => []
  | JRow r => omap (fun kv => match kv.2 with VStr s => Some s | _ => None end) (map_to_list r)
  | JArr l => flat_map strings_of l
  | JObj fs => flat_map (fun '(_, v) => strings_of v) fs
  end.

(** The body repeats the text [msg]. *)
Definition leaks (msg : string) (j : Json) : bool :=
  existsb (fun s => JS.includes s msg) (strings_of j).

(** ** Vocabulary of the further properties *)

(** The condition [eq(t.id, n)] of the category and level handlers. *)
Definition has_number (n : Z) (r : Row) : bool :=
  if decide (sql.col "id" r = Some (VNum n)) then true else false.

Definition invalid_input (issues : list string) : Response :=
  res_status_json 400
    (JObj [("message", JStr "Invalid input"); ("errors", JArr (JStr <$> issues))]).

(** The values [submitJobForApproval] inserts. *)
Definition job_values (data : Row) (isAdmin : bool) : Row :=
  set_field "title" (data !! "title")
  (set_field "levelId" (data !! "level_id")
  (set_field "categoryId" (data !! "category_id")
  (set_field "typeId" (data !! "type_id")
  (set_field "location" (data !! "location")
  (set_field "description" (data !! "description")
  (set_field "compensation" (data !! "compensation")
  (set_field "applicationLink" (data !! "application_link")
  (set_field "isExternal" (data !! "is_external")
  (set_field "companyId" (data !! "company_id")
  (set_field "tags" (data !! "tags")
  {["isApproved" := VBool isAdmin]})))))))))).

Definition user_update (env : Env) (fullName : string) (levelId categoryId : Z)
    (tags : option string) : Row :=
  <["fullName" := VStr fullName]>
  (<["levelId" := VNum levelId]>
  (<["categoryId" := VNum categoryId]>
  (set_field "tags" (VStr <$> tags)
  {["updatedAt" := VDate (now env)]}))).

(** The values [createUserAsync] inserts. *)
Definition user_values (createUserRequest : Row) : Row :=
  set_field "email" (createUserRequest !! "email")
  (set_field "username" (createUserRequest !! "username")
  (set_field "password" (createUserRequest !! "password")
  (set_field "fullName" (createUserRequest !! "full_name")
  (set_field "phoneNumber" (createUserRequest !! "phone_number")
  (set_field "levelId" (createUserRequest !! "level_id") ∅))))).

(** The text PostgreSQL prints for a [uuid]: groups of 8, 4, 4, 4 and 12
    lower-case hexadecimal digits with a hyphen between them.  A text of
    another form is rejected by the database or read as the uuid that
    some text of this form denotes. *)
Definition lower_hex (c : ascii) : bool :=
  let n := JS.code c in ((48 <=? n) && (n <=? 57) || (97 <=? n) && (n <=? 102))%N.

Fixpoint lower_hex_groups (groups : list nat) (s : string) : bool :=
  match groups with
  | [] => false
  | O :: [] => if decide (s = EmptyString) then true else false
  | O :: rest =>
      match s with
      | String "-" s' => lower_hex_groups rest s'
      | _ => false
      end
  | S n :: rest =>
      match s with
      | String c s' => lower_hex c && lower_hex_groups (n :: rest) s'
      | EmptyString => false
      end
  end.

Definition uuid_text (s : string) : bool := lower_hex_groups [8; 4; 4; 4; 12]%nat s.

Definition read_only (h : Handler) : bool :=
  match h with
  | GetJobById | GetJobs | GetCategoryById | GetJobLevelById | GetCategories => true
  | _ => false
  end.

(** ** Further concrete settings *)

Module scenarios.
Import fixture.

(** What a run resolved to. *)
Definition value_of {A B} (out : Result (option A) * B) : option A :=
  match out.1 with
  | Ok res => res
  | Throw _ => None
  end.

(** The response of a run that answered. *)
Definition answer_of {A} (out : Result Response * A) : Response :=
  match out.1 with
  | Ok r => r
  | Throw _ => res_status_json 0 (JArr [])
  end.

Definition senior : Row := list_to_map [("id", VNum 1); ("title", VStr "Senior")].

Definition one_level : DB :=
  with_table schema.jobLevel {| rows := [senior]; id_seq := 2 |} empty_db.

Definition bob : Row :=
  list_to_map [("id", VStr "u-2"); ("email", VStr "bob@example.org");
               ("username", VStr "bob"); ("password", VStr "$2b$10$other");
               ("tags", VStr "rust")].

Definition two_users : DB :=
  with_table schema.user {| rows := [alice; bob]; id_seq := 1 |} empty_db.

(** The two jobs and the two users. *)
Definition jobs_and_users : DB :=
  with_table schema.user {| rows := [alice; bob]; id_seq := 1 |} two_jobs.

Definition carol : Row :=
  list_to_map [("email", VStr "carol@example.org"); ("username", VStr "carol");
               ("password", VStr "$2b$10$carol"); ("full_name", VStr "Carol C.");
               ("phone_number", VStr "+961 1 000 000"); ("level_id", VNum 1)].

(** Two approved jobs in different categories, and a pending one. *)
Definition job_in (id : string) (categoryId : Z) (isApproved : bool) : Row :=
  list_to_map [("id", VStr id); ("categoryId", VNum categoryId); ("levelId", VNum 1);
               ("isApproved", VBool isApproved)].

Definition three_jobs : DB :=
  with_table schema.job
    {| rows := [job_in "00000000-0000-4000-8000-00000000000a" 1 true;
                job_in "00000000-0000-4000-8000-00000000000b" 2 true;
                job_in "00000000-0000-4000-8000-00000000000c" 1 false];
       id_seq := 4 |} one_category.

Definition list_category (categoryId : string) : Request :=
  request None [] [("categoryId", categoryId)] [].
Definition save_job : Request := request (Some member) [("id", uuid0)] [] [].
Definition approve_unknown : Request :=
  request (Some admin) [("jobId", "00000000-0000-4000-8000-0000000000ff")] [] [].
Definition delete_job_as_admin : Request := request (Some admin) [("id", uuid0)] [] [].
Definition post_event (title : string) : Request := request None [] [] [("title", VStr title)].

(** Stand-ins for the event service: it is down.  [handleServiceResponse]
    writes the status code and the message. *)
Definition events : eventRouter.Collaborators := {|
  eventRouter.CreateEventSchema_parse := with_title;
  eventRouter.UpdateEventSchema_parse req := with_title (body req);
  eventRouter.eventService_create _ := throw (PostgresError "connection terminated");
  eventRouter.eventService_update _ _ := throw (PostgresError "connection terminated");
  eventRouter.eventService_delete _ := throw (PostgresError "connection terminated");
  eventRouter.eventService_getRegistrations _ := throw (PostgresError "connection terminated");
  eventRouter.eventService_newRegisteration _ _ _ := throw (PostgresError "connection terminated");
  eventRouter.handleServiceResponse sr :=
    res_status_json (eventRouter.statusCode sr) (JStr (eventRouter.message sr))
|}.

End scenarios.

(** ** Lemmas on the model *)

Example toLowerCase_mixed : JS.toLowerCase "AdMiN" = "admin".
Proof. reflexivity. Qed.

Example parseInt_prefix : JS.parseInt "  -12px" = Some (-12).
Proof. reflexivity. Qed.

Example parseInt_no_digit : JS.parseInt "abc" = None.
Proof. reflexivity. Qed.

Example or_default_zero : JS.or_default (JS.parseInt "0") 1 = 1.
Proof. reflexivity. Qed.

Example Number_toString_120 : JS.Number_toString 120 = "120".
Proof. reflexivity. Qed.

Example Math_ceil_div_25_10 : JS.Math_ceil_div 25 10 = 3.
Proof. reflexivity. Qed.

Example like_substring : sql.like_match "%cme%" "Acme Corp" = true.
Proof. reflexivity. Qed.

Example like_underscore : sql.like_match "%c_e%" "Acme Corp" = true.
Proof. reflexivity. Qed.

Example like_escaped_underscore : sql.like_match "%c\_e%" "Acme Corp" = false.
Proof. reflexivity. Qed.

Example uuid0_is_a_uuid : uuid_success (Externals := fixture.externals) fixture.uuid0 = true.
Proof. reflexivity. Qed.

Lemma set_field_lookup_ne (k k' : string) (v : option Value) (o : Row) :
  k <> k' -> set_field k v o !! k' = o !! k'.
Proof. intros Hne. destruct v; simpl; [by rewrite lookup_insert_ne | done]. Qed.

Lemma table_with_table (t : schema.Table) (s : Stored) (db : DB) :
  table t (with_table t s db) = s.
Proof. by destruct t. Qed.


Lemma filter_none {A} (p : A -> bool) (l : list A) :
  (forall x, x ∈ l -> p x = false) -> List.filter p l = [].
Proof.
  induction l as [| a l IH]; intros Hall; [done |]. simpl.
  rewrite (Hall a) by apply list_elem_of_here.
  apply IH. intros x Hx. apply Hall. by apply list_elem_of_further.
Qed.

Lemma fill_id_lookup_ne `{Externals} (t : schema.Table) (v : Row) (s : Stored) (k : string) :
  k <> "id" -> (drizzle.fill_id t v s).1 !! k = v !! k.
Proof.
  intros Hne. unfold drizzle.fill_id.
  destruct (v !! "id"), (schema.id_default t); simpl; try done;
    by rewrite lookup_insert_ne.
Qed.

Lemma fill_id_rows `{Externals} (t : schema.Table) (v : Row) (s : Stored) :
  rows (drizzle.fill_id t v s).2 = rows s.
Proof.
  unfold drizzle.fill_id. by destruct (v !! "id"), (schema.id_default t).
Qed.

(** An insert that goes through found no stored row with the new row's
    value in a unique column. *)
Lemma collides_None_column `{Externals} (t : schema.Table) (r : Row) (l : list Row)
    (c : string) (v : Value) :
  drizzle.collides t r l = None ->
  c ∈ schema.unique_columns t ->
  sql.col c r = Some v ->
  forall x, x ∈ l -> sql.col c x <> Some v.
Proof.
  unfold drizzle.collides. intros Hfind Hc Hv x Hx Hxv.
  apply list_elem_of_In in Hc.
  pose proof (find_none _ _ Hfind c Hc) as Hfalse. simpl in Hfalse.
  rewrite Hv in Hfalse. apply bool_decide_eq_false in Hfalse. apply Hfalse.
  unfold drizzle.column_values. apply list_elem_of_omap. by exists x.
Qed.

(** The first row an UPDATE returns is a stored row with the assignments
    laid over it, and it is what is stored afterwards. *)
Lemma update_returning_head `{Externals} (env : Env) (t : schema.Table) (a : Row)
    (c : sql.SQL Row) (db db' : DB) (r : Row) (l : list Row) :
  drizzle.update_set_where_returning env t a c db = (Ok (r :: l), db') ->
  exists old, old ∈ rows (table t db) /\ r = a ∪ old /\ r ∈ rows (table t db').
Proof.
  unfold drizzle.update_set_where_returning, drizzle.execute.
  destruct (outage env); [discriminate |]. destruct c as [msg | p]; [discriminate |].
  destruct (drizzle.update_collides _ _ _ _); [discriminate |].
  intros [= Hret <-]. rewrite table_with_table. simpl.
  assert (Hin : r ∈ List.map (fun r => a ∪ r) (List.filter p (rows (table t db))))
    by (rewrite Hret; apply list_elem_of_here).
  apply list_elem_of_In, in_map_iff in Hin as (old & <- & Hold).
  apply filter_In in Hold as [Hold Hp].
  exists old. split; [by apply list_elem_of_In |]. split; [done |].
  unfold drizzle.updated. apply elem_of_app. right.
  apply list_elem_of_In, in_map_iff. exists old. split; [done |]. by apply filter_In.
Qed.

(** *** [parseInt] reads back what [String] prints *)

Ltac read_digit :=
  cbn [JS.parse_digits];
  match goal with
  | |- context [JS.digit_of ?c] =>
      let v := eval vm_compute in (JS.digit_of c) in change (JS.digit_of c) with v
  end;
  cbn [Nat.of_uint_acc].

Lemma parse_digits_uint (d : Decimal.uint) (acc : Z) :
  0 <= acc ->
  JS.parse_digits (NilEmpty.string_of_uint d) (Some acc)
  = Some (Z.of_nat (Nat.of_uint_acc d (Z.to_nat acc))).
Proof.
  revert acc.
  induction d as [| d IH | d IH | d IH | d IH | d IH | d IH | d IH | d IH | d IH | d IH];
    intros acc Hacc; simpl NilEmpty.string_of_uint;
    [simpl; f_equal; lia | ..];
    read_digit; rewrite IH by lia; do 3 f_equal; rewrite Nat.tail_mul_spec; lia.
Qed.

Lemma parse_digits_NilZero (d : Decimal.uint) :
  JS.parse_digits (NilZero.string_of_uint d) None = Some (Z.of_nat (Nat.of_uint d)).
Proof.
  unfold Nat.of_uint.
  destruct d; simpl NilZero.string_of_uint; [reflexivity | ..];
    read_digit; rewrite parse_digits_uint by lia; do 3 f_equal;
    rewrite Nat.tail_mul_spec; lia.
Qed.

Lemma parseInt_NilZero (d : Decimal.uint) :
  JS.parseInt (NilZero.string_of_uint d) = Some (Z.of_nat (Nat.of_uint d)).
Proof.
  rewrite <- parse_digits_NilZero. unfold JS.parseInt.
  destruct d; reflexivity.
Qed.

Lemma parseInt_Number_toString (z : Z) : JS.parseInt (JS.Number_toString z) = Some z.
Proof.
  unfold JS.Number_toString. destruct (z <? 0) eqn:Hz.
  - apply Z.ltb_lt in Hz.
    change (JS.parseInt (String "-" ?s)) with (Z.opp <$> JS.parse_digits s None).
    rewrite parse_digits_NilZero, Unsigned.of_to. simpl. f_equal. lia.
  - apply Z.ltb_ge in Hz. rewrite parseInt_NilZero, Unsigned.of_to. f_equal. lia.
Qed.

Lemma Number_Number_toString (z : Z) : JS.Number (JS.Number_toString z) = Some z.
Proof. unfold JS.Number. rewrite parseInt_Number_toString. by rewrite decide_True. Qed.

(** *** The conditions of the job listing *)

Lemma and_cons_inr {R} (p0 : R -> bool) (cs : list (sql.SQL R)) (p : R -> bool) :
  sql.and (inr p0 :: cs) = inr p -> forall r, p r = true -> p0 r = true.
Proof.
  simpl. destruct (sql.and cs) as [msg | q]; [discriminate |].
  intros [= <-] r Hr. by apply andb_true_iff in Hr as [? _].
Qed.

Lemma conditions_approved (req : Request) (p : Joined -> bool) :
  sql.and (conditions req) = inr p ->
  forall j, p j = true -> j_job j !! "isApproved" = Some (VBool true).
Proof.
  intros Hand j Hj. unfold conditions in Hand. simpl in Hand.
  apply and_cons_inr with (r := j) in Hand; [| done].
  destruct (decide _) as [e |]; [| done].
  unfold job_col, sql.col in e. by destruct (j_job j !! "isApproved") as [[] |].
Qed.

(** What a successful listing is made of. *)
Lemma getJobs_200 `{Externals} (env : Env) (req : Request) (db : DB) (resp : Response) (db' : DB) :
  getJobs env req db = (Ok resp, db') ->
  status resp = 200 ->
  exists p result,
    sql.and (conditions req) = inr p /\
    drizzle.limit_offset (limit_of req) ((page_of req - 1) * limit_of req)
      (List.filter p (from_job_joined db)) = inr result /\
    db' = db /\
    json resp =
      JObj [("data", JArr (selected <$> result));
            ("pagination",
             JObj [("currentPage", JNum (page_of req));
                   ("pageSize", JNum (limit_of req));
                   ("totalCount",
                    JStr (JS.Number_toString
                            (Z.of_nat (length (List.filter p (from_job_joined db))))));
                   ("totalPages",
                    JNum (JS.Math_ceil_div
                            (Z.of_nat (length (List.filter p (from_job_joined db))))
                            (limit_of req)))])].
Proof.
  unfold getJobs, getJobs_try, countQuery, finalQuery.
  cbv beta delta [mbind mret M_bind M_ret try_catch throw drizzle.execute getJobs_catch].
  destruct (outage env) as [msg |]; [intros [= <- <-]; discriminate |].
  destruct (sql.and (conditions req)) as [msg | p]; [intros [= <- <-]; discriminate |].
  rewrite Number_Number_toString.
  destruct (drizzle.limit_offset _ _ _) as [msg | result] eqn:Hlim;
    [intros [= <- <-]; discriminate |].
  destruct result as [| j result]; [intros [= <- <-]; discriminate |].
  intros [= <- <-] _. by exists p, (j :: result).
Qed.

(** What [LIMIT] and [OFFSET] let through. *)
Lemma limit_offset_inr {A} (limit offset : Z) (l result : list A) :
  drizzle.limit_offset limit offset l = inr result ->
  0 <= offset /\
  result = (if limit <? 0 then drop (Z.to_nat offset) l
            else take (Z.to_nat limit) (drop (Z.to_nat offset) l)).
Proof.
  unfold drizzle.limit_offset.
  destruct (offset <? 0) eqn:Ho; [discriminate |].
  destruct (_ || _); [discriminate |].
  intros [= <-]. split; [by apply Z.ltb_ge | done].
Qed.

Lemma limit_of_nonzero (req : Request) : limit_of req <> 0.
Proof. unfold limit_of, JS.or_default. by destruct (JS.parseInt _) as [[| n | n] |]. Qed.

(** *** Approving twice *)


(** Filters over the rows after an update. *)
Lemma filter_filter_negb {A} (p : A -> bool) (l : list A) :
  List.filter p (List.filter (fun r => negb (p r)) l) = [].
Proof.
  induction l as [| r l IH]; [done |]. simpl.
  destruct (p r) eqn:Hp; simpl; [done |]. by rewrite Hp.
Qed.


Lemma filter_map_kept {A} (f : A -> A) (p : A -> bool) (l : list A) :
  (forall r, p (f r) = p r) ->
  List.filter p (List.map f (List.filter p l)) = List.map f (List.filter p l).
Proof.
  intros Hf. induction l as [| r l IH]; [done |]. simpl.
  destruct (p r) eqn:Hp; simpl; [| done]. by rewrite Hf, Hp, IH.
Qed.




Lemma approve_no_collision (jobId : string) (l : list Row) :
  drizzle.update_collides schema.job approval (has_id jobId) l = None.
Proof. reflexivity. Qed.


(** What an admin's approval of a given job does when the connection is up. *)
Lemma approveJob_run `{Externals}
    (env : Env) (req : Request) (db : DB) (u : User) (jobId : string) :
  user req = Some u ->
  JS.toLowerCase (role u) = "admin" ->
  params req !! "jobId" = Some jobId ->
  jobId <> EmptyString ->
  outage env = None ->
  approveJob env req db =
    (Ok (match List.filter (has_id jobId) (rows (job_table db)) with
         | [] => res_status_json 404 (message_body "message" "Job not found")
         | r :: _ =>
             res_status_json 200
               (obj [("message", Some (JStr "Job approved successfully"));
                     ("jobId", JVal <$> r !! "id")])
         end),
     with_table schema.job
       {| rows := drizzle.updated approval (has_id jobId) (rows (job_table db));
          id_seq := id_seq (job_table db) |} db).
Proof.
  intros Hu Hadmin Hid Hne Hup.
  unfold approveJob, approveJob_try, JS.toLocaleLowerCase. rewrite Hu, Hid.
  destruct (decide _) as [_ | ?]; [| done].
  destruct jobId as [| ch jobId']; [done |].
  cbv beta iota delta [mbind mret M_bind M_ret try_catch drizzle.update_set_where_returning
                       drizzle.execute sql.eq].
  rewrite Hup. cbv zeta.
  change (table schema.job db) with (job_table db).
  pose proof (approve_no_collision (String ch jobId') (rows (job_table db))) as Hc.
  unfold approval, has_id in *. rewrite Hc.
  destruct (List.filter _ (rows (job_table db))) as [| r l]; simpl; [done |].
  unfold set_field. rewrite lookup_union_r by done.
  destruct (r !! "id") as [v |]; simpl; [by rewrite lookup_insert_eq | done].
Qed.

(** ** Properties of the job service *)

(** A member's valid posting is accepted and stored as pending. *)
Example post_job_as_member_is_pending :
  exists db',
    submitJobForApproval (H := fixture.externals) fixture.healthy
      (fixture.post_job fixture.member) fixture.two_jobs
    = (Ok (res_status_json 202
             (JObj [("message", JStr "Job submitted for approval");
                    ("jobId", JStr "00000000-0000-4000-8000-000000000003")])), db') /\
    (fun r : Row => r !! "isApproved") <$> rows (job_table db')
    = [Some (VBool false); Some (VBool true); Some (VBool false)].
Proof. eexists. split; vm_compute; reflexivity. Qed.

(** An admin's posting is stored approved. *)
Example post_job_as_admin_is_approved :
  (fun r : Row => r !! "isApproved")
    <$> rows (job_table (submitJobForApproval (H := fixture.externals) fixture.healthy
                           (fixture.post_job fixture.admin) fixture.two_jobs).2)
  = [Some (VBool false); Some (VBool true); Some (VBool true)].
Proof. vm_compute. reflexivity. Qed.

(** C1.  [submitJobForApproval] always answers a request that carries a
    principal.  A payload that the schema accepts is accepted (status
    202) when the connection is up and the uuid drawn for the job is not
    the id of a stored job.  When a payload is accepted, exactly one job
    row has been appended; that row's [isApproved] is false when the
    principal's lower-cased role is not ['admin'] and true when it is. *)
Theorem submitJobForApproval_isApproved `{Externals}
    (env : Env) (req : Request) (db : DB) (u : User) :
  user req = Some u ->
  exists resp db',
    submitJobForApproval env req db = (Ok resp, db') /\
    (forall data,
       createJobSchema_safeParse (body req) = inr data ->
       outage env = None ->
       VStr (gen_random_uuid (id_seq (job_table db)))
         ∉ drizzle.column_values "id" (rows (job_table db)) ->
       status resp = 202) /\
    (status resp = 202 ->
     exists r, rows (job_table db') = (rows (job_table db) ++ [r])%list /\
               (JS.toLowerCase (role u) <> "admin" -> r !! "isApproved" = Some (VBool false)) /\
               (JS.toLowerCase (role u) = "admin" -> r !! "isApproved" = Some (VBool true))).
Proof.
  intros Hu. unfold submitJobForApproval, submitJobForApproval_try. rewrite Hu.
  destruct (createJobSchema_safeParse (body req)) as [issues | data].
  { eexists _, _. split; [reflexivity |]. split; [discriminate | simpl; discriminate]. }
  cbv beta delta [mbind mret M_bind M_ret try_catch drizzle.insert_values_returning
                  drizzle.execute drizzle.no_condition sql.and first_field].
  destruct (outage env) as [msg |].
  { eexists _, _. split; [reflexivity |]. split; [discriminate | simpl; discriminate]. }
  change (table schema.job db) with (job_table db).
  match goal with
  | |- context [drizzle.fill_id ?t ?v ?s] =>
      pose proof (fill_id_lookup_ne t v s "isApproved" ltac:(discriminate)) as Hlk;
      pose proof (fill_id_rows t v s) as Hrows;
      assert (Hid : (drizzle.fill_id t v s).1 !! "id" = Some (VStr (gen_random_uuid (id_seq s))));
      [| destruct (drizzle.fill_id t v s) as [r s']]
  end.
  { unfold drizzle.fill_id.
    rewrite !set_field_lookup_ne by discriminate. rewrite lookup_singleton_ne by discriminate.
    simpl. apply lookup_insert_eq. }
  simpl in Hlk, Hrows, Hid.
  change (drizzle.id_in_range schema.job r) with true. cbv iota.
  destruct (drizzle.collides schema.job r (rows s')) as [c |] eqn:Hcol.
  { eexists _, _. split; [reflexivity |]. split; [| simpl; discriminate].
    intros data' _ _ Hfresh. exfalso. apply Hfresh.
    unfold drizzle.collides in Hcol. simpl in Hcol.
    unfold sql.col in Hcol at 1. rewrite Hid in Hcol.
    destruct (bool_decide _) eqn:Hdec; [| discriminate].
    apply bool_decide_eq_true in Hdec. by rewrite Hrows in Hdec. }
  eexists _, _. split; [reflexivity |]. split; [done |]. intros _. exists r. simpl.
  split; [by rewrite Hrows |].
  rewrite Hlk. rewrite !set_field_lookup_ne by discriminate.
  rewrite lookup_singleton_eq.
  destruct (decide _); split; intros; congruence.
Qed.

Lemma submitJobForApproval_isApproved_witness :
  exists resp db' r,
    submitJobForApproval (H := fixture.externals) fixture.healthy
      (fixture.post_job fixture.member) fixture.two_jobs = (Ok resp, db') /\
    status resp = 202 /\
    rows (job_table db') = (rows (job_table fixture.two_jobs) ++ [r])%list /\
    r !! "isApproved" = Some (VBool false).
Proof.
  destruct (submitJobForApproval_isApproved (H := fixture.externals) fixture.healthy
              (fixture.post_job fixture.member) fixture.two_jobs fixture.member eq_refl)
    as (resp & db' & Hrun & Haccepted & Hstored).
  assert (Hok : status resp = 202).
  { eapply Haccepted; [reflexivity | reflexivity |].
    intros Hin. apply list_elem_of_In in Hin. vm_compute in Hin.
    destruct Hin as [Hin | [Hin | []]]; discriminate Hin. }
  destruct (Hstored Hok) as (r & Hrows & Hmember & _).
  exists resp, db', r. split; [exact Hrun |]. split; [exact Hok |]. split; [exact Hrows |].
  apply Hmember. vm_compute. discriminate.
Defined.

(** C2, as amended.  A request without an admin principal to the job
    update, delete, approve or reject handler is answered 401 and leaves
    the stored tables as they were.  The category and level create, update
    and delete handlers do not look at the principal: they answer such a
    request as they answer the same request from anyone else. *)
Theorem admin_gate `{Externals} (env : Env) (h : Handler) (req : Request) (db : DB) :
  no_admin req ->
  (job_mutation h = true -> handle env h req db = (Ok unauthorized, db)) /\
  (title_mutation h = true ->
   forall req', params req' = params req -> query req' = query req -> body req' = body req ->
                handle env h req' db = handle env h req db).
Proof.
  intros Hno. split.
  - unfold no_admin in Hno.
    destruct h; try discriminate; intros _; simpl;
      unfold updateJob, deleteJobById, approveJob, rejectJob, JS.toLocaleLowerCase;
      destruct (user req) as [u |]; try reflexivity;
      destruct (decide _) as [Hadm | _]; try reflexivity; contradiction.
  - intros Hh req' Hp Hq Hb. destruct req as [u p q b], req' as [u' p' q' b'].
    simpl in Hp, Hq, Hb. subst.
    destruct h; try discriminate; reflexivity.
Qed.

Lemma admin_gate_witness :
  no_admin fixture.delete_job_as_member /\
  handle (H := fixture.externals) fixture.healthy DeleteJobById
    fixture.delete_job_as_member fixture.two_jobs
  = (Ok unauthorized, fixture.two_jobs).
Proof.
  assert (Hno : no_admin fixture.delete_job_as_member) by (vm_compute; discriminate).
  split; [exact Hno |].
  apply (proj1 (admin_gate (H := fixture.externals) fixture.healthy DeleteJobById
                  fixture.delete_job_as_member fixture.two_jobs Hno)).
  reflexivity.
Defined.

(** C2 as stated fails: a category is created for a request that carries
    no principal at all. *)
Lemma admin_gate_missing_on_createJobCategory :
  no_admin (fixture.post_category "Design") /\
  title_mutation CreateJobCategory = true /\
  handle (H := fixture.externals) fixture.healthy CreateJobCategory
    (fixture.post_category "Design") fixture.one_category
  = (Ok fixture.design_created, fixture.two_categories) /\
  status fixture.design_created <> 401 /\
  fixture.two_categories <> fixture.one_category.
Proof.
  split; [exact I |]. split; [reflexivity |]. split; [vm_compute; reflexivity |].
  split; [discriminate |].
  intros Heq. apply (f_equal (fun db => length (rows (jobCategory_table db)))) in Heq.
  discriminate.
Qed.

(** C3, on the code as it is.  When the title is already stored, the
    insert is rejected, the [.catch] callback fails while building its own
    error, and [createJobCategory] answers 500, not 409; no row is
    added. *)
Theorem createJobCategory_collision_500 `{Externals}
    (env : Env) (req : Request) (db : DB) (title : string) :
  outage env = None ->
  JobCategorySchema_parse (body req) = inr title ->
  VStr title ∈ drizzle.column_values "title" (rows (jobCategory_table db)) ->
  exists db', createJobCategory env req db = (Ok internal_server_error, db') /\
              rows (jobCategory_table db') = rows (jobCategory_table db).
Proof.
  intros Hup Hparse Hdup. unfold createJobCategory. rewrite Hparse.
  unfold createJobCategory_try.
  cbv beta delta [mbind mret M_bind M_ret try_catch throw throw_result
                  drizzle.insert_values_returning drizzle.execute drizzle.no_condition sql.and].
  rewrite Hup.
  match goal with
  | |- context [drizzle.fill_id ?t ?v ?s] =>
      pose proof (fill_id_lookup_ne t v s "title" ltac:(discriminate)) as Hlk;
      pose proof (fill_id_rows t v s) as Hrows;
      destruct (drizzle.fill_id t v s) as [r s']
  end.
  simpl in Hlk, Hrows. rewrite lookup_singleton_eq in Hlk.
  assert (Hc : exists c, drizzle.collides schema.jobCategory r (rows s') = Some c).
  { unfold drizzle.collides. simpl.
    destruct (match sql.col "id" r with Some v => _ | None => false end); [by eexists |].
    unfold sql.col at 1. rewrite Hlk, Hrows.
    rewrite bool_decide_eq_true_2 by done. by eexists. }
  destruct Hc as [c ->].
  destruct (drizzle.id_in_range _ r); simpl;
    (eexists; split; [reflexivity |]); simpl; [by rewrite Hrows | done].
Qed.

Lemma createJobCategory_collision_500_witness :
  exists db',
    createJobCategory (H := fixture.externals) fixture.healthy
      (fixture.post_category "Engineering") fixture.one_category
    = (Ok internal_server_error, db') /\
    rows (jobCategory_table db') = rows (jobCategory_table fixture.one_category).
Proof.
  apply (createJobCategory_collision_500 (H := fixture.externals) fixture.healthy
           (fixture.post_category "Engineering") fixture.one_category "Engineering").
  - reflexivity.
  - reflexivity.
  - vm_compute. apply list_elem_of_here.
Defined.

(** C4, as amended.  In a successful listing [pageSize] is a number other
    than 0, [totalCount] is the decimal text of the count,
    [totalPages] is the ceiling of [totalCount / pageSize], and
    [currentPage] is the requested page index when that parses to a number
    other than 0, and 1 when no index was sent or it parses to 0 or to no
    number. *)
Theorem getJobs_pagination `{Externals}
    (env : Env) (req : Request) (db : DB) (resp : Response) (db' : DB) :
  getJobs env req db = (Ok resp, db') ->
  status resp = 200 ->
  exists data currentPage pageSize totalCount totalPages,
    json resp =
      JObj [("data", data);
            ("pagination",
             JObj [("currentPage", JNum currentPage); ("pageSize", JNum pageSize);
                   ("totalCount", JStr (JS.Number_toString totalCount));
                   ("totalPages", JNum totalPages)])] /\
    0 < totalCount /\
    pageSize <> 0 /\
    (0 < pageSize -> (totalPages - 1) * pageSize < totalCount <= totalPages * pageSize) /\
    (pageSize < 0 -> totalPages * pageSize <= totalCount < (totalPages - 1) * pageSize) /\
    currentPage =
      match query req !! "pageIndex" with
      | Some pageIndex =>
          match JS.parseInt pageIndex with
          | Some n => if n =? 0 then 1 else n
          | None => 1
          end
      | None => 1
      end.
Proof.
  intros Hrun Hok.
  destruct (getJobs_200 env req db resp db' Hrun Hok) as (p & result & Hp & Hlim & _ & Hjson).
  assert (Hne : result <> []).
  { intros ->. revert Hrun. unfold getJobs, getJobs_try, countQuery, finalQuery.
    cbv beta delta [mbind mret M_bind M_ret try_catch throw drizzle.execute getJobs_catch].
    destruct (outage env); [intros [= <- <-]; discriminate |].
    rewrite Hp, Hlim. intros [= <- <-]. discriminate. }
  rewrite Hjson. clear Hjson.
  eexists _, _, _, _, _. split; [reflexivity |].
  apply limit_offset_inr in Hlim as [_ ->].
  set (all := List.filter p (from_job_joined db)) in *.
  assert (Hall : 0 < Z.of_nat (length all)).
  { destruct all as [| j all']; [| simpl; lia].
    exfalso. apply Hne. rewrite drop_nil. by destruct (_ <? 0); rewrite ?take_nil. }
  split; [done |]. split; [apply limit_of_nonzero |].
  unfold JS.Math_ceil_div.
  set (c := Z.of_nat _) in *. set (l := limit_of req) in *.
  split; [| split].
  - intros Hpos. pose proof (Z.div_mod (- c) l ltac:(lia)) as Hdm.
    pose proof (Z.mod_pos_bound (- c) l Hpos). nia.
  - intros Hneg. pose proof (Z.div_mod (- c) l ltac:(lia)) as Hdm.
    pose proof (Z.mod_neg_bound (- c) l Hneg). nia.
  - unfold page_of, JS.or_default.
    destruct (query req !! "pageIndex") as [s |]; simpl.
    + by destruct (JS.parseInt s) as [[| n | n] |].
    + reflexivity.
Qed.

Lemma getJobs_pagination_witness :
  exists data currentPage pageSize totalCount totalPages,
    json fixture.first_page =
      JObj [("data", data);
            ("pagination",
             JObj [("currentPage", JNum currentPage); ("pageSize", JNum pageSize);
                   ("totalCount", JStr (JS.Number_toString totalCount));
                   ("totalPages", JNum totalPages)])] /\
    0 < totalCount /\
    pageSize <> 0 /\
    (0 < pageSize -> (totalPages - 1) * pageSize < totalCount <= totalPages * pageSize) /\
    (pageSize < 0 -> totalPages * pageSize <= totalCount < (totalPages - 1) * pageSize) /\
    currentPage =
      match query (fixture.list_jobs "1") !! "pageIndex" with
      | Some pageIndex =>
          match JS.parseInt pageIndex with
          | Some n => if n =? 0 then 1 else n
          | None => 1
          end
      | None => 1
      end.
Proof.
  apply (getJobs_pagination (H := fixture.externals) fixture.healthy (fixture.list_jobs "1")
           fixture.two_jobs fixture.first_page fixture.two_jobs).
  - vm_compute. reflexivity.
  - reflexivity.
Defined.

(** C4 as stated fails: the caller asks for page index 0, the listing
    succeeds, and [currentPage] is 1. *)
Lemma getJobs_page_zero_not_echoed :
  getJobs fixture.healthy (fixture.list_jobs "0") fixture.two_jobs
  = (Ok fixture.first_page, fixture.two_jobs) /\
  status fixture.first_page = 200 /\
  JS.parseInt_opt (query (fixture.list_jobs "0") !! "pageIndex") = Some 0 /\
  field "pagination" (json fixture.first_page) ≫= field "currentPage" = Some (JNum 1).
Proof. repeat split; vm_compute; reflexivity. Qed.

(** C5, as amended.  A successful job update and a successful user update
    store and return the row with [updatedAt] set to the current time, in
    the same statement.  A successful category or level update returns
    and stores the old row with only its [title] replaced. *)
Theorem update_stamps `{Externals} (env : Env) (db : DB) :
  (forall req resp db',
     updateJob env req db = (Ok resp, db') -> status resp = 200 ->
     exists j, json resp = JRow j /\ j ∈ rows (job_table db') /\
               j !! "updatedAt" = Some (VDate (now env))) /\
  (forall id fullName levelId categoryId tags u db',
     userRepository.updateUserAsync env id fullName levelId categoryId tags db = (Ok (Some u), db') ->
     u ∈ rows (user_table db') /\ u !! "updatedAt" = Some (VDate (now env))) /\
  (forall req resp db',
     upadteJobCategory env req db = (Ok resp, db') -> status resp = 200 ->
     exists c old title,
       field "category" (json resp) = Some (JRow c) /\ c ∈ rows (jobCategory_table db') /\
       old ∈ rows (jobCategory_table db) /\ c = <["title" := VStr title]> old) /\
  (forall req resp db',
     updateJobLevel env req db = (Ok resp, db') -> status resp = 200 ->
     exists l old title,
       field "level" (json resp) = Some (JRow l) /\ l ∈ rows (jobLevel_table db') /\
       old ∈ rows (jobLevel_table db) /\ l = <["title" := VStr title]> old).
Proof.
  split; [| split; [| split]].
  - intros req resp db'. unfold updateJob, updateJob_try.
    destruct (user req) as [u |]; [| intros [= <- <-]; discriminate].
    destruct (decide _) as [Hadm | Hadm]; [| intros [= <- <-]; discriminate].
    destruct (params req !! "jobId") as [jobId |]; [| intros [= <- <-]; discriminate].
    destruct (uuid_success jobId); [| intros [= <- <-]; discriminate].
    destruct (JobSchema_parse (body req)) as [issues | jobData]; [intros [= <- <-]; discriminate |].
    cbv beta delta [mbind mret M_bind M_ret try_catch].
    destruct (drizzle.update_set_where_returning _ _ _ _ _) as [[[| j l] | e] db1] eqn:Hup.
    + intros [= <- <-]; discriminate.
    + intros [= <- <-] _. apply update_returning_head in Hup as (old & _ & -> & Hin).
      eexists. split; [reflexivity |]. split; [done |].
      apply lookup_union_Some_l, lookup_insert_eq.
    + destruct e; intros [= <- <-]; discriminate.
  - intros id fullName levelId categoryId tags u db'.
    unfold userRepository.updateUserAsync.
    cbv beta delta [mbind mret M_bind M_ret].
    destruct (drizzle.update_set_where_returning _ _ _ _ _) as [[[| j l] | e] db1] eqn:Hup;
      try discriminate.
    intros [= <- <-]. apply update_returning_head in Hup as (old & _ & -> & Hin).
    split; [done |].
    apply lookup_union_Some_l.
    rewrite !lookup_insert_ne by discriminate.
    destruct tags; simpl; [rewrite lookup_insert_ne by discriminate |];
      apply lookup_singleton_eq.
  - intros req resp db'. unfold upadteJobCategory, upadteJobCategory_try.
    destruct (JobCategorySchema_parse (body req)) as [issues | title];
      [intros [= <- <-]; discriminate |].
    cbv beta delta [mbind mret M_bind M_ret try_catch].
    destruct (drizzle.update_set_where_returning _ _ _ _ _) as [[[| j l] | e] db1] eqn:Hup.
    + intros [= <- <-]; discriminate.
    + intros [= <- <-] _. apply update_returning_head in Hup as (old & Hold & -> & Hin).
      exists ({["title" := VStr title]} ∪ old), old, title.
      split; [reflexivity |]. split; [done |]. split; [done |].
      symmetry. apply insert_union_singleton_l.
    + unfold upadteJobCategory_catch.
      destruct e; try destruct (JS.includes _ _); intros [= <- <-]; discriminate.
  - intros req resp db'. unfold updateJobLevel, updateJobLevel_try.
    destruct (JobCategorySchema_parse (body req)) as [issues | title];
      [intros [= <- <-]; discriminate |].
    cbv beta delta [mbind mret M_bind M_ret try_catch].
    destruct (drizzle.update_set_where_returning _ _ _ _ _) as [[[| j l] | e] db1] eqn:Hup.
    + intros [= <- <-]; discriminate.
    + intros [= <- <-] _. apply update_returning_head in Hup as (old & Hold & -> & Hin).
      exists ({["title" := VStr title]} ∪ old), old, title.
      split; [reflexivity |]. split; [done |]. split; [done |].
      symmetry. apply insert_union_singleton_l.
    + unfold updateJobLevel_catch.
      destruct e; try destruct (JS.includes _ _); intros [= <- <-]; discriminate.
Qed.

Lemma update_stamps_witness :
  (exists j, json (res_status_json 200 (JRow fixture.backend_engineer)) = JRow j /\
             j ∈ rows (job_table fixture.jobs_after_put) /\
             j !! "updatedAt" = Some (VDate (now fixture.healthy))) /\
  (exists c old title,
     field "category" (json fixture.platform_updated) = Some (JRow c) /\
     c ∈ rows (jobCategory_table fixture.renamed_category) /\
     old ∈ rows (jobCategory_table fixture.one_category) /\
     c = <["title" := VStr title]> old).
Proof.
  split.
  - apply (proj1 (update_stamps (H := fixture.externals) fixture.healthy fixture.two_jobs)
             fixture.put_job).
    + vm_compute. reflexivity.
    + reflexivity.
  - apply (proj1 (proj2 (proj2
             (update_stamps (H := fixture.externals) fixture.healthy fixture.one_category)))
             (fixture.put_category "1" "Platform")).
    + vm_compute. reflexivity.
    + reflexivity.
Defined.

(** C5 as stated fails: a category update succeeds and neither the row it
    returns nor any stored category carries an [updatedAt] stamp. *)
Lemma upadteJobCategory_does_not_stamp :
  upadteJobCategory (H := fixture.externals) fixture.healthy
    (fixture.put_category "1" "Platform") fixture.one_category
  = (Ok fixture.platform_updated, fixture.renamed_category) /\
  status fixture.platform_updated = 200 /\
  field "category" (json fixture.platform_updated) = Some (JRow fixture.platform) /\
  fixture.platform !! "updatedAt" <> Some (VDate (now fixture.healthy)) /\
  Forall (fun c : Row => c !! "updatedAt" = None)
    (rows (jobCategory_table fixture.renamed_category)).
Proof.
  split; [vm_compute; reflexivity |]. split; [reflexivity |]. split; [reflexivity |].
  split; [vm_compute; discriminate |].
  repeat constructor.
Qed.





Ltac pass_checks :=
  repeat match goal with
         | H : _ && _ = true |- _ => apply andb_true_iff in H as [? ?]
         | H : is_admin ?req = true |- _ =>
             unfold is_admin in H; destruct (user req) as [?u |]; [| discriminate];
             apply bool_decide_eq_true in H
         | H : bool_decide (is_Some (user ?req)) = true |- _ =>
             apply bool_decide_eq_true in H; destruct H as [?u H]; rewrite H
         | H : truthy ?o = true |- _ =>
             destruct o as [[| ? ?] |]; try discriminate H; clear H
         | H : accepts ?r = true |- _ =>
             destruct r; [discriminate H |]; clear H
         | H : match ?o with Some _ => _ | None => false end = true |- _ =>
             destruct o; [| discriminate H]
         | H : uuid_success _ = true |- _ => rewrite H
         | |- context [decide (?x = "admin")] =>
             rewrite (decide_True (P := x = "admin")) by assumption
         end.

(** Whatever is thrown inside a [try], if it is not a validation error,
    is answered the way a failure of the driver is. *)
Lemma catch_clause_response (h : Handler) (e : Exn) (db : DB) :
  instanceof_ZodError e = false ->
  message e <> "Job category already exists" ->
  catch_clause h e db = (Ok (storage_error_response h (message e)), db).
Proof.
  intros Hzod Hmsg.
  destruct h, e; try discriminate Hzod; simpl in *;
    unfold createJobCategory_catch, createJobLevel_catch, upadteJobCategory_catch,
      updateJobLevel_catch, message;
    try reflexivity;
    try (destruct (decide _) as [Heq | _]; [contradiction | reflexivity]);
    by destruct (JS.includes _ _).
Qed.

(** C8, as amended.  When the driver fails a statement with message
    [msg], every handler that got as far as the database catches the
    error and leaves the stored tables alone.  [getJobById] and
    [deleteJobById] answer 500 with [msg] in the body's [error] field;
    [submitJobForApproval] answers 400; the category and level updates
    answer 409 when [msg] contains ['unique constraint']; in every other
    case the answer is 500 with a fixed body that does not depend on
    [msg]. *)
Theorem storage_error_surfaced `{Externals}
    (env : Env) (h : Handler) (req : Request) (db : DB) (msg : string) :
  outage env = Some msg ->
  reaches_storage h req = true ->
  handle env h req db = (Ok (storage_error_response h msg), db).
Proof.
  intros Hdown Hreach.
  destruct h; simpl in Hreach; simpl handle;
    unfold getJobById, getJobById_try, deleteJobById, deleteJobById_try, updateJob,
      updateJob_try, getJobs, getJobs_try, countQuery, submitJobForApproval,
      submitJobForApproval_try, approveJob, approveJob_try, rejectJob, rejectJob_try,
      createJobCategory, createJobCategory_try, getCategoryById, getCategoryById_try,
      upadteJobCategory, upadteJobCategory_try, deleteJobCategory, deleteJobCategory_try,
      createJobLevel, createJobLevel_try, getJobLevelById, getJobLevelById_try,
      updateJobLevel, updateJobLevel_try, deleteJobLevel, deleteJobLevel_try,
      saveJob, saveJob_try, getCategories, getCategories_try, JS.toLocaleLowerCase;
    pass_checks;
    cbv beta iota delta [mbind mret M_bind M_ret try_catch throw throw_result
                         drizzle.execute drizzle.select_from drizzle.select_from_where
                         drizzle.findFirst drizzle.insert_values_returning
                         drizzle.update_set_where_returning drizzle.delete_where_returning
                         drizzle.delete_where];
    rewrite ?Hdown; try reflexivity.
  all: simpl; unfold upadteJobCategory_catch, updateJobLevel_catch; simpl;
    by destruct (JS.includes msg "unique constraint").
Qed.

Lemma storage_error_surfaced_witness :
  handle (H := fixture.externals) fixture.down ApproveJob fixture.approve_job fixture.two_jobs
  = (Ok internal_server_error, fixture.two_jobs).
Proof.
  apply (storage_error_surfaced (H := fixture.externals) fixture.down ApproveJob
           fixture.approve_job fixture.two_jobs "connect ECONNREFUSED 127.0.0.1:5432").
  - reflexivity.
  - vm_compute. reflexivity.
Defined.

(** C8 as stated fails: with the connection down, [getJobById] answers
    500 with the driver's message in the body, and
    [submitJobForApproval] answers 400. *)
Lemma storage_error_leaked_by_getJobById :
  outage fixture.down = Some "connect ECONNREFUSED 127.0.0.1:5432" /\
  (exists resp,
     getJobById fixture.down fixture.get_job fixture.two_jobs = (Ok resp, fixture.two_jobs) /\
     status resp = 500 /\
     leaks "connect ECONNREFUSED 127.0.0.1:5432" (json resp) = true) /\
  (exists resp,
     submitJobForApproval (H := fixture.externals) fixture.down
       (fixture.post_job fixture.member) fixture.two_jobs = (Ok resp, fixture.two_jobs) /\
     status resp = 400).
Proof.
  split; [reflexivity |]. split.
  - eexists. split; [vm_compute; reflexivity |]. split; vm_compute; reflexivity.
  - eexists. split; [vm_compute; reflexivity |]. reflexivity.
Qed.

(** C9.  Every item of a successful listing carries a job whose
    [isApproved] is true, whatever filters the query has. *)
Theorem getJobs_only_approved `{Externals}
    (env : Env) (req : Request) (db : DB) (resp : Response) (db' : DB) :
  getJobs env req db = (Ok resp, db') ->
  status resp = 200 ->
  exists items pagination,
    json resp = JObj [("data", JArr items); ("pagination", pagination)] /\
    Forall (fun item => exists j, field "job" item = Some (JRow j) /\
                                  j !! "isApproved" = Some (VBool true)) items.
Proof.
  intros Hrun Hok.
  destruct (getJobs_200 env req db resp db' Hrun Hok) as (p & result & Hp & Hlim & _ & ->).
  eexists _, _. split; [reflexivity |].
  apply Forall_fmap. apply limit_offset_inr in Hlim as [_ ->].
  assert (Hall : Forall (fun j => exists j0, field "job" (selected j) = Some (JRow j0) /\
                                             j0 !! "isApproved" = Some (VBool true))
                   (List.filter p (from_job_joined db)));
    [| destruct (_ <? 0); [by apply Forall_drop | by apply Forall_take, Forall_drop]].
  apply Forall_forall. intros j Hj. exists (j_job j). split; [reflexivity |].
  apply list_elem_of_In, filter_In in Hj as [_ Hj].
  by apply (conditions_approved req p).
Qed.

Lemma getJobs_only_approved_witness :
  exists items pagination,
    json fixture.first_page = JObj [("data", JArr items); ("pagination", pagination)] /\
    Forall (fun item => exists j, field "job" item = Some (JRow j) /\
                                  j !! "isApproved" = Some (VBool true)) items.
Proof.
  apply (getJobs_only_approved (H := fixture.externals) fixture.healthy
           (fixture.request None [] [("companyName", "")] []) fixture.two_jobs
           fixture.first_page fixture.two_jobs).
  - vm_compute. reflexivity.
  - reflexivity.
Defined.

(** ** Properties of the user repository *)

(** C10.  When no stored user has the given id, [getPasswordAsync]
    rejects and never resolves: with the connection up, with the
    TypeError of reading [password] of undefined. *)
Theorem getPasswordAsync_throws `{Externals} (env : Env) (id : string) (db : DB) :
  (forall r, r ∈ rows (user_table db) -> r !! "id" <> Some (VStr id)) ->
  exists e, userRepository.getPasswordAsync env id db = (Throw e, db) /\
            (outage env = None ->
             e = TypeError "Cannot read properties of undefined (reading 'password')").
Proof.
  intros Hnone. unfold userRepository.getPasswordAsync.
  cbv beta delta [mbind mret M_bind M_ret drizzle.select_from_where drizzle.execute
                  sql.eq first_field].
  destruct (outage env) as [msg |]; [eexists; split; [reflexivity | discriminate] |].
  simpl. rewrite filter_none.
  - eexists. split; [reflexivity | done].
  - intros r Hr. destruct (decide _) as [e |]; [| done].
    exfalso. apply (Hnone r Hr). unfold sql.col in e.
    by destruct (r !! "id") as [[] |].
Qed.

Lemma getPasswordAsync_throws_witness :
  exists e, userRepository.getPasswordAsync fixture.healthy "u-404" fixture.one_user
            = (Throw e, fixture.one_user) /\
            (outage fixture.healthy = None ->
             e = TypeError "Cannot read properties of undefined (reading 'password')").
Proof.
  apply (getPasswordAsync_throws (H := fixture.externals)).
  intros r Hr. apply list_elem_of_In in Hr. simpl in Hr.
  destruct Hr as [<- | []]. vm_compute. discriminate.
Defined.

(** ** Further properties *)

Lemma stored_eta (s : Stored) : {| rows := rows s; id_seq := id_seq s |} = s.
Proof. by destruct s. Qed.

Lemma with_table_same (t : schema.Table) (db : DB) : with_table t (table t db) db = db.
Proof. by destruct t, db. Qed.

Lemma filter_negb_no_match {A} (p : A -> bool) (l : list A) :
  List.filter p l = [] -> List.filter (fun r => negb (p r)) l = l.
Proof.
  induction l as [| r l IH]; [done |]. simpl.
  destruct (p r); [discriminate |]. intros Hf. simpl. by rewrite IH.
Qed.

Lemma updated_no_match (a : Row) (p : Row -> bool) (l : list Row) :
  List.filter p l = [] -> drizzle.updated a p l = l.
Proof.
  intros Hf. unfold drizzle.updated. rewrite Hf, filter_negb_no_match by done.
  apply app_nil_r.
Qed.

(** An UPDATE that matches no row or is rejected leaves the tables alone. *)
Lemma update_quiet (env : Env) (t : schema.Table) (a : Row) (c : sql.SQL Row)
    (db db' : DB) (res : Result (list Row)) :
  drizzle.update_set_where_returning env t a c db = (res, db') ->
  res = Ok [] \/ (exists e, res = Throw e) -> db' = db.
Proof.
  unfold drizzle.update_set_where_returning, drizzle.execute.
  destruct (outage env); [by intros [= <- <-] |].
  destruct c as [msg | p]; [by intros [= <- <-] |].
  destruct (drizzle.update_collides _ _ _ _); [by intros [= <- <-] |].
  intros [= <- <-] [Hnil | [e He]]; [| discriminate].
  injection Hnil as Hnil. apply map_eq_nil in Hnil.
  by rewrite updated_no_match, stored_eta, with_table_same.
Qed.

Lemma delete_quiet (env : Env) (t : schema.Table) (c : sql.SQL Row)
    (db db' : DB) (res : Result (list Row)) :
  drizzle.delete_where_returning env t c db = (res, db') ->
  res = Ok [] \/ (exists e, res = Throw e) -> db' = db.
Proof.
  unfold drizzle.delete_where_returning, drizzle.execute.
  destruct (outage env); [by intros [= <- <-] |].
  destruct c as [msg | p]; [by intros [= <- <-] |].
  intros [= <- <-] [Hnil | [e He]]; [| discriminate].
  injection Hnil as Hnil.
  by rewrite filter_negb_no_match, stored_eta, with_table_same.
Qed.

Lemma select_quiet (env : Env) (t : schema.Table) (c : sql.SQL Row)
    (db db' : DB) (res : Result (list Row)) :
  drizzle.select_from_where env t c db = (res, db') -> db' = db.
Proof.
  unfold drizzle.select_from_where, drizzle.execute.
  destruct (outage env); [by intros [= <- <-] |].
  destruct c as [msg | p]; by intros [= <- <-].
Qed.

Lemma select_from_quiet (env : Env) (t : schema.Table) (db db' : DB) (res : Result (list Row)) :
  drizzle.select_from env t db = (res, db') -> db' = db.
Proof.
  unfold drizzle.select_from, drizzle.execute, drizzle.no_condition. simpl.
  destruct (outage env); by intros [= <- <-].
Qed.

Lemma findFirst_quiet (env : Env) (t : schema.Table) (c : sql.SQL Row)
    (db db' : DB) (res : Result (option Row)) :
  drizzle.findFirst env t c db = (res, db') -> db' = db.
Proof.
  unfold drizzle.findFirst, drizzle.execute.
  destruct (outage env); [by intros [= <- <-] |].
  destruct c as [msg | p]; by intros [= <- <-].
Qed.

Ltac unfold_handlers :=
  unfold getJobById, getJobById_try, getJobById_catch, deleteJobById, deleteJobById_try,
    deleteJobById_catch, updateJob, updateJob_try, updateJob_catch, getJobs, getJobs_try,
    getJobs_catch, submitJobForApproval, submitJobForApproval_try, submitJobForApproval_catch,
    approveJob, approveJob_try, approveJob_catch, rejectJob, rejectJob_try, rejectJob_catch,
    createJobCategory, createJobCategory_try, createJobCategory_catch, getCategoryById,
    getCategoryById_try, getCategoryById_catch, upadteJobCategory, upadteJobCategory_try,
    upadteJobCategory_catch, deleteJobCategory, deleteJobCategory_try, deleteJobCategory_catch,
    createJobLevel, createJobLevel_try, createJobLevel_catch, getJobLevelById,
    getJobLevelById_try, getJobLevelById_catch, updateJobLevel, updateJobLevel_try,
    updateJobLevel_catch, deleteJobLevel, deleteJobLevel_try, deleteJobLevel_catch,
    saveJob, saveJob_try, saveJob_catch, getCategories, getCategories_try, getCategories_catch,
    JS.toLocaleLowerCase in *;
  cbv beta delta [mbind mret M_bind M_ret try_catch throw throw_result first_field
                  drizzle.delete_where countQuery finalQuery new_ call_] in *.

(** Every handler but [createJobCategory] answers whatever happens. *)
Ltac answer :=
  repeat match goal with
         | |- exists resp db', (let (r, d) := ?x in _) = _ =>
             let r := fresh "r" in let d := fresh "d" in destruct x as [[r | r] d]
         | |- exists resp db', (match ?x with _ => _ end) _ = _ => destruct x
         | |- exists resp db', (match ?x with _ => _ end) = _ => destruct x
         | |- exists resp db', (if ?x then _ else _) = _ => destruct x
         | |- exists resp db', (if ?x then _ else _) _ = _ => destruct x
         end;
  try (eexists _, _; reflexivity).

(** X1.  Every handler but [createJobCategory] answers every request: its
    promise never rejects, whatever the request, the tables and the
    connection. *)
Theorem handlers_always_answer `{Externals} (env : Env) (h : Handler) (req : Request) (db : DB) :
  h <> CreateJobCategory ->
  exists resp db', handle env h req db = (Ok resp, db').
Proof.
  intros Hh. destruct h; try done; simpl handle; unfold_handlers.
  all: answer.
  all: answer.
Qed.

Lemma handlers_always_answer_witness :
  exists resp db',
    handle (H := fixture.externals) fixture.down SubmitJobForApproval
      (fixture.post_job fixture.member) fixture.two_jobs = (Ok resp, db').
Proof.
  apply (handlers_always_answer (H := fixture.externals)). discriminate.
Defined.

Ltac crack H :=
  repeat (cbv beta iota in H;
          match type of H with
          | context [match ?x with _ => _ end] =>
              lazymatch x with
              | context [match _ with _ => _ end] => fail
              | _ => destruct x eqn:?
              end
          end).

Ltac quiet :=
  match goal with
  | H : drizzle.update_set_where_returning _ _ _ _ _ = _ |- _ =>
      apply update_quiet in H; [done | eauto]
  | H : drizzle.delete_where_returning _ _ _ _ = _ |- _ =>
      apply delete_quiet in H; [done | eauto]
  | H : drizzle.select_from_where _ _ _ _ = _ |- _ => by apply select_quiet in H
  | H : drizzle.select_from _ _ _ = _ |- _ => by apply select_from_quiet in H
  | H : drizzle.findFirst _ _ _ _ = _ |- _ => by apply findFirst_quiet in H
  end.

(** X2.  A request answered 401 or 422 leaves the stored tables as they
    were, and so does one answered 404 by any handler but
    [deleteJobById]. *)
Theorem rejections_change_nothing `{Externals}
    (env : Env) (h : Handler) (req : Request) (db : DB) (resp : Response) (db' : DB) :
  handle env h req db = (Ok resp, db') ->
  status resp = 401 \/ status resp = 422 \/ (status resp = 404 /\ h <> DeleteJobById) ->
  db' = db.
Proof.
  intros Hrun Hst.
  destruct h; simpl handle in Hrun; unfold_handlers;
    try (unfold drizzle.execute in Hrun);
    crack Hrun; simplify_eq/=;
    try (destruct Hst as [? | [? | [? ?]]]; simplify_eq/=; try done);
    try (match goal with Hnil : _ <$> _ = [] |- _ => apply fmap_nil_inv in Hnil; subst end);
    try quiet.
Qed.

Lemma rejections_change_nothing_witness :
  (handle (H := fixture.externals) fixture.healthy ApproveJob
     scenarios.approve_unknown fixture.two_jobs).2 = fixture.two_jobs.
Proof.
  apply (rejections_change_nothing (H := fixture.externals) fixture.healthy ApproveJob
           scenarios.approve_unknown fixture.two_jobs
           (res_status_json 404 (message_body "message" "Job not found"))).
  - vm_compute. reflexivity.
  - right. right. split; [reflexivity | discriminate].
Defined.

Lemma has_id_true (jobId : string) (r : Row) :
  has_id jobId r = true <-> r !! "id" = Some (VStr jobId).
Proof.
  unfold has_id, sql.col. destruct (decide _) as [e | n]; split; try done.
  - intros _. by destruct (r !! "id") as [[] |].
  - intros Hr. rewrite Hr in n. done.
Qed.

Lemma has_id_false (jobId : string) (r : Row) :
  has_id jobId r = false <-> r !! "id" <> Some (VStr jobId).
Proof. rewrite <- has_id_true. by destruct (has_id jobId r). Qed.

Lemma filter_nil_iff {A} (p : A -> bool) (l : list A) :
  List.filter p l = [] <-> forall x, x ∈ l -> p x = false.
Proof.
  split; [| apply filter_none].
  intros Hnil x Hx. destruct (p x) eqn:Hp; [| done].
  assert (Hin : In x (List.filter p l)) by (apply filter_In; split; [by apply list_elem_of_In | done]).
  rewrite Hnil in Hin. destruct Hin.
Qed.

Lemma elem_of_filter_negb {A} (p : A -> bool) (l : list A) (x : A) :
  x ∈ List.filter (fun r => negb (p r)) l <-> x ∈ l /\ p x = false.
Proof.
  rewrite !list_elem_of_In, filter_In. destruct (p x); simpl; intuition congruence.
Qed.

(** *** getJobById *)

Lemma getJobById_run (env : Env) (req : Request) (db : DB) (id : string) :
  params req !! "id" = Some id -> id <> EmptyString -> outage env = None ->
  getJobById env req db =
    (Ok (match List.find (has_id id) (rows (job_table db)) with
         | Some j => res_status_json 200 (JRow j)
         | None => res_status_json 404 (message_body "message" "Job not found")
         end), db).
Proof.
  intros Hid Hne Hup. unfold getJobById, getJobById_try. rewrite Hid.
  destruct id as [| ch id']; [done |].
  cbv beta iota delta [mbind mret M_bind M_ret try_catch drizzle.findFirst drizzle.execute sql.eq].
  rewrite Hup. change (table schema.job db) with (job_table db).
  fold (has_id (String ch id')).
  change (fun r : Row => if decide (sql.col "id" r = Some (VStr (String ch id'))) then true else false)
    with (has_id (String ch id')).
  by destruct (List.find _ _).
Qed.

(** X9.  With the connection up and a route id that is the text of a
    uuid, [getJobById] answers 200 with a stored job of that id when
    there is one, approved or not, and 404 with the bare message when
    there is none; the tables are unchanged. *)
Theorem getJobById_lookup (env : Env) (req : Request) (db : DB) (id : string) :
  params req !! "id" = Some id -> uuid_text id = true -> outage env = None ->
  exists resp,
    getJobById env req db = (Ok resp, db) /\
    ((exists r, r ∈ rows (job_table db) /\ r !! "id" = Some (VStr id)) ->
     exists j, resp = res_status_json 200 (JRow j) /\
               j ∈ rows (job_table db) /\ j !! "id" = Some (VStr id)) /\
    ((forall r, r ∈ rows (job_table db) -> r !! "id" <> Some (VStr id)) ->
     resp = res_status_json 404 (message_body "message" "Job not found")).
Proof.
  intros Hid Huuid Hup.
  assert (Hne : id <> EmptyString) by (intros ->; discriminate).
  rewrite (getJobById_run env req db id Hid Hne Hup).
  eexists. split; [reflexivity |].
  destruct (List.find _ _) as [j |] eqn:Hfind.
  - apply find_some in Hfind as [Hin Hj]. apply has_id_true in Hj. split.
    + intros _. exists j. by rewrite list_elem_of_In.
    + intros Hnone. exfalso. apply (Hnone j); [by apply list_elem_of_In | done].
  - split; [| done]. intros (r & Hr & Hrid). exfalso.
    apply list_elem_of_In in Hr.
    pose proof (find_none _ _ Hfind r Hr) as Hf. apply has_id_false in Hf. done.
Qed.

Lemma getJobById_lookup_witness :
  exists j,
    getJobById fixture.healthy fixture.get_job fixture.two_jobs
    = (Ok (res_status_json 200 (JRow j)), fixture.two_jobs) /\
    j ∈ rows (job_table fixture.two_jobs) /\ j !! "id" = Some (VStr fixture.uuid0).
Proof.
  destruct (getJobById_lookup fixture.healthy fixture.get_job fixture.two_jobs fixture.uuid0
              eq_refl eq_refl eq_refl) as (resp & Hrun & Hfound & _).
  destruct Hfound as (j & -> & Hj & Hjid).
  { exists fixture.pending_job. split; [apply list_elem_of_here | reflexivity]. }
  by exists j.
Defined.

(** *** rejectJob *)

Lemma rejectJob_run (env : Env) (req : Request) (db : DB) (u : User) (jobId : string) :
  user req = Some u -> JS.toLowerCase (role u) = "admin" ->
  params req !! "jobId" = Some jobId -> jobId <> EmptyString -> outage env = None ->
  rejectJob env req db =
    (Ok (match List.filter (has_id jobId) (rows (job_table db)) with
         | [] => res_status_json 404 (message_body "message" "Job not found")
         | j :: _ =>
             res_status_json 200
               (JObj [("message", JStr "Job rejected successfully"); ("jobId", JRow j)])
         end),
     with_table schema.job
       {| rows := List.filter (fun r => negb (has_id jobId r)) (rows (job_table db));
          id_seq := id_seq (job_table db) |} db).
Proof.
  intros Hu Hadmin Hid Hne Hup.
  unfold rejectJob, rejectJob_try, JS.toLocaleLowerCase. rewrite Hu, Hid.
  destruct (decide _) as [_ | ?]; [| done].
  destruct jobId as [| ch jobId']; [done |].
  cbv beta iota delta [mbind mret M_bind M_ret try_catch drizzle.delete_where_returning
                       drizzle.execute sql.eq].
  rewrite Hup. cbv zeta. change (table schema.job db) with (job_table db).
  change (fun r : Row => if decide (sql.col "id" r = Some (VStr (String ch jobId'))) then true else false)
    with (has_id (String ch jobId')).
  by destruct (List.filter _ _).
Qed.

(** X10.  A rejection answered 200 returns a stored job with the route's
    id and removes exactly the jobs with that id; after it, with the
    connection up, rejecting or approving the same id answers 404 and
    changes nothing, and [getJobById] answers 404. *)
Theorem rejectJob_removes `{Externals}
    (env : Env) (req : Request) (db : DB) (resp : Response) (db1 : DB) :
  rejectJob env req db = (Ok resp, db1) ->
  status resp = 200 ->
  exists jobId j,
    params req !! "jobId" = Some jobId /\
    field "jobId" (json resp) = Some (JRow j) /\
    j ∈ rows (job_table db) /\ j !! "id" = Some (VStr jobId) /\
    (forall r, r ∈ rows (job_table db1) <->
               r ∈ rows (job_table db) /\ r !! "id" <> Some (VStr jobId)) /\
    forall env', outage env' = None ->
      (exists resp2, rejectJob env' req db1 = (Ok resp2, db1) /\ status resp2 = 404) /\
      (exists resp3, approveJob env' req db1 = (Ok resp3, db1) /\ status resp3 = 404) /\
      (forall req', params req' !! "id" = Some jobId ->
         getJobById env' req' db1 =
           (Ok (res_status_json 404 (message_body "message" "Job not found")), db1)).
Proof.
  intros Hrun Hok.
  destruct (user req) as [u |] eqn:Hu;
    [| unfold rejectJob in Hrun; rewrite Hu in Hrun; injection Hrun as <- <-; discriminate].
  destruct (decide (JS.toLowerCase (role u) = "admin")) as [Hadmin | Hadmin];
    [| unfold rejectJob, JS.toLocaleLowerCase in Hrun; rewrite Hu in Hrun;
       rewrite decide_False in Hrun by done; injection Hrun as <- <-; discriminate].
  destruct (params req !! "jobId") as [jobId |] eqn:Hid;
    [| unfold rejectJob, rejectJob_try in Hrun; rewrite Hu, Hid in Hrun;
       destruct (decide _) in Hrun; injection Hrun as <- <-; discriminate].
  destruct (decide (jobId = EmptyString)) as [-> | Hne];
    [unfold rejectJob, rejectJob_try in Hrun; rewrite Hu, Hid in Hrun;
     destruct (decide _) in Hrun; injection Hrun as <- <-; discriminate |].
  destruct (outage env) as [msg |] eqn:Hup.
  { unfold rejectJob, rejectJob_try, JS.toLocaleLowerCase in Hrun. rewrite Hu, Hid in Hrun.
    rewrite decide_True in Hrun by done. destruct jobId as [| ch jobId']; [done |].
    cbv beta iota delta [mbind mret M_bind M_ret try_catch drizzle.delete_where_returning
                         drizzle.execute sql.eq] in Hrun.
    rewrite Hup in Hrun. injection Hrun as <- <-. discriminate. }
  rewrite (rejectJob_run env req db u jobId Hu Hadmin Hid Hne Hup) in Hrun.
  destruct (List.filter (has_id jobId) (rows (job_table db))) as [| j l] eqn:Hf;
    injection Hrun as <- <-; [discriminate |].
  set (db1 := with_table schema.job _ db).
  assert (Hj : In j (List.filter (has_id jobId) (rows (job_table db))))
    by (rewrite Hf; by left).
  apply filter_In in Hj as [Hj Hjid]. apply has_id_true in Hjid.
  assert (Hdb1 : job_table db1
                 = {| rows := List.filter (fun r => negb (has_id jobId r)) (rows (job_table db));
                      id_seq := id_seq (job_table db) |}) by reflexivity.
  assert (Hgone : List.filter (has_id jobId) (rows (job_table db1)) = []).
  { rewrite Hdb1. simpl. apply filter_none. intros x Hx.
    apply elem_of_filter_negb in Hx as [_ Hx]. done. }
  assert (Hsame : with_table schema.job
                    {| rows := List.filter (fun r => negb (has_id jobId r)) (rows (job_table db1));
                       id_seq := id_seq (job_table db1) |} db1 = db1).
  { rewrite filter_negb_no_match by done.
    destruct db1 as [[] ? ? ? ? ?]. reflexivity. }
  exists jobId, j. split; [done |]. split; [reflexivity |].
  split; [by apply list_elem_of_In |]. split; [done |]. split.
  { intros r. rewrite Hdb1. simpl. rewrite elem_of_filter_negb, has_id_false. done. }
  intros env' Hup'. split; [| split].
  - pose proof (rejectJob_run env' req db1 u jobId Hu Hadmin Hid Hne Hup') as Hrun2.
    rewrite Hgone, Hsame in Hrun2. eexists. split; [exact Hrun2 | reflexivity].
  - pose proof (approveJob_run env' req db1 u jobId Hu Hadmin Hid Hne Hup') as Hrun3.
    rewrite Hgone in Hrun3. rewrite updated_no_match in Hrun3 by done.
    replace (with_table schema.job _ db1) with db1 in Hrun3
      by (destruct db1 as [[] ? ? ? ? ?]; reflexivity).
    eexists. split; [exact Hrun3 | reflexivity].
  - intros req' Hreq'.
    rewrite (getJobById_run env' req' db1 jobId Hreq' Hne Hup').
    destruct (List.find _ _) as [j' |] eqn:Hfind; [| done].
    apply find_some in Hfind as [Hin Hj'].
    pose proof (proj1 (filter_nil_iff _ _) Hgone j' (proj2 (list_elem_of_In _ _) Hin)).
    congruence.
Qed.

Lemma rejectJob_removes_witness :
  let out := rejectJob fixture.healthy fixture.approve_job fixture.two_jobs in
  exists jobId j,
    params fixture.approve_job !! "jobId" = Some jobId /\
    field "jobId" (json (scenarios.answer_of out)) = Some (JRow j) /\
    j ∈ rows (job_table fixture.two_jobs) /\ j !! "id" = Some (VStr jobId) /\
    (forall r, r ∈ rows (job_table out.2) <->
               r ∈ rows (job_table fixture.two_jobs) /\ r !! "id" <> Some (VStr jobId)) /\
    forall env', outage env' = None ->
      (exists resp2, rejectJob env' fixture.approve_job out.2 = (Ok resp2, out.2) /\
                     status resp2 = 404) /\
      (exists resp3, approveJob env' fixture.approve_job out.2 = (Ok resp3, out.2) /\
                     status resp3 = 404) /\
      (forall req', params req' !! "id" = Some jobId ->
         getJobById env' req' out.2 =
           (Ok (res_status_json 404 (message_body "message" "Job not found")), out.2)).
Proof.
  intros out.
  apply (rejectJob_removes (H := fixture.externals) fixture.healthy fixture.approve_job
           fixture.two_jobs).
  - vm_compute. reflexivity.
  - reflexivity.
Defined.

(** *** deleteJobById *)

(** X11.  A [deleteJobById] answered 204 or 404 has removed exactly the
    jobs with the route id; the answer is 404 exactly when the [length]
    of the driver's result is 0, whether or not a job was removed. *)
Theorem deleteJobById_deletes `{Externals}
    (env : Env) (req : Request) (db : DB) (resp : Response) (db' : DB) :
  deleteJobById env req db = (Ok resp, db') ->
  status resp = 204 \/ status resp = 404 ->
  exists id,
    params req !! "id" = Some id /\
    (forall r, r ∈ rows (job_table db') <->
               r ∈ rows (job_table db) /\ r !! "id" <> Some (VStr id)) /\
    (status resp = 404 <->
     delete_result_length (length (List.filter (has_id id) (rows (job_table db)))) = Some 0).
Proof.
  unfold deleteJobById, deleteJobById_try.
  destruct (user req) as [u |]; [| intros [= <- <-] [? | ?]; discriminate].
  destruct (decide _) as [_ | ?]; [| intros [= <- <-] [? | ?]; discriminate].
  destruct (params req !! "id") as [[| ch id'] |]; try (intros [= <- <-] [? | ?]; discriminate).
  cbv beta iota delta [mbind mret M_bind M_ret try_catch drizzle.delete_where
                       drizzle.delete_where_returning drizzle.execute sql.eq].
  destruct (outage env); [intros [= <- <-] [? | ?]; discriminate |].
  cbv beta iota zeta. change (table schema.job db) with (job_table db).
  change (fun r : Row => if decide (sql.col "id" r = Some (VStr (String ch id'))) then true else false)
    with (has_id (String ch id')).
  change (fun r : Row => negb (if decide (sql.col "id" r = Some (VStr (String ch id')))
                               then true else false))
    with (fun r : Row => negb (has_id (String ch id') r)).
  destruct (delete_result_length _) as [[| ? | ?] |] eqn:Hlen; cbv beta iota;
    intros [= <- <-] _;
    (eexists; split; [reflexivity |]; split;
     [intros r; simpl; by rewrite elem_of_filter_negb, has_id_false |]).
  all: cbn [status res_status_json]; rewrite Hlen.
  all: split; intros Heq; first [reflexivity | discriminate Heq].
Qed.

Lemma deleteJobById_deletes_witness :
  let out := deleteJobById (H := fixture.externals) fixture.healthy
               scenarios.delete_job_as_admin fixture.two_jobs in
  exists id,
    params scenarios.delete_job_as_admin !! "id" = Some id /\
    (forall r, r ∈ rows (job_table out.2) <->
               r ∈ rows (job_table fixture.two_jobs) /\ r !! "id" <> Some (VStr id)) /\
    (status (scenarios.answer_of out) = 404 <->
     delete_result_length (Externals := fixture.externals)
       (length (List.filter (has_id id) (rows (job_table fixture.two_jobs)))) = Some 0).
Proof.
  intros out.
  apply (deleteJobById_deletes (H := fixture.externals) fixture.healthy
           scenarios.delete_job_as_admin fixture.two_jobs).
  - vm_compute. reflexivity.
  - right. reflexivity.
Defined.

Lemma set_field_lookup_eq (k : string) (v : option Value) (o : Row) :
  o !! k = None -> set_field k v o !! k = v.
Proof. intros Ho. destruct v; simpl; [apply lookup_insert_eq | done]. Qed.

Ltac lookup_values :=
  unfold job_values;
  repeat (rewrite set_field_lookup_ne by discriminate);
  first [ rewrite set_field_lookup_eq;
          [reflexivity
          | repeat (rewrite set_field_lookup_ne by discriminate); by apply lookup_singleton_ne]
        | by apply lookup_singleton_ne
        | apply lookup_singleton_eq ].

Lemma job_values_no_id (data : Row) (isAdmin : bool) : job_values data isAdmin !! "id" = None.
Proof. lookup_values. Qed.

Lemma find_none_all {A} (p : A -> bool) (l : list A) :
  (forall x, x ∈ l -> p x = false) -> List.find p l = None.
Proof.
  induction l as [| a l IH]; intros Hall; [done |]. simpl.
  rewrite (Hall a) by apply list_elem_of_here.
  apply IH. intros x Hx. apply Hall. by apply list_elem_of_further.
Qed.

Lemma find_app_none {A} (p : A -> bool) (l1 l2 : list A) :
  List.find p l1 = None -> List.find p (l1 ++ l2) = List.find p l2.
Proof.
  induction l1 as [| a l1 IH]; [done |]. simpl.
  destruct (p a); [discriminate | done].
Qed.

(** What an accepted submission is. *)
Lemma submitJobForApproval_202 `{Externals}
    (env : Env) (req : Request) (db : DB) (resp : Response) (db' : DB) :
  submitJobForApproval env req db = (Ok resp, db') ->
  status resp = 202 ->
  exists u data,
    user req = Some u /\ createJobSchema_safeParse (body req) = inr data /\
    let id := gen_random_uuid (id_seq (job_table db)) in
    let r := <["id" := VStr id]>
               (job_values data (if decide (JS.toLowerCase (role u) = "admin") then true else false)) in
    drizzle.collides schema.job r (rows (job_table db)) = None /\
    db' = with_table schema.job
            {| rows := rows (job_table db) ++ [r]; id_seq := id_seq (job_table db) + 1 |} db /\
    resp = res_status_json 202
             (JObj [("message", JStr "Job submitted for approval"); ("jobId", JStr id)]).
Proof.
  unfold submitJobForApproval, submitJobForApproval_try.
  destruct (user req) as [u |]; [| intros [= <- <-]; discriminate].
  destruct (createJobSchema_safeParse (body req)) as [issues | data];
    [intros [= <- <-]; discriminate |].
  fold (job_values data (if decide (JS.toLowerCase (role u) = "admin") then true else false)).
  set (v := job_values _ _).
  cbv beta iota delta [mbind mret M_bind M_ret try_catch drizzle.insert_values_returning
                       drizzle.execute drizzle.no_condition sql.and first_field].
  destruct (outage env); [intros [= <- <-]; discriminate |].
  change (table schema.job db) with (job_table db).
  unfold drizzle.fill_id, drizzle.id_in_range. unfold v at 1. rewrite job_values_no_id. fold v.
  cbn [schema.id_default rows id_seq]. cbv beta iota zeta.
  destruct (drizzle.collides _ _ _) eqn:Hcol; [intros [= <- <-]; discriminate |].
  cbv beta iota. rewrite lookup_insert_eq. intros [= <- <-] _.
  exists u, data. cbv zeta. done.
Qed.

(** X12.  After a submission answered 202, the [jobId] of the answer
    fetches, through [getJobById], the stored row; that row holds the
    parsed payload with its snake-case fields under their column names. *)
Theorem submitted_job_is_fetched `{Externals}
    (env : Env) (req : Request) (db : DB) (resp : Response) (db' : DB) :
  submitJobForApproval env req db = (Ok resp, db') ->
  status resp = 202 ->
  exists id r data,
    field "jobId" (json resp) = Some (JStr id) /\
    createJobSchema_safeParse (body req) = inr data /\
    r !! "title" = data !! "title" /\
    r !! "levelId" = data !! "level_id" /\
    r !! "categoryId" = data !! "category_id" /\
    r !! "typeId" = data !! "type_id" /\
    r !! "location" = data !! "location" /\
    r !! "description" = data !! "description" /\
    r !! "compensation" = data !! "compensation" /\
    r !! "applicationLink" = data !! "application_link" /\
    r !! "isExternal" = data !! "is_external" /\
    r !! "companyId" = data !! "company_id" /\
    r !! "tags" = data !! "tags" /\
    forall env' req',
      outage env' = None -> params req' !! "id" = Some id -> id <> EmptyString ->
      getJobById env' req' db' = (Ok (res_status_json 200 (JRow r)), db').
Proof.
  intros Hrun Hok.
  destruct (submitJobForApproval_202 env req db resp db' Hrun Hok)
    as (u & data & Hu & Hparse & Hcol & -> & ->).
  set (id := gen_random_uuid _) in *. set (r := <["id" := VStr id]> _) in *.
  exists id, r, data. split; [reflexivity |]. split; [done |].
  repeat (split; [unfold r; rewrite lookup_insert_ne by discriminate; lookup_values |]).
  intros env' req' Hup Hid Hne.
  rewrite (getJobById_run env' req' _ id Hid Hne Hup).
  cbn [job_table with_table rows]. rewrite decide_True by done. cbn [rows].
  assert (Hrid : r !! "id" = Some (VStr id)) by apply lookup_insert_eq.
  assert (Hnone : List.find (has_id id) (rows (job_table db)) = None).
  { apply find_none_all. intros x Hx. apply has_id_false. intros Hxid.
    eapply (collides_None_column schema.job r _ "id" (VStr id)); eauto.
    - apply list_elem_of_here.
    - unfold sql.col. by rewrite Hrid.
    - unfold sql.col. by rewrite Hxid. }
  rewrite (find_app_none _ _ _ Hnone). simpl. by rewrite (proj2 (has_id_true id r) Hrid).
Qed.

Lemma submitted_job_is_fetched_witness :
  let out := submitJobForApproval (H := fixture.externals) fixture.healthy
               (fixture.post_job fixture.member) fixture.two_jobs in
  exists id r data,
    field "jobId" (json (scenarios.answer_of out)) = Some (JStr id) /\
    createJobSchema_safeParse (Externals := fixture.externals)
      (body (fixture.post_job fixture.member)) = inr data /\
    r !! "title" = data !! "title" /\
    r !! "levelId" = data !! "level_id" /\
    r !! "categoryId" = data !! "category_id" /\
    r !! "typeId" = data !! "type_id" /\
    r !! "location" = data !! "location" /\
    r !! "description" = data !! "description" /\
    r !! "compensation" = data !! "compensation" /\
    r !! "applicationLink" = data !! "application_link" /\
    r !! "isExternal" = data !! "is_external" /\
    r !! "companyId" = data !! "company_id" /\
    r !! "tags" = data !! "tags" /\
    forall env' req',
      outage env' = None -> params req' !! "id" = Some id -> id <> EmptyString ->
      getJobById env' req' out.2 = (Ok (res_status_json 200 (JRow r)), out.2).
Proof.
  intros out.
  apply (submitted_job_is_fetched (H := fixture.externals) fixture.healthy
           (fixture.post_job fixture.member) fixture.two_jobs).
  - vm_compute. reflexivity.
  - reflexivity.
Defined.

Lemma leftJoin_left {A B} (l : list A) (right : list Row) (lc : sql.Column A)
    (rc : sql.Column Row) (pair : A -> option Row -> B) (b : B) :
  b ∈ drizzle.leftJoin l right lc rc pair -> exists a o, a ∈ l /\ b = pair a o.
Proof.
  unfold drizzle.leftJoin. intros Hb.
  apply list_elem_of_In, in_flat_map in Hb as (a & Ha & Hb).
  exists a. destruct (List.filter _ right) as [| m ms].
  - destruct Hb as [<- | []]. exists None. split; [by apply list_elem_of_In | done].
  - apply in_map_iff in Hb as (o & <- & _). exists (Some o).
    split; [by apply list_elem_of_In | done].
Qed.

(** Every joined row carries a stored job. *)
Lemma from_job_joined_job (db : DB) (j : Joined) :
  j ∈ from_job_joined db -> j_job j ∈ rows (job_table db).
Proof.
  unfold from_job_joined. intros Hj.
  apply leftJoin_left in Hj as ([[a c] l] & co & Hj & ->). simpl.
  apply leftJoin_left in Hj as ([a' c'] & l' & Hj & [= -> -> ->]).
  apply leftJoin_left in Hj as (a'' & c'' & Hj & [= -> ->]). done.
Qed.

Lemma and_inr_all {R} (cs : list (sql.SQL R)) (p : R -> bool) :
  sql.and cs = inr p ->
  forall c, c ∈ cs -> exists q, c = inr q /\ forall r, p r = true -> q r = true.
Proof.
  revert p. induction cs as [| c0 cs IH]; intros p Hand c Hc; [by apply elem_of_nil in Hc |].
  simpl in Hand. destruct c0 as [msg | p0]; [discriminate |].
  destruct (sql.and cs) as [msg | q0] eqn:Hcs; [discriminate |].
  injection Hand as <-.
  apply elem_of_cons in Hc as [-> | Hc].
  - exists p0. split; [done |]. intros r Hr. by apply andb_true_iff in Hr as [? _].
  - destruct (IH q0 eq_refl c Hc) as (q & -> & Hq). exists q. split; [done |].
    intros r Hr. apply andb_true_iff in Hr as [_ ?]. by apply Hq.
Qed.

(** The rows behind a successful listing. *)
Lemma getJobs_200_rows `{Externals}
    (env : Env) (req : Request) (db : DB) (resp : Response) (db' : DB) :
  getJobs env req db = (Ok resp, db') ->
  status resp = 200 ->
  exists p all,
    sql.and (conditions req) = inr p /\
    all = List.filter p (from_job_joined db) /\
    0 <= (page_of req - 1) * limit_of req /\
    let rest := drop (Z.to_nat ((page_of req - 1) * limit_of req)) all in
    let result := if limit_of req <? 0 then rest else take (Z.to_nat (limit_of req)) rest in
    result <> [] /\
    json resp =
      JObj [("data", JArr (selected <$> result));
            ("pagination",
             JObj [("currentPage", JNum (page_of req));
                   ("pageSize", JNum (limit_of req));
                   ("totalCount", JStr (JS.Number_toString (Z.of_nat (length all))));
                   ("totalPages",
                    JNum (JS.Math_ceil_div (Z.of_nat (length all)) (limit_of req)))])].
Proof.
  unfold getJobs, getJobs_try, countQuery, finalQuery.
  cbv beta delta [mbind mret M_bind M_ret try_catch throw drizzle.execute getJobs_catch].
  destruct (outage env) as [msg |]; [intros [= <- <-]; discriminate |].
  destruct (sql.and (conditions req)) as [msg | p]; [intros [= <- <-]; discriminate |].
  rewrite Number_Number_toString.
  destruct (drizzle.limit_offset _ _ _) as [msg | result] eqn:Hlim;
    [intros [= <- <-]; discriminate |].
  destruct result as [| j result]; [intros [= <- <-]; discriminate |].
  intros [= <- <-] _. exists p, (List.filter p (from_job_joined db)).
  apply limit_offset_inr in Hlim as [Ho Hlim].
  cbv zeta. rewrite <- Hlim. done.
Qed.

Lemma Forall_page {A} (P : A -> Prop) (limit offset : Z) (all : list A) :
  Forall P all ->
  Forall P (if limit <? 0 then drop (Z.to_nat offset) all
            else take (Z.to_nat limit) (drop (Z.to_nat offset) all)).
Proof. intros Hall. destruct (_ <? 0); [by apply Forall_drop | by apply Forall_take, Forall_drop]. Qed.

(** X14.  A successful listing holds at least one job.  With a positive
    [pageSize] the current page is one of the [totalPages] pages and
    holds exactly the smaller of [pageSize] and what is left of
    [totalCount] after the pages before it.  A negative [pageSize] is
    left out of the query: the current page is then at most 1 and the
    listing holds every job from the offset [(currentPage - 1) * pageSize]
    on. *)
Theorem getJobs_page_bounds `{Externals}
    (env : Env) (req : Request) (db : DB) (resp : Response) (db' : DB) :
  getJobs env req db = (Ok resp, db') ->
  status resp = 200 ->
  exists items currentPage pageSize totalCount totalPages,
    json resp =
      JObj [("data", JArr items);
            ("pagination",
             JObj [("currentPage", JNum currentPage); ("pageSize", JNum pageSize);
                   ("totalCount", JStr (JS.Number_toString totalCount));
                   ("totalPages", JNum totalPages)])] /\
    1 <= Z.of_nat (length items) /\
    (0 < pageSize ->
     1 <= currentPage <= totalPages /\
     Z.of_nat (length items) = Z.min pageSize (totalCount - (currentPage - 1) * pageSize)) /\
    (pageSize < 0 ->
     currentPage <= 1 /\
     Z.of_nat (length items) = totalCount - (currentPage - 1) * pageSize).
Proof.
  intros Hrun Hok.
  destruct (getJobs_200_rows env req db resp db' Hrun Hok)
    as (p & all & Hp & _ & Ho & Hne & ->).
  eexists _, _, _, _, _. split; [reflexivity |].
  set (l := limit_of req) in *. set (pg := page_of req) in *.
  rewrite length_fmap.
  assert (Hlen : 1 <= Z.of_nat (length (if l <? 0 then drop (Z.to_nat ((pg - 1) * l)) all
                                        else take (Z.to_nat l)
                                               (drop (Z.to_nat ((pg - 1) * l)) all)))).
  { destruct (if l <? 0 then _ else _); [done | simpl; lia]. }
  split; [done |]. split.
  - intros Hl. destruct (l <? 0) eqn:Hneg; [apply Z.ltb_lt in Hneg; lia |].
    rewrite length_take, length_drop in Hlen |- *.
    unfold JS.Math_ceil_div.
    pose proof (Z.div_mod (- Z.of_nat (length all)) l ltac:(lia)) as Hdm.
    pose proof (Z.mod_pos_bound (- Z.of_nat (length all)) l Hl).
    assert (1 <= pg) by nia.
    split; [nia | lia].
  - intros Hl. destruct (l <? 0) eqn:Hneg; [| apply Z.ltb_ge in Hneg; lia].
    rewrite length_drop in Hlen |- *.
    split; [nia | lia].
Qed.

Lemma getJobs_page_bounds_witness :
  exists items currentPage pageSize totalCount totalPages,
    json fixture.first_page =
      JObj [("data", JArr items);
            ("pagination",
             JObj [("currentPage", JNum currentPage); ("pageSize", JNum pageSize);
                   ("totalCount", JStr (JS.Number_toString totalCount));
                   ("totalPages", JNum totalPages)])] /\
    1 <= Z.of_nat (length items) /\
    (0 < pageSize ->
     1 <= currentPage <= totalPages /\
     Z.of_nat (length items) = Z.min pageSize (totalCount - (currentPage - 1) * pageSize)) /\
    (pageSize < 0 ->
     currentPage <= 1 /\
     Z.of_nat (length items) = totalCount - (currentPage - 1) * pageSize).
Proof.
  apply (getJobs_page_bounds (H := fixture.externals) fixture.healthy (fixture.list_jobs "1")
           fixture.two_jobs fixture.first_page fixture.two_jobs).
  - vm_compute. reflexivity.
  - reflexivity.
Defined.

(** X15.  A negative offset makes [getJobs] answer 500: that is a
    negative page index with a positive page size, and a page index above
    1 with a negative page size.  (A negative page size with no page
    index is left out of the query and the listing is answered.) *)
Theorem getJobs_negative_page `{Externals} (env : Env) (req : Request) (db : DB) :
  (page_of req < 0 /\ 0 < limit_of req) \/ (1 < page_of req /\ limit_of req < 0) ->
  getJobs env req db =
    (Ok (res_status_json 500 (message_body "error" "Internal server error")), db).
Proof.
  intros Hneg.
  assert (Ho : ((page_of req - 1) * limit_of req <? 0) = true) by (apply Z.ltb_lt; nia).
  unfold getJobs, getJobs_try, countQuery, finalQuery.
  cbv beta delta [mbind mret M_bind M_ret try_catch throw drizzle.execute getJobs_catch].
  destruct (outage env) as [msg |]; [reflexivity |].
  destruct (sql.and (conditions req)) as [msg | p]; [reflexivity |].
  unfold drizzle.limit_offset. by rewrite Ho.
Qed.

Lemma getJobs_negative_page_witness :
  getJobs fixture.healthy (fixture.list_jobs "-1") fixture.two_jobs =
    (Ok (res_status_json 500 (message_body "error" "Internal server error")), fixture.two_jobs).
Proof.
  apply (getJobs_negative_page (H := fixture.externals) fixture.healthy (fixture.list_jobs "-1")
           fixture.two_jobs).
  left. split; [reflexivity | reflexivity].
Defined.

(** X16.  A successful listing with a [categoryId] or [levelId] filter
    was given a number, and every listed job has that category or level. *)
Theorem getJobs_filters `{Externals}
    (env : Env) (req : Request) (db : DB) (resp : Response) (db' : DB) :
  getJobs env req db = (Ok resp, db') ->
  status resp = 200 ->
  exists items pagination,
    json resp = JObj [("data", JArr items); ("pagination", pagination)] /\
    (forall categoryId, query req !! "categoryId" = Some categoryId -> categoryId <> EmptyString ->
       exists n, JS.parseInt categoryId = Some n /\
                 Forall (fun item => exists j, field "job" item = Some (JRow j) /\
                                               j !! "categoryId" = Some (VNum n)) items) /\
    (forall levelId, query req !! "levelId" = Some levelId -> levelId <> EmptyString ->
       exists n, JS.parseInt levelId = Some n /\
                 Forall (fun item => exists j, field "job" item = Some (JRow j) /\
                                               j !! "levelId" = Some (VNum n)) items).
Proof.
  intros Hrun Hok.
  destruct (getJobs_200_rows env req db resp db' Hrun Hok)
    as (p & all & Hp & -> & _ & _ & ->).
  eexists _, _. split; [reflexivity |].
  assert (Hitems : forall (c : string) (n : Z),
            sql.eq_num (job_col c) (Some n) ∈ conditions req ->
            Forall (fun item => exists j, field "job" item = Some (JRow j) /\
                                          j !! c = Some (VNum n))
              (selected <$>
                 (if limit_of req <? 0
                  then drop (Z.to_nat ((page_of req - 1) * limit_of req))
                         (List.filter p (from_job_joined db))
                  else take (Z.to_nat (limit_of req))
                         (drop (Z.to_nat ((page_of req - 1) * limit_of req))
                            (List.filter p (from_job_joined db)))))).
  { intros c n Hc. apply Forall_fmap, Forall_page, Forall_forall.
    intros j Hj. exists (j_job j). split; [reflexivity |].
    apply list_elem_of_In, filter_In in Hj as [_ Hj].
    destruct (and_inr_all _ _ Hp _ Hc) as (q & Hqeq & Hq).
    unfold sql.eq_num in Hqeq. destruct (sql.int4 n); [| discriminate].
    injection Hqeq as <-.
    specialize (Hq j Hj). destruct (decide _) as [e |]; [| done].
    unfold job_col, sql.col in e. by destruct (j_job j !! c) as [[] |]. }
  split.
  - intros s Hs Hne.
    assert (Hin : sql.eq_num (job_col "categoryId") (JS.parseInt s) ∈ conditions req).
    { unfold conditions. rewrite Hs. destruct s; [done |]. cbn [truthy JS.parseInt_opt].
      set_solver. }
    destruct (JS.parseInt s) as [n |] eqn:Hparse.
    + exists n. split; [done |]. by apply Hitems.
    + destruct (and_inr_all _ _ Hp _ Hin) as (q & Hq & _). discriminate.
  - intros s Hs Hne.
    assert (Hin : sql.eq_num (job_col "levelId") (JS.parseInt s) ∈ conditions req).
    { unfold conditions. rewrite Hs. destruct s; [done |]. cbn [truthy JS.parseInt_opt].
      set_solver. }
    destruct (JS.parseInt s) as [n |] eqn:Hparse.
    + exists n. split; [done |]. by apply Hitems.
    + destruct (and_inr_all _ _ Hp _ Hin) as (q & Hq & _). discriminate.
Qed.

Lemma getJobs_filters_witness :
  let out := getJobs fixture.healthy (scenarios.list_category "1") scenarios.three_jobs in
  exists items pagination,
    json (scenarios.answer_of out) = JObj [("data", JArr items); ("pagination", pagination)] /\
    (forall categoryId,
       query (scenarios.list_category "1") !! "categoryId" = Some categoryId ->
       categoryId <> EmptyString ->
       exists n, JS.parseInt categoryId = Some n /\
                 Forall (fun item => exists j, field "job" item = Some (JRow j) /\
                                               j !! "categoryId" = Some (VNum n)) items) /\
    (forall levelId,
       query (scenarios.list_category "1") !! "levelId" = Some levelId ->
       levelId <> EmptyString ->
       exists n, JS.parseInt levelId = Some n /\
                 Forall (fun item => exists j, field "job" item = Some (JRow j) /\
                                               j !! "levelId" = Some (VNum n)) items).
Proof.
  intros out.
  apply (getJobs_filters (H := fixture.externals) fixture.healthy (scenarios.list_category "1")
           scenarios.three_jobs (scenarios.answer_of out) out.2).
  - vm_compute. reflexivity.
  - reflexivity.
Defined.

(** X13.  A job submitted by a principal who is no admin, once accepted,
    is in no successful listing of the tables as the submission left
    them, whatever the page and the filters. *)
Theorem pending_job_not_listed `{Externals}
    (env : Env) (req : Request) (db : DB) (resp : Response) (db' : DB) (u : User) :
  user req = Some u ->
  JS.toLowerCase (role u) <> "admin" ->
  submitJobForApproval env req db = (Ok resp, db') ->
  status resp = 202 ->
  exists id,
    field "jobId" (json resp) = Some (JStr id) /\
    forall env' req' resp' db'',
      getJobs env' req' db' = (Ok resp', db'') -> status resp' = 200 ->
      exists items pagination,
        json resp' = JObj [("data", JArr items); ("pagination", pagination)] /\
        Forall (fun item => exists j, field "job" item = Some (JRow j) /\
                                      j !! "id" <> Some (VStr id)) items.
Proof.
  intros Hu Hrole Hrun Hok.
  destruct (submitJobForApproval_202 env req db resp db' Hrun Hok)
    as (u' & data & Hu' & Hparse & Hcol & Hdb & Hresp).
  rewrite Hu in Hu'. injection Hu' as <-.
  rewrite decide_False in Hcol, Hdb by done. subst db' resp. clear Hrun Hok.
  set (id := gen_random_uuid _) in *. set (r := <["id" := VStr id]> _) in *.
  exists id. split; [reflexivity |].
  intros env' req' resp' db'' Hlist Hok'.
  destruct (getJobs_200_rows env' req' _ resp' db'' Hlist Hok')
    as (p & all & Hp & -> & _ & _ & ->).
  eexists _, _. split; [reflexivity |].
  apply Forall_fmap, Forall_page, Forall_forall.
  intros j Hj. exists (j_job j). split; [reflexivity |]. intros Hjid.
  apply list_elem_of_In, filter_In in Hj as [Hjin Hjp].
  pose proof (conditions_approved req' p Hp j Hjp) as Happroved.
  apply list_elem_of_In, from_job_joined_job in Hjin.
  cbn [job_table with_table rows] in Hjin. rewrite decide_True in Hjin by done.
  cbn [rows] in Hjin. apply elem_of_app in Hjin as [Hold | Hnew].
  - eapply (collides_None_column schema.job r _ "id" (VStr id)); eauto.
    + apply list_elem_of_here.
    + unfold sql.col, r. by rewrite lookup_insert_eq.
    + unfold sql.col. by rewrite Hjid.
  - apply list_elem_of_singleton in Hnew. rewrite Hnew in Happroved.
    unfold r in Happroved. rewrite lookup_insert_ne in Happroved by discriminate.
    unfold job_values in Happroved.
    rewrite !set_field_lookup_ne in Happroved by discriminate.
    rewrite lookup_singleton_eq in Happroved. discriminate.
Qed.

Lemma pending_job_not_listed_witness :
  let out := submitJobForApproval (H := fixture.externals) fixture.healthy
               (fixture.post_job fixture.member) fixture.two_jobs in
  exists id,
    field "jobId" (json (scenarios.answer_of out)) = Some (JStr id) /\
    forall env' req' resp' db'',
      getJobs env' req' out.2 = (Ok resp', db'') -> status resp' = 200 ->
      exists items pagination,
        json resp' = JObj [("data", JArr items); ("pagination", pagination)] /\
        Forall (fun item => exists j, field "job" item = Some (JRow j) /\
                                      j !! "id" <> Some (VStr id)) items.
Proof.
  intros out.
  apply (pending_job_not_listed (H := fixture.externals) fixture.healthy
           (fixture.post_job fixture.member) fixture.two_jobs
           (scenarios.answer_of out) out.2 fixture.member).
  - reflexivity.
  - discriminate.
  - vm_compute. reflexivity.
  - reflexivity.
Defined.

Lemma has_number_true (n : Z) (r : Row) :
  has_number n r = true <-> r !! "id" = Some (VNum n).
Proof.
  unfold has_number, sql.col. destruct (decide _) as [e | ne]; split; try done.
  - intros _. by destruct (r !! "id") as [[] |].
  - intros Hr. rewrite Hr in ne. done.
Qed.

Lemma has_number_false (n : Z) (r : Row) :
  has_number n r = false <-> r !! "id" <> Some (VNum n).
Proof. rewrite <- has_number_true. by destruct (has_number n r). Qed.

(** *** Invalid bodies *)

(** X4.  A body that the title schema rejects makes [createJobCategory]
    reject (the parse is outside its [try]), while [createJobLevel] and
    both update handlers answer 400 with the issues; nothing is stored. *)
Theorem invalid_title_body `{Externals}
    (env : Env) (req : Request) (db : DB) (issues : list string) :
  JobCategorySchema_parse (body req) = inl issues ->
  createJobCategory env req db = (Throw (ZodError issues), db) /\
  createJobLevel env req db = (Ok (invalid_input issues), db) /\
  upadteJobCategory env req db = (Ok (invalid_input issues), db) /\
  updateJobLevel env req db = (Ok (invalid_input issues), db).
Proof.
  intros Hparse.
  unfold createJobCategory, createJobLevel, createJobLevel_try, upadteJobCategory,
    upadteJobCategory_try, updateJobLevel, updateJobLevel_try.
  rewrite Hparse. done.
Qed.

Lemma invalid_title_body_witness :
  createJobCategory (H := fixture.externals) fixture.healthy
    (fixture.request None [] [] []) fixture.one_category
  = (Throw (ZodError ["title: Required"]), fixture.one_category) /\
  createJobLevel (H := fixture.externals) fixture.healthy
    (fixture.request None [] [] []) fixture.one_category
  = (Ok (invalid_input ["title: Required"]), fixture.one_category) /\
  upadteJobCategory (H := fixture.externals) fixture.healthy
    (fixture.request None [] [] []) fixture.one_category
  = (Ok (invalid_input ["title: Required"]), fixture.one_category) /\
  updateJobLevel (H := fixture.externals) fixture.healthy
    (fixture.request None [] [] []) fixture.one_category
  = (Ok (invalid_input ["title: Required"]), fixture.one_category).
Proof.
  apply (invalid_title_body (H := fixture.externals)). reflexivity.
Defined.

(** *** A level title that is taken *)

(** X5.  When the level title is already stored, [createJobLevel]
    answers 500 and stores no row: its [.catch] callback calls the caught
    error as a function. *)
Theorem createJobLevel_collision_500 `{Externals}
    (env : Env) (req : Request) (db : DB) (title : string) :
  outage env = None ->
  JobCategorySchema_parse (body req) = inr title ->
  VStr title ∈ drizzle.column_values "title" (rows (jobLevel_table db)) ->
  exists db', createJobLevel env req db = (Ok internal_server_error, db') /\
              rows (jobLevel_table db') = rows (jobLevel_table db).
Proof.
  intros Hup Hparse Hdup. unfold createJobLevel, createJobLevel_try. rewrite Hparse.
  cbv beta delta [mbind mret M_bind M_ret try_catch throw throw_result
                  drizzle.insert_values_returning drizzle.execute drizzle.no_condition sql.and].
  rewrite Hup.
  match goal with
  | |- context [drizzle.fill_id ?t ?v ?s] =>
      pose proof (fill_id_lookup_ne t v s "title" ltac:(discriminate)) as Hlk;
      pose proof (fill_id_rows t v s) as Hrows;
      destruct (drizzle.fill_id t v s) as [r s']
  end.
  simpl in Hlk, Hrows. rewrite lookup_singleton_eq in Hlk.
  assert (Hc : exists c, drizzle.collides schema.jobLevel r (rows s') = Some c).
  { unfold drizzle.collides. simpl.
    destruct (match sql.col "id" r with Some v => _ | None => false end); [by eexists |].
    unfold sql.col at 1. rewrite Hlk, Hrows.
    rewrite bool_decide_eq_true_2 by done. by eexists. }
  destruct Hc as [c ->].
  destruct (drizzle.id_in_range _ r); simpl;
    (eexists; split; [reflexivity |]); simpl; [by rewrite Hrows | done].
Qed.

Lemma createJobLevel_collision_500_witness :
  exists db',
    createJobLevel (H := fixture.externals) fixture.healthy
      (fixture.post_category "Senior") scenarios.one_level
    = (Ok internal_server_error, db') /\
    rows (jobLevel_table db') = rows (jobLevel_table scenarios.one_level).
Proof.
  apply (createJobLevel_collision_500 (H := fixture.externals) fixture.healthy
           (fixture.post_category "Senior") scenarios.one_level "Senior").
  - reflexivity.
  - reflexivity.
  - vm_compute. apply list_elem_of_here.
Defined.

(** *** Looking a category up *)

Lemma getCategoryById_run (env : Env) (req : Request) (db : DB) (n : Z) :
  JS.parseInt_opt (params req !! "id") = Some n -> sql.int4 n = true -> outage env = None ->
  getCategoryById env req db =
    (Ok (match List.filter (has_number n) (rows (jobCategory_table db)) with
         | [] => res_status_json 404 (message_body "message" "Category not found")
         | c :: _ => res_status_json 200 (JObj [("category", JRow c)])
         end), db).
Proof.
  intros Hid Hrange Hup. unfold getCategoryById, getCategoryById_try. rewrite Hid.
  unfold sql.eq_num. rewrite Hrange.
  cbv beta iota delta [mbind mret M_bind M_ret try_catch drizzle.select_from_where
                       drizzle.execute sql.eq].
  rewrite Hup. change (table schema.jobCategory db) with (jobCategory_table db).
  change (fun r : Row => if decide (sql.col "id" r = Some (VNum n)) then true else false)
    with (has_number n).
  by destruct (List.filter _ _).
Qed.

(** X7.  With the connection up, [getCategoryById] answers 500 when the
    route id does not start, after white space, with an integer, and when
    that integer is outside the range of the column's type; otherwise it
    answers 200 with a stored category whose id is the parsed integer
    when there is one, and 404 when there is none. *)
Theorem getCategoryById_lookup (env : Env) (req : Request) (db : DB) :
  outage env = None ->
  exists resp,
    getCategoryById env req db = (Ok resp, db) /\
    match JS.parseInt_opt (params req !! "id") with
    | None => resp = internal_server_error
    | Some n =>
        if sql.int4 n
        then
          ((exists r, r ∈ rows (jobCategory_table db) /\ r !! "id" = Some (VNum n)) ->
           exists c, resp = res_status_json 200 (JObj [("category", JRow c)]) /\
                     c ∈ rows (jobCategory_table db) /\ c !! "id" = Some (VNum n)) /\
          ((forall r, r ∈ rows (jobCategory_table db) -> r !! "id" <> Some (VNum n)) ->
           resp = res_status_json 404 (message_body "message" "Category not found"))
        else resp = internal_server_error
    end.
Proof.
  intros Hup. destruct (JS.parseInt_opt (params req !! "id")) as [n |] eqn:Hid;
    [destruct (sql.int4 n) eqn:Hrange |].
  - rewrite (getCategoryById_run env req db n Hid Hrange Hup). eexists. split; [reflexivity |].
    destruct (List.filter _ _) as [| c l] eqn:Hf.
    + split; [| done]. intros (r & Hr & Hrid). exfalso.
      pose proof (proj1 (filter_nil_iff _ _) Hf r Hr) as Hfalse.
      apply has_number_false in Hfalse. done.
    + assert (Hc : In c (List.filter (has_number n) (rows (jobCategory_table db))))
        by (rewrite Hf; by left).
      apply filter_In in Hc as [Hc Hcn]. apply has_number_true in Hcn. split.
      * intros _. exists c. by rewrite list_elem_of_In.
      * intros Hnone. exfalso. apply (Hnone c); [by apply list_elem_of_In | done].
  - unfold getCategoryById, getCategoryById_try. rewrite Hid.
    unfold sql.eq_num. rewrite Hrange.
    cbv beta iota delta [mbind mret M_bind M_ret try_catch drizzle.select_from_where
                         drizzle.execute].
    rewrite Hup. eexists. split; reflexivity.
  - unfold getCategoryById, getCategoryById_try. rewrite Hid.
    cbv beta iota delta [mbind mret M_bind M_ret try_catch drizzle.select_from_where
                         drizzle.execute sql.eq_num sql.eq].
    rewrite Hup. eexists. split; reflexivity.
Qed.

Lemma getCategoryById_lookup_witness :
  exists resp,
    getCategoryById fixture.healthy (fixture.get_category "1abc") fixture.one_category
    = (Ok resp, fixture.one_category) /\
    match JS.parseInt_opt (params (fixture.get_category "1abc") !! "id") with
    | None => resp = internal_server_error
    | Some n =>
        ((exists r, r ∈ rows (jobCategory_table fixture.one_category) /\
                    r !! "id" = Some (VNum n)) ->
         exists c, resp = res_status_json 200 (JObj [("category", JRow c)]) /\
                   c ∈ rows (jobCategory_table fixture.one_category) /\
                   c !! "id" = Some (VNum n)) /\
        ((forall r, r ∈ rows (jobCategory_table fixture.one_category) ->
                    r !! "id" <> Some (VNum n)) ->
         resp = res_status_json 404 (message_body "message" "Category not found"))
    end.
Proof.
  apply (getCategoryById_lookup fixture.healthy (fixture.get_category "1abc")
           fixture.one_category).
  reflexivity.
Defined.

(** *** Deleting a category or a level *)

(** X8.  A category deletion answered 200 returns a stored category with
    the parsed route id and removes exactly the categories with that id;
    [getCategoryById] for the same route then answers 404. *)
Theorem deleteJobCategory_removes (env : Env) (req : Request) (db : DB) (resp : Response) (db' : DB) :
  deleteJobCategory env req db = (Ok resp, db') ->
  status resp = 200 ->
  exists n c,
    JS.parseInt_opt (params req !! "id") = Some n /\
    field "category" (json resp) = Some (JRow c) /\
    c ∈ rows (jobCategory_table db) /\ c !! "id" = Some (VNum n) /\
    (forall r, r ∈ rows (jobCategory_table db') <->
               r ∈ rows (jobCategory_table db) /\ r !! "id" <> Some (VNum n)) /\
    forall env', outage env' = None ->
      getCategoryById env' req db' =
        (Ok (res_status_json 404 (message_body "message" "Category not found")), db').
Proof.
  unfold deleteJobCategory, deleteJobCategory_try.
  cbv beta iota delta [mbind mret M_bind M_ret try_catch drizzle.delete_where_returning
                       drizzle.execute sql.eq_num sql.eq].
  destruct (outage env); [intros [= <- <-]; discriminate |].
  destruct (JS.parseInt_opt (params req !! "id")) as [n |] eqn:Hid;
    [| intros [= <- <-]; discriminate].
  destruct (sql.int4 n) eqn:Hrange; [| intros [= <- <-]; discriminate].
  cbv beta iota zeta. change (table schema.jobCategory db) with (jobCategory_table db).
  change (fun r : Row => if decide (sql.col "id" r = Some (VNum n)) then true else false)
    with (has_number n).
  change (fun r : Row => negb (if decide (sql.col "id" r = Some (VNum n)) then true else false))
    with (fun r : Row => negb (has_number n r)).
  destruct (List.filter (has_number n) _) as [| c l] eqn:Hf; [intros [= <- <-]; discriminate |].
  intros [= <- <-] _. exists n, c.
  assert (Hc : In c (List.filter (has_number n) (rows (jobCategory_table db))))
    by (rewrite Hf; by left).
  apply filter_In in Hc as [Hc Hcn]. apply has_number_true in Hcn.
  split; [done |]. split; [reflexivity |]. split; [by apply list_elem_of_In |].
  split; [done |]. split.
  - intros r. cbn [jobCategory_table with_table rows]. rewrite decide_True by done.
    cbn [rows]. by rewrite elem_of_filter_negb, has_number_false.
  - intros env' Hup'. rewrite (getCategoryById_run env' req _ n Hid Hrange Hup').
    cbn [jobCategory_table with_table rows]. rewrite decide_True by done. cbn [rows].
    rewrite filter_none; [done |].
    intros x Hx. apply elem_of_filter_negb in Hx as [_ Hx]. done.
Qed.

Lemma deleteJobCategory_removes_witness :
  let out := deleteJobCategory fixture.healthy (fixture.get_category "1") fixture.one_category in
  exists n c,
    JS.parseInt_opt (params (fixture.get_category "1") !! "id") = Some n /\
    field "category" (json (scenarios.answer_of out)) = Some (JRow c) /\
    c ∈ rows (jobCategory_table fixture.one_category) /\ c !! "id" = Some (VNum n) /\
    (forall r, r ∈ rows (jobCategory_table out.2) <->
               r ∈ rows (jobCategory_table fixture.one_category) /\ r !! "id" <> Some (VNum n)) /\
    forall env', outage env' = None ->
      getCategoryById env' (fixture.get_category "1") out.2 =
        (Ok (res_status_json 404 (message_body "message" "Category not found")), out.2).
Proof.
  intros out.
  apply (deleteJobCategory_removes fixture.healthy (fixture.get_category "1")
           fixture.one_category).
  - vm_compute. reflexivity.
  - reflexivity.
Defined.

(** *** Updates that do not assign [id] *)

Lemma overlay_keeps_id (a : Row) (id : string) (r : Row) :
  a !! "id" = None -> has_id id (a ∪ r) = has_id id r.
Proof.
  intros Ha. unfold has_id, sql.col. by rewrite lookup_union_r.
Qed.

Lemma filter_updated_id (a : Row) (id : string) (l : list Row) :
  a !! "id" = None ->
  List.filter (has_id id) (drizzle.updated a (has_id id) l)
  = List.map (fun r => a ∪ r) (List.filter (has_id id) l).
Proof.
  intros Ha. unfold drizzle.updated. rewrite List.filter_app, filter_filter_negb.
  apply filter_map_kept. intros r. by apply overlay_keeps_id.
Qed.

Lemma elem_of_updated_other (a : Row) (p : Row -> bool) (l : list Row) (r : Row) :
  r ∈ l -> p r = false -> r ∈ drizzle.updated a p l.
Proof.
  intros Hr Hp. unfold drizzle.updated. apply elem_of_app. left.
  apply list_elem_of_In, filter_In. rewrite Hp. by rewrite <- list_elem_of_In.
Qed.

(** *** userRepository *)

Lemma findByIdAsync_run (env : Env) (id : string) (db : DB) :
  outage env = None ->
  userRepository.findByIdAsync env id db
  = (Ok (head (List.filter (has_id id) (rows (user_table db)))), db).
Proof.
  intros Hup. unfold userRepository.findByIdAsync.
  cbv beta iota delta [mbind mret M_bind M_ret drizzle.select_from_where drizzle.execute sql.eq].
  by rewrite Hup.
Qed.

Lemma getPasswordAsync_run (env : Env) (id : string) (db : DB) :
  outage env = None ->
  userRepository.getPasswordAsync env id db
  = (match List.filter (has_id id) (rows (user_table db)) with
     | [] => Throw (TypeError "Cannot read properties of undefined (reading 'password')")
     | r :: _ => Ok (r !! "password")
     end, db).
Proof.
  intros Hup. unfold userRepository.getPasswordAsync.
  cbv beta iota delta [mbind mret M_bind M_ret drizzle.select_from_where drizzle.execute
                       sql.eq first_field].
  rewrite Hup. change (table schema.user db) with (user_table db).
  change (fun r : Row => if decide (sql.col "id" r = Some (VStr id)) then true else false)
    with (has_id id).
  destruct (List.filter _ _) as [| r l]; [done |]. simpl.
  unfold set_field. destruct (r !! "password"); [by rewrite lookup_insert_eq | done].
Qed.

(** X19.  With the connection up, [getPasswordAsync] resolves exactly
    when [findByIdAsync] finds a user, to that user's password, and
    rejects with the TypeError when [findByIdAsync] resolves to
    undefined. *)
Theorem getPasswordAsync_follows_findByIdAsync (env : Env) (id : string) (db : DB) :
  outage env = None ->
  (forall u, userRepository.findByIdAsync env id db = (Ok (Some u), db) ->
             userRepository.getPasswordAsync env id db = (Ok (u !! "password"), db)) /\
  (userRepository.findByIdAsync env id db = (Ok None, db) ->
   userRepository.getPasswordAsync env id db
   = (Throw (TypeError "Cannot read properties of undefined (reading 'password')"), db)).
Proof.
  intros Hup. rewrite findByIdAsync_run, getPasswordAsync_run by done.
  destruct (List.filter _ _) as [| r l]; split; simpl; intros; simplify_eq; done.
Qed.

Lemma getPasswordAsync_follows_findByIdAsync_witness :
  (forall u, userRepository.findByIdAsync fixture.healthy "u-2" scenarios.two_users
             = (Ok (Some u), scenarios.two_users) ->
             userRepository.getPasswordAsync fixture.healthy "u-2" scenarios.two_users
             = (Ok (u !! "password"), scenarios.two_users)) /\
  (userRepository.findByIdAsync fixture.healthy "u-2" scenarios.two_users
   = (Ok None, scenarios.two_users) ->
   userRepository.getPasswordAsync fixture.healthy "u-2" scenarios.two_users
   = (Throw (TypeError "Cannot read properties of undefined (reading 'password')"),
      scenarios.two_users)).
Proof.
  apply (getPasswordAsync_follows_findByIdAsync fixture.healthy "u-2" scenarios.two_users).
  reflexivity.
Defined.

Lemma resetPasswordAsync_run (env : Env) (id password : string) (db : DB) :
  outage env = None ->
  let a : Row := <["password" := VStr password]> {["updatedAt" := VDate (now env)]} in
  userRepository.resetPasswordAsync env id password db
  = (Ok (head (List.map (fun r => a ∪ r) (List.filter (has_id id) (rows (user_table db))))),
     with_table schema.user
       {| rows := drizzle.updated a (has_id id) (rows (user_table db));
          id_seq := id_seq (user_table db) |} db).
Proof.
  intros Hup a. unfold userRepository.resetPasswordAsync.
  cbv beta iota delta [mbind mret M_bind M_ret drizzle.update_set_where_returning
                       drizzle.execute sql.eq].
  rewrite Hup. cbv beta iota zeta. change (table schema.user db) with (user_table db).
  change (fun r : Row => if decide (sql.col "id" r = Some (VStr id)) then true else false)
    with (has_id id).
  fold a.
  assert (Hc : drizzle.update_collides schema.user a (has_id id) (rows (user_table db)) = None)
    by reflexivity.
  by rewrite Hc.
Qed.

(** X20.  When [resetPasswordAsync] resolves to a user, that user is a
    stored user of the id with the new password and the current stamp,
    and [getPasswordAsync] then resolves to the new password; for an
    unknown id it resolves to undefined and changes nothing; it never
    touches a user of another id. *)
Theorem resetPasswordAsync_round_trip
    (env : Env) (id password : string) (db : DB) (res : option Row) (db1 : DB) :
  userRepository.resetPasswordAsync env id password db = (Ok res, db1) ->
  (forall u, res = Some u ->
     u !! "id" = Some (VStr id) /\
     u !! "password" = Some (VStr password) /\
     u !! "updatedAt" = Some (VDate (now env)) /\
     forall env', outage env' = None ->
       userRepository.getPasswordAsync env' id db1 = (Ok (Some (VStr password)), db1)) /\
  ((exists r, r ∈ rows (user_table db) /\ r !! "id" = Some (VStr id)) -> res <> None) /\
  ((forall r, r ∈ rows (user_table db) -> r !! "id" <> Some (VStr id)) ->
   res = None /\ db1 = db) /\
  (forall r, r ∈ rows (user_table db) -> r !! "id" <> Some (VStr id) ->
             r ∈ rows (user_table db1)).
Proof.
  intros Hrun.
  destruct (outage env) as [msg |] eqn:Hup.
  { unfold userRepository.resetPasswordAsync in Hrun.
    cbv beta iota delta [mbind mret M_bind M_ret drizzle.update_set_where_returning
                         drizzle.execute sql.eq] in Hrun.
    rewrite Hup in Hrun. discriminate. }
  rewrite resetPasswordAsync_run in Hrun by done. cbv zeta in Hrun.
  set (a := (<["password" := VStr password]> {["updatedAt" := VDate (now env)]} : Row)) in *.
  assert (Ha : a !! "id" = None) by reflexivity.
  injection Hrun as <- <-.
  split; [| split; [| split]].
  - intros u Hu.
    destruct (List.filter (has_id id) (rows (user_table db))) as [| old l] eqn:Hf;
      [discriminate |].
    injection Hu as <-.
    assert (Hold : In old (List.filter (has_id id) (rows (user_table db))))
      by (rewrite Hf; by left).
    apply filter_In in Hold as [_ Hold]. apply has_id_true in Hold.
    split; [by rewrite lookup_union_r |].
    split; [by apply lookup_union_Some_l |]. split; [by apply lookup_union_Some_l |].
    intros env' Hup'. rewrite getPasswordAsync_run by done.
    cbn [user_table with_table rows]. rewrite decide_True by done. cbn [rows].
    rewrite filter_updated_id, Hf by done. simpl.
    f_equal. f_equal. by apply lookup_union_Some_l.
  - intros (r & Hr & Hrid) Hnone.
    destruct (List.filter (has_id id) (rows (user_table db))) as [| old l] eqn:Hf;
      [| discriminate].
    pose proof (proj1 (filter_nil_iff _ _) Hf r Hr) as Hfalse.
    apply has_id_false in Hfalse. done.
  - intros Hno.
    assert (Hf : List.filter (has_id id) (rows (user_table db)) = []).
    { apply filter_none. intros x Hx. apply has_id_false. by apply Hno. }
    rewrite Hf. split; [reflexivity |].
    rewrite updated_no_match by done. destruct db as [? ? ? ? ? []]. reflexivity.
  - intros r Hr Hrid. cbn [user_table with_table rows]. rewrite decide_True by done. cbn [rows].
    apply elem_of_updated_other; [done |]. by apply has_id_false.
Qed.

Lemma resetPasswordAsync_round_trip_witness :
  let out := userRepository.resetPasswordAsync fixture.healthy "u-2" "$2b$10$fresh"
               scenarios.two_users in
  let res := match out.1 with Ok res => res | Throw _ => None end in
  (forall u, res = Some u ->
     u !! "id" = Some (VStr "u-2") /\
     u !! "password" = Some (VStr "$2b$10$fresh") /\
     u !! "updatedAt" = Some (VDate (now fixture.healthy)) /\
     forall env', outage env' = None ->
       userRepository.getPasswordAsync env' "u-2" out.2 = (Ok (Some (VStr "$2b$10$fresh")), out.2)) /\
  ((exists r, r ∈ rows (user_table scenarios.two_users) /\ r !! "id" = Some (VStr "u-2")) ->
   res <> None) /\
  ((forall r, r ∈ rows (user_table scenarios.two_users) -> r !! "id" <> Some (VStr "u-2")) ->
   res = None /\ out.2 = scenarios.two_users) /\
  (forall r, r ∈ rows (user_table scenarios.two_users) -> r !! "id" <> Some (VStr "u-2") ->
             r ∈ rows (user_table out.2)).
Proof.
  intros out res.
  apply (resetPasswordAsync_round_trip fixture.healthy "u-2" "$2b$10$fresh" scenarios.two_users).
  vm_compute. reflexivity.
Defined.

Lemma user_update_lookup_other (env : Env) (fullName : string) (levelId categoryId : Z)
    (tags : option string) (k : string) :
  k ∉ ["fullName"; "levelId"; "categoryId"; "tags"; "updatedAt"] ->
  user_update env fullName levelId categoryId tags !! k = None.
Proof.
  intros Hk. unfold user_update.
  rewrite !lookup_insert_ne by (intros <-; set_solver).
  rewrite set_field_lookup_ne by (intros <-; set_solver).
  apply lookup_singleton_ne. intros <-. set_solver.
Qed.

Lemma updateUserAsync_run (env : Env) (id fullName : string) (levelId categoryId : Z)
    (tags : option string) (db : DB) :
  outage env = None ->
  let a := user_update env fullName levelId categoryId tags in
  userRepository.updateUserAsync env id fullName levelId categoryId tags db
  = (Ok (head (List.map (fun r => a ∪ r) (List.filter (has_id id) (rows (user_table db))))),
     with_table schema.user
       {| rows := drizzle.updated a (has_id id) (rows (user_table db));
          id_seq := id_seq (user_table db) |} db).
Proof.
  intros Hup a. unfold userRepository.updateUserAsync.
  cbv beta iota delta [mbind mret M_bind M_ret drizzle.update_set_where_returning
                       drizzle.execute sql.eq].
  rewrite Hup. cbv beta iota zeta. change (table schema.user db) with (user_table db).
  change (fun r : Row => if decide (sql.col "id" r = Some (VStr id)) then true else false)
    with (has_id id).
  fold (user_update env fullName levelId categoryId tags). fold a.
  assert (Hc : drizzle.update_collides schema.user a (has_id id) (rows (user_table db)) = None).
  { unfold a, user_update. by destruct tags. }
  by rewrite Hc.
Qed.

(** X21.  When [updateUserAsync] resolves, it resolves to a user whenever
    one with the id is stored.  The user it resolves to is stored
    afterwards; it is a formerly stored user of the id with the name, the
    level, the category, the tags and the stamp written and every other
    column kept; undefined tags keep the stored tags.  For an unknown id
    it resolves to undefined and changes nothing. *)
Theorem updateUserAsync_frame (env : Env) (id fullName : string) (levelId categoryId : Z)
    (tags : option string) (db : DB) (res : option Row) (db1 : DB) :
  userRepository.updateUserAsync env id fullName levelId categoryId tags db = (Ok res, db1) ->
  ((exists r, r ∈ rows (user_table db) /\ r !! "id" = Some (VStr id)) -> res <> None) /\
  (forall u, res = Some u ->
     u ∈ rows (user_table db1) /\
     exists old, old ∈ rows (user_table db) /\ old !! "id" = Some (VStr id) /\
       u !! "fullName" = Some (VStr fullName) /\
       u !! "levelId" = Some (VNum levelId) /\
       u !! "categoryId" = Some (VNum categoryId) /\
       u !! "tags" = match tags with Some t => Some (VStr t) | None => old !! "tags" end /\
       u !! "updatedAt" = Some (VDate (now env)) /\
       forall k, k ∉ ["fullName"; "levelId"; "categoryId"; "tags"; "updatedAt"] ->
                 u !! k = old !! k) /\
  ((forall r, r ∈ rows (user_table db) -> r !! "id" <> Some (VStr id)) ->
   res = None /\ db1 = db).
Proof.
  intros Hrun.
  destruct (outage env) as [msg |] eqn:Hup.
  { unfold userRepository.updateUserAsync in Hrun.
    cbv beta iota delta [mbind mret M_bind M_ret drizzle.update_set_where_returning
                         drizzle.execute sql.eq] in Hrun.
    rewrite Hup in Hrun. discriminate. }
  rewrite updateUserAsync_run in Hrun by done. cbv zeta in Hrun.
  set (a := user_update env fullName levelId categoryId tags) in *.
  injection Hrun as <- <-. split; [| split].
  - intros (r & Hr & Hrid) Hnone.
    destruct (List.filter (has_id id) (rows (user_table db))) as [| old l] eqn:Hf;
      [| discriminate].
    pose proof (proj1 (filter_nil_iff _ _) Hf r Hr) as Hfalse.
    apply has_id_false in Hfalse. done.
  - intros u Hu.
    destruct (List.filter (has_id id) (rows (user_table db))) as [| old l] eqn:Hf;
      [discriminate |].
    injection Hu as <-.
    assert (Hold : In old (List.filter (has_id id) (rows (user_table db))))
      by (rewrite Hf; by left).
    split.
    { cbn [user_table with_table rows]. rewrite decide_True by done. cbn [rows].
      unfold drizzle.updated. apply elem_of_app. right.
      apply list_elem_of_In, in_map_iff. by exists old. }
    exists old.
    apply filter_In in Hold as [Hold Holdid]. apply has_id_true in Holdid.
    split; [by apply list_elem_of_In |]. split; [done |]. unfold a, user_update.
    split; [apply lookup_union_Some_l; by simplify_map_eq |].
    split; [apply lookup_union_Some_l; by simplify_map_eq |].
    split; [apply lookup_union_Some_l; by simplify_map_eq |].
    split; [| split].
    + destruct tags as [t |]; simpl; [apply lookup_union_Some_l; by simplify_map_eq |].
      rewrite lookup_union_r; [done |]. by simplify_map_eq.
    + destruct tags as [t |]; simpl; apply lookup_union_Some_l; by simplify_map_eq.
    + intros k Hk. fold (user_update env fullName levelId categoryId tags).
      rewrite lookup_union_r; [done |]. by apply user_update_lookup_other.
  - intros Hnone.
    assert (Hf : List.filter (has_id id) (rows (user_table db)) = []).
    { apply filter_none. intros x Hx. apply has_id_false. by apply Hnone. }
    rewrite Hf. split; [done |]. rewrite updated_no_match by done.
    destruct db as [? ? ? ? ? []]. reflexivity.
Qed.

Lemma updateUserAsync_frame_witness :
  let out := userRepository.updateUserAsync fixture.healthy "u-2" "Bob B." 2 1 None
               scenarios.two_users in
  exists u,
    scenarios.value_of out = Some u /\
    u ∈ rows (user_table out.2) /\
    u !! "fullName" = Some (VStr "Bob B.") /\
    u !! "levelId" = Some (VNum 2) /\
    u !! "categoryId" = Some (VNum 1) /\
    u !! "tags" = scenarios.bob !! "tags" /\
    u !! "email" = scenarios.bob !! "email".
Proof.
  intros out.
  destruct (updateUserAsync_frame fixture.healthy "u-2" "Bob B." 2 1 None scenarios.two_users
              (scenarios.value_of out) out.2) as (Hsome & Hframe & _);
    [vm_compute; reflexivity |].
  destruct (scenarios.value_of out) as [u |].
  2: { exfalso. apply Hsome; [| reflexivity]. exists scenarios.bob.
       split; [apply list_elem_of_further, list_elem_of_here | reflexivity]. }
  exists u. split; [reflexivity |].
  destruct (Hframe u eq_refl)
    as (Hin & old & Hold & Hid & Hname & Hlevel & Hcat & Htags & _ & Hkeep).
  apply list_elem_of_In in Hold. simpl in Hold. destruct Hold as [<- | [<- | []]];
    [discriminate Hid |].
  repeat split; try done. apply Hkeep.
  intros Hk. apply list_elem_of_In in Hk. simpl in Hk.
  repeat destruct Hk as [Hk | Hk]; try discriminate Hk. destruct Hk.
Defined.

(** X22.  After [deleteUserAsync] has resolved, the users left are
    exactly the former ones with another id; [findByIdAsync] then
    resolves to undefined and [getPasswordAsync] rejects. *)
Theorem deleteUserAsync_then_lookup `{Externals} (env : Env) (id : string) (db db1 : DB) :
  userRepository.deleteUserAsync env id db = (Ok tt, db1) ->
  (forall r, r ∈ rows (user_table db1) <->
             r ∈ rows (user_table db) /\ r !! "id" <> Some (VStr id)) /\
  forall env', outage env' = None ->
    userRepository.findByIdAsync env' id db1 = (Ok None, db1) /\
    userRepository.getPasswordAsync env' id db1
    = (Throw (TypeError "Cannot read properties of undefined (reading 'password')"), db1).
Proof.
  unfold userRepository.deleteUserAsync.
  cbv beta iota delta [mbind mret M_bind M_ret drizzle.delete_where
                       drizzle.delete_where_returning drizzle.execute sql.eq].
  destruct (outage env); [discriminate |].
  cbv beta iota zeta. change (table schema.user db) with (user_table db).
  change (fun r : Row => negb (if decide (sql.col "id" r = Some (VStr id)) then true else false))
    with (fun r : Row => negb (has_id id r)).
  intros [= <-].
  assert (Hgone : List.filter (has_id id)
                    (List.filter (fun r => negb (has_id id r)) (rows (user_table db))) = []).
  { apply filter_none. intros x Hx. by apply elem_of_filter_negb in Hx as [_ Hx]. }
  split.
  - intros r. cbn [user_table with_table rows]. rewrite decide_True by done. cbn [rows].
    by rewrite elem_of_filter_negb, has_id_false.
  - intros env' Hup'. split.
    + rewrite findByIdAsync_run by done.
      cbn [user_table with_table rows]. rewrite decide_True by done. cbn [rows].
      by rewrite Hgone.
    + rewrite getPasswordAsync_run by done.
      cbn [user_table with_table rows]. rewrite decide_True by done. cbn [rows].
      by rewrite Hgone.
Qed.

Lemma deleteUserAsync_then_lookup_witness :
  let db1 := (userRepository.deleteUserAsync (H := fixture.externals) fixture.healthy "u-2"
                scenarios.two_users).2 in
  (forall r, r ∈ rows (user_table db1) <->
             r ∈ rows (user_table scenarios.two_users) /\ r !! "id" <> Some (VStr "u-2")) /\
  forall env', outage env' = None ->
    userRepository.findByIdAsync env' "u-2" db1 = (Ok None, db1) /\
    userRepository.getPasswordAsync env' "u-2" db1
    = (Throw (TypeError "Cannot read properties of undefined (reading 'password')"), db1).
Proof.
  intros db1.
  apply (deleteUserAsync_then_lookup (H := fixture.externals) fixture.healthy "u-2"
           scenarios.two_users).
  vm_compute. reflexivity.
Defined.

Ltac lookup_user_values :=
  unfold user_values;
  repeat (rewrite set_field_lookup_ne by discriminate);
  first [ rewrite set_field_lookup_eq;
          [reflexivity
          | repeat (rewrite set_field_lookup_ne by discriminate); apply lookup_empty]
        | apply lookup_empty ].

(** X23.  After [createUserAsync] has resolved, [findByEmailAsync] with
    the request's email resolves to the appended user, which holds the
    fields of the request under their column names. *)
Theorem createUserAsync_then_findByEmailAsync `{Externals}
    (env env' : Env) (createUserRequest : Row) (email : string) (db db' : DB) :
  userRepository.createUserAsync env createUserRequest db = (Ok tt, db') ->
  createUserRequest !! "email" = Some (VStr email) ->
  outage env' = None ->
  exists u,
    userRepository.findByEmailAsync env' email db' = (Ok (Some u), db') /\
    u !! "email" = Some (VStr email) /\
    u !! "username" = createUserRequest !! "username" /\
    u !! "password" = createUserRequest !! "password" /\
    u !! "fullName" = createUserRequest !! "full_name" /\
    u !! "phoneNumber" = createUserRequest !! "phone_number" /\
    u !! "levelId" = createUserRequest !! "level_id" /\
    rows (user_table db') = (rows (user_table db) ++ [u])%list.
Proof.
  unfold userRepository.createUserAsync. fold (user_values createUserRequest).
  cbv beta iota delta [mbind mret M_bind M_ret drizzle.insert_values_returning
                       drizzle.execute drizzle.no_condition sql.and].
  destruct (outage env); [discriminate |].
  change (table schema.user db) with (user_table db).
  assert (Hfill : drizzle.fill_id schema.user (user_values createUserRequest) (user_table db)
                  = (user_values createUserRequest, user_table db)).
  { unfold drizzle.fill_id. by destruct (_ !! "id"). }
  rewrite Hfill. clear Hfill. cbv beta iota zeta.
  set (u := user_values createUserRequest).
  destruct (drizzle.collides schema.user u _) eqn:Hcol; [discriminate |].
  intros [= <-] Hemail Hup. exists u.
  assert (Huemail : u !! "email" = Some (VStr email)).
  { rewrite <- Hemail. unfold u. lookup_user_values. }
  split.
  - unfold userRepository.findByEmailAsync.
    cbv beta iota delta [mbind mret M_bind M_ret drizzle.select_from_where
                         drizzle.execute sql.eq].
    rewrite Hup. cbn [table user_table with_table rows]. rewrite decide_True by done.
    cbn [rows]. rewrite List.filter_app, filter_none.
    + assert (Hcole : sql.col "email" u = Some (VStr email))
        by (unfold sql.col; by rewrite Huemail).
      cbn [List.filter app]. by rewrite decide_True.
    + intros x Hx. destruct (decide _) as [Hxe | _]; [| done]. exfalso. revert Hxe.
      apply (collides_None_column schema.user u (rows (user_table db)) "email"); try done.
      * set_solver.
      * unfold sql.col. by rewrite Huemail.
  - split; [done |].
    repeat (split; [unfold u; lookup_user_values |]).
    cbn [user_table with_table rows]. by rewrite decide_True.
Qed.

Lemma createUserAsync_then_findByEmailAsync_witness :
  let db' := (userRepository.createUserAsync (H := fixture.externals) fixture.healthy
                scenarios.carol scenarios.two_users).2 in
  exists u,
    userRepository.findByEmailAsync fixture.healthy "carol@example.org" db' = (Ok (Some u), db') /\
    u !! "email" = Some (VStr "carol@example.org") /\
    u !! "username" = scenarios.carol !! "username" /\
    u !! "password" = scenarios.carol !! "password" /\
    u !! "fullName" = scenarios.carol !! "full_name" /\
    u !! "phoneNumber" = scenarios.carol !! "phone_number" /\
    u !! "levelId" = scenarios.carol !! "level_id" /\
    rows (user_table db') = (rows (user_table scenarios.two_users) ++ [u])%list.
Proof.
  intros db'.
  apply (createUserAsync_then_findByEmailAsync (H := fixture.externals) fixture.healthy
           fixture.healthy scenarios.carol "carol@example.org" scenarios.two_users db').
  - vm_compute. reflexivity.
  - reflexivity.
  - reflexivity.
Defined.

(** X3.  [getJobById], [getJobs], [getCategoryById], [getJobLevelById]
    and [getCategories] always answer and never change the stored
    tables. *)
Theorem reads_change_nothing `{Externals} (env : Env) (h : Handler) (req : Request) (db : DB) :
  read_only h = true ->
  exists resp, handle env h req db = (Ok resp, db).
Proof.
  intros Hh.
  assert (Hne : h <> CreateJobCategory) by (by intros ->).
  destruct (handlers_always_answer env h req db Hne) as (resp & db' & Hrun).
  exists resp. rewrite Hrun. f_equal.
  destruct h; try discriminate Hh; simpl handle in Hrun; unfold_handlers;
    try (unfold drizzle.execute in Hrun);
    crack Hrun; simplify_eq/=; try done; try quiet.
Qed.

Lemma reads_change_nothing_witness :
  exists resp,
    handle (H := fixture.externals) fixture.healthy GetCategories
      (fixture.request None [] [] []) fixture.one_category = (Ok resp, fixture.one_category).
Proof.
  apply (reads_change_nothing (H := fixture.externals)). reflexivity.
Defined.

(** *** saveJob *)

(** X18.  A save by a stored user of a stored job that this user has not
    saved yet is answered 200 when the connection is up.  A save answered
    200 has appended one row that pairs the principal's own id with the
    route's job id and returns it; without a principal the answer is 400
    and nothing is stored. *)
Theorem saveJob_pairs_principal `{Externals}
    (env : Env) (req : Request) (db : DB) (resp : Response) (db' : DB) :
  saveJob env req db = (Ok resp, db') ->
  (forall u jobId,
     user req = Some u -> params req !! "id" = Some jobId -> outage env = None ->
     (exists w, w ∈ rows (user_table db) /\ w !! "id" = Some (VStr (id u))) ->
     (exists j, j ∈ rows (job_table db) /\ j !! "id" = Some (VStr jobId)) ->
     (forall s, s ∈ rows (jobSaved_table db) ->
                ~ (s !! "userId" = Some (VStr (id u)) /\ s !! "jobId" = Some (VStr jobId))) ->
     id u <> EmptyString -> jobId <> EmptyString ->
     status resp = 200) /\
  (status resp = 200 ->
   exists u jobId saved,
     user req = Some u /\ params req !! "id" = Some jobId /\
     saved !! "userId" = Some (VStr (id u)) /\ saved !! "jobId" = Some (VStr jobId) /\
     field "savedJob" (json resp) = Some (JRow saved) /\
     rows (jobSaved_table db') = (rows (jobSaved_table db) ++ [saved])%list) /\
  (user req = None ->
   resp = res_status_json 400 (message_body "error" "bad request") /\ db' = db).
Proof.
  unfold saveJob, saveJob_try. intros Hrun.
  destruct (user req) as [u |] eqn:Huser.
  2: { split; [intros ? ? [=] |]. split.
       - intros Hok. destruct (params req !! "id") as [[| a jobId'] |];
           injection Hrun as <- <-; discriminate.
       - intros _. destruct (params req !! "id") as [[| a jobId'] |];
           by injection Hrun as <- <-. }
  split; [| split; [| discriminate]].
  - intros u' jobId [= <-] Hid Hup _ _ _ Hu Hne. rewrite Hid in Hrun. simpl in Hrun.
    destruct jobId as [| a jobId']; [done |].
    destruct (id u) as [| b userId']; [done |].
    cbv beta iota delta [mbind mret M_bind M_ret try_catch drizzle.insert_values_returning
                         drizzle.execute drizzle.no_condition sql.and] in Hrun.
    rewrite Hup in Hrun.
    set (v := (<["userId" := VStr (String b userId')]> {["jobId" := VStr (String a jobId')]} : Row)) in *.
    assert (Hfill : drizzle.fill_id schema.jobSaved v (table schema.jobSaved db)
                    = (v, table schema.jobSaved db)).
    { unfold drizzle.fill_id. by destruct (v !! "id"). }
    rewrite Hfill in Hrun. cbv beta iota zeta in Hrun.
    change (drizzle.id_in_range schema.jobSaved v) with true in Hrun.
    change (drizzle.collides schema.jobSaved v (rows (table schema.jobSaved db)))
      with (@None string) in Hrun.
    cbv beta iota in Hrun. by injection Hrun as <- <-.
  - intros Hok. destruct (params req !! "id") as [[| a jobId'] |] eqn:Hid;
      try (injection Hrun as <- <-; discriminate).
    simpl in Hrun.
    destruct (id u) as [| b userId'] eqn:Hu; [injection Hrun as <- <-; discriminate |].
    cbv beta iota delta [mbind mret M_bind M_ret try_catch drizzle.insert_values_returning
                         drizzle.execute drizzle.no_condition sql.and] in Hrun.
    destruct (outage env); [injection Hrun as <- <-; discriminate |].
    set (v := (<["userId" := VStr (String b userId')]> {["jobId" := VStr (String a jobId')]} : Row)) in *.
    assert (Hfill : drizzle.fill_id schema.jobSaved v (table schema.jobSaved db)
                    = (v, table schema.jobSaved db)).
    { unfold drizzle.fill_id. by destruct (v !! "id"). }
    rewrite Hfill in Hrun. cbv beta iota zeta in Hrun.
    change (drizzle.id_in_range schema.jobSaved v) with true in Hrun.
    change (drizzle.collides schema.jobSaved v (rows (table schema.jobSaved db)))
      with (@None string) in Hrun.
    cbv beta iota in Hrun. injection Hrun as <- <-.
    exists u, (String a jobId'), v. rewrite Hu.
    split; [done |]. split; [done |]. split; [apply lookup_insert_eq |].
    split; [unfold v; rewrite lookup_insert_ne by discriminate; apply lookup_singleton_eq |].
    split; [reflexivity |]. cbn [jobSaved_table with_table rows]. by rewrite decide_True.
Qed.

Lemma saveJob_pairs_principal_witness :
  let out := saveJob (H := fixture.externals) fixture.healthy scenarios.save_job
               scenarios.jobs_and_users in
  status (scenarios.answer_of out) = 200 /\
  exists saved,
    saved !! "userId" = Some (VStr "u-2") /\ saved !! "jobId" = Some (VStr fixture.uuid0) /\
    field "savedJob" (json (scenarios.answer_of out)) = Some (JRow saved) /\
    rows (jobSaved_table out.2) = (rows (jobSaved_table scenarios.jobs_and_users) ++ [saved])%list.
Proof.
  intros out.
  destruct (saveJob_pairs_principal (H := fixture.externals) fixture.healthy scenarios.save_job
              scenarios.jobs_and_users (scenarios.answer_of out) out.2)
    as (Hsaved & Hpair & _); [vm_compute; reflexivity |].
  assert (Hok : status (scenarios.answer_of out) = 200).
  { apply (Hsaved fixture.member fixture.uuid0); try reflexivity; try discriminate.
    - exists scenarios.bob. split; [| reflexivity].
      apply list_elem_of_further, list_elem_of_here.
    - exists fixture.pending_job. split; [apply list_elem_of_here | reflexivity].
    - intros s Hs. apply list_elem_of_In in Hs. destruct Hs. }
  split; [exact Hok |].
  destruct (Hpair Hok) as (u & jobId & saved & Hu & Hid & Huser & Hjob & Hfield & Hrows).
  injection Hu as <-. injection Hid as <-. by exists saved.
Defined.

(** *** approveJob touches one column of the matching jobs *)

Lemma update_outcome (env : Env) (t : schema.Table) (a : Row) (c : sql.SQL Row)
    (db db' : DB) (res : Result (list Row)) :
  drizzle.update_set_where_returning env t a c db = (res, db') ->
  db' = db \/
  exists p, db' = with_table t {| rows := drizzle.updated a p (rows (table t db));
                                  id_seq := id_seq (table t db) |} db.
Proof.
  unfold drizzle.update_set_where_returning, drizzle.execute.
  destruct (outage env); [intros [= <- <-]; by left |].
  destruct c as [msg | p]; [intros [= <- <-]; by left |].
  destruct (drizzle.update_collides _ _ _ _); intros [= <- <-]; [by left |].
  right. by exists p.
Qed.

Lemma length_updated (a : Row) (p : Row -> bool) (l : list Row) :
  length (drizzle.updated a p l) = length l.
Proof.
  unfold drizzle.updated. rewrite length_app, length_map.
  induction l as [| r l IH]; [done |]. simpl. destruct (p r); simpl; lia.
Qed.

(** X17.  Whatever [approveJob] answers, it leaves every table but the
    jobs alone and keeps the number of jobs; every job that was stored is
    still stored, as it was or with [isApproved] set to true, and every
    job stored afterwards comes in this way from one that was stored.
    Nothing is said of the order of the jobs. *)
Theorem approveJob_frame (env : Env) (req : Request) (db : DB) (resp : Response) (db' : DB) :
  approveJob env req db = (Ok resp, db') ->
  jobCategory_table db' = jobCategory_table db /\
  jobLevel_table db' = jobLevel_table db /\
  company_table db' = company_table db /\
  jobSaved_table db' = jobSaved_table db /\
  user_table db' = user_table db /\
  length (rows (job_table db')) = length (rows (job_table db)) /\
  (forall r, r ∈ rows (job_table db) ->
     r ∈ rows (job_table db') \/
     <["isApproved" := VBool true]> r ∈ rows (job_table db')) /\
  (forall r', r' ∈ rows (job_table db') ->
     exists r, r ∈ rows (job_table db) /\
               (r' = r \/ r' = <["isApproved" := VBool true]> r)).
Proof.
  intros Hrun.
  assert (Hdb : db' = db \/
                exists p, db' = with_table schema.job
                                  {| rows := drizzle.updated {["isApproved" := VBool true]} p
                                               (rows (job_table db));
                                     id_seq := id_seq (job_table db) |} db).
  { unfold approveJob, approveJob_try, approveJob_catch in Hrun.
    cbv beta delta [mbind mret M_bind M_ret try_catch] in Hrun.
    crack Hrun; simplify_eq/=; try (by left);
      match goal with
      | Hup : drizzle.update_set_where_returning _ _ _ _ _ = _ |- _ =>
          apply update_outcome in Hup as [-> | [p ->]]; [by left | right; by exists p]
      end. }
  destruct Hdb as [-> | [p ->]].
  { repeat split; try done; [intros; by left | intros r' Hr'; exists r'; by split; [| left]]. }
  repeat split; try done.
  - simpl. apply length_updated.
  - intros r Hr. simpl. unfold drizzle.updated. rewrite !elem_of_app.
    destruct (p r) eqn:Hp.
    + right. right. apply list_elem_of_In, in_map_iff. exists r.
      split; [symmetry; apply insert_union_singleton_l |].
      apply filter_In. split; [by apply list_elem_of_In | done].
    + left. left. apply list_elem_of_In, filter_In.
      split; [by apply list_elem_of_In | by rewrite Hp].
  - intros r' Hr'. simpl in Hr'. unfold drizzle.updated in Hr'.
    apply elem_of_app in Hr' as [Hr' | Hr'].
    + apply list_elem_of_In, filter_In in Hr' as [Hr' _].
      exists r'. split; [by apply list_elem_of_In | by left].
    + apply list_elem_of_In, in_map_iff in Hr' as (r & <- & Hr).
      apply filter_In in Hr as [Hr _].
      exists r. split; [by apply list_elem_of_In |]. right.
      symmetry. apply insert_union_singleton_l.
Qed.

Lemma approveJob_frame_witness :
  let db' := (approveJob fixture.healthy fixture.approve_job fixture.two_jobs).2 in
  jobCategory_table db' = jobCategory_table fixture.two_jobs /\
  jobLevel_table db' = jobLevel_table fixture.two_jobs /\
  company_table db' = company_table fixture.two_jobs /\
  jobSaved_table db' = jobSaved_table fixture.two_jobs /\
  user_table db' = user_table fixture.two_jobs /\
  length (rows (job_table db')) = length (rows (job_table fixture.two_jobs)) /\
  (forall r, r ∈ rows (job_table fixture.two_jobs) ->
     r ∈ rows (job_table db') \/
     <["isApproved" := VBool true]> r ∈ rows (job_table db')) /\
  (forall r', r' ∈ rows (job_table db') ->
     exists r, r ∈ rows (job_table fixture.two_jobs) /\
               (r' = r \/ r' = <["isApproved" := VBool true]> r)).
Proof.
  intros db'.
  apply (approveJob_frame fixture.healthy fixture.approve_job fixture.two_jobs
           (scenarios.answer_of (approveJob fixture.healthy fixture.approve_job fixture.two_jobs))
           db').
  vm_compute. reflexivity.
Defined.

(** *** Levels round trip like categories *)

Lemma getJobLevelById_run (env : Env) (req : Request) (db : DB) (n : Z) :
  JS.parseInt_opt (params req !! "id") = Some n -> sql.int4 n = true -> outage env = None ->
  getJobLevelById env req db =
    (Ok (match List.filter (has_number n) (rows (jobLevel_table db)) with
         | [] => res_status_json 404 (message_body "message" "Category not found")
         | c :: _ => res_status_json 200 (JObj [("category", JRow c)])
         end), db).
Proof.
  intros Hid Hrange Hup. unfold getJobLevelById, getJobLevelById_try. rewrite Hid.
  unfold sql.eq_num. rewrite Hrange.
  cbv beta iota delta [mbind mret M_bind M_ret try_catch drizzle.select_from_where
                       drizzle.execute sql.eq].
  rewrite Hup. change (table schema.jobLevel db) with (jobLevel_table db).
  change (fun r : Row => if decide (sql.col "id" r = Some (VNum n)) then true else false)
    with (has_number n).
  by destruct (List.filter _ _).
Qed.

(** X6.  When [createJobLevel] answers 201, the level it returns has been
    appended with a numeric id and the parsed title, and [getJobLevelById]
    with that id printed in the route answers 200 with that level. *)
Theorem level_round_trip `{Externals}
    (env env' : Env) (req : Request) (db : DB) (resp : Response) (db' : DB) :
  createJobLevel env req db = (Ok resp, db') ->
  status resp = 201 ->
  outage env' = None ->
  exists T n l,
    JobCategorySchema_parse (body req) = inr T /\
    resp = res_status_json 201
             (JObj [("message", JStr "Job category created successfully"); ("category", JRow l)]) /\
    l !! "id" = Some (VNum n) /\
    l !! "title" = Some (VStr T) /\
    rows (jobLevel_table db') = (rows (jobLevel_table db) ++ [l])%list /\
    forall req', params req' !! "id" = Some (JS.Number_toString n) ->
      getJobLevelById env' req' db' =
        (Ok (res_status_json 200 (JObj [("category", JRow l)])), db').
Proof.
  intros Hrun Hcreated Hup.
  unfold createJobLevel, createJobLevel_try in Hrun.
  destruct (JobCategorySchema_parse (body req)) as [issues | T];
    [injection Hrun as <- <-; discriminate |].
  cbv beta iota delta [mbind mret M_bind M_ret try_catch throw throw_result
                       drizzle.insert_values_returning drizzle.execute drizzle.no_condition
                       sql.and call_] in Hrun.
  destruct (outage env) as [msg |].
  { simpl in Hrun. injection Hrun as <- <-. discriminate. }
  change (table schema.jobLevel db) with (jobLevel_table db) in Hrun.
  set (s := jobLevel_table db) in *.
  assert (Hfill : drizzle.fill_id schema.jobLevel {["title" := VStr T]} s
                  = (<["id" := VNum (id_seq s)]> {["title" := VStr T]},
                     {| rows := rows s; id_seq := id_seq s + 1 |})).
  { unfold drizzle.fill_id. by rewrite lookup_singleton_ne. }
  rewrite Hfill in Hrun. clear Hfill. cbv beta iota zeta in Hrun.
  set (r := (<["id" := VNum (id_seq s)]> {["title" := VStr T]} : Row)) in *.
  cbn [rows id_seq] in Hrun.
  assert (Hidr : drizzle.id_in_range schema.jobLevel r = sql.int4 (id_seq s)).
  { unfold drizzle.id_in_range, r. simpl. by rewrite lookup_insert_eq. }
  rewrite Hidr in Hrun.
  destruct (sql.int4 (id_seq s)) eqn:Hrange;
    [| simpl in Hrun; injection Hrun as <- <-; discriminate].
  destruct (drizzle.collides schema.jobLevel r (rows s)) as [k |] eqn:Hcol.
  { simpl in Hrun. injection Hrun as <- <-. discriminate. }
  simpl in Hrun. injection Hrun as <- <-.
  assert (Hid : r !! "id" = Some (VNum (id_seq s))) by apply lookup_insert_eq.
  assert (Htitle : r !! "title" = Some (VStr T)).
  { unfold r. rewrite lookup_insert_ne by discriminate. apply lookup_singleton_eq. }
  assert (Hcolid : sql.col "id" r = Some (VNum (id_seq s)))
    by (unfold sql.col; by rewrite Hid).
  exists T, (id_seq s), r. split; [done |]. split; [reflexivity |]. split; [done |].
  split; [done |]. split; [reflexivity |].
  intros req' Hreq'.
  rewrite (getJobLevelById_run env' req' _ (id_seq s)); [| | done | done].
  - simpl. rewrite List.filter_app, filter_none.
    + cbn [List.filter app]. by rewrite (proj2 (has_number_true _ _) Hid).
    + intros x Hx. apply has_number_false. intros Hxid.
      eapply (collides_None_column schema.jobLevel r (rows s) "id" (VNum (id_seq s))); eauto.
      * set_solver.
      * unfold sql.col. by rewrite Hxid.
  - rewrite Hreq'. cbn [JS.parseInt_opt]. apply parseInt_Number_toString.
Qed.

Lemma level_round_trip_witness :
  let out := createJobLevel (H := fixture.externals) fixture.healthy
               (fixture.post_category "Junior") scenarios.one_level in
  exists T n l,
    JobCategorySchema_parse (Externals := fixture.externals)
      (body (fixture.post_category "Junior")) = inr T /\
    scenarios.answer_of out
    = res_status_json 201
        (JObj [("message", JStr "Job category created successfully"); ("category", JRow l)]) /\
    l !! "id" = Some (VNum n) /\
    l !! "title" = Some (VStr T) /\
    rows (jobLevel_table out.2) = (rows (jobLevel_table scenarios.one_level) ++ [l])%list /\
    forall req', params req' !! "id" = Some (JS.Number_toString n) ->
      getJobLevelById fixture.healthy req' out.2 =
        (Ok (res_status_json 200 (JObj [("category", JRow l)])), out.2).
Proof.
  intros out.
  apply (level_round_trip (H := fixture.externals) fixture.healthy fixture.healthy
           (fixture.post_category "Junior") scenarios.one_level).
  - vm_compute. reflexivity.
  - reflexivity.
  - reflexivity.
Defined.

(** *** eventRouter *)

(** X24.  In the event router, a body or request that the schema rejects
    is answered with the 'bad request' service response and the service
    is not called; when the service rejects in POST or PUT, a ZodError is
    answered the same way and any other error is swallowed, so that no
    response is written; DELETE has no [try] and the error leaves the
    handler. *)
Theorem eventRouter_errors `{eventRouter.Collaborators} (req : Request) (db : DB) :
  (forall issues, eventRouter.CreateEventSchema_parse (body req) = inl issues ->
     eventRouter.post req db = (Ok (Some (eventRouter.handleServiceResponse eventRouter.bad_request)), db)) /\
  (forall issues, eventRouter.UpdateEventSchema_parse req = inl issues ->
     eventRouter.put req db = (Ok (Some (eventRouter.handleServiceResponse eventRouter.bad_request)), db)) /\
  (forall parsedEvent e db1,
     eventRouter.CreateEventSchema_parse (body req) = inr parsedEvent ->
     eventRouter.eventService_create parsedEvent db = (Throw e, db1) ->
     eventRouter.post req db = (Ok (if instanceof_ZodError e
                        then Some (eventRouter.handleServiceResponse eventRouter.bad_request) else None), db1)) /\
  (forall parsedEvent e db1,
     eventRouter.UpdateEventSchema_parse req = inr parsedEvent ->
     eventRouter.eventService_update (params req !! "id") parsedEvent db = (Throw e, db1) ->
     eventRouter.put req db = (Ok (if instanceof_ZodError e
                       then Some (eventRouter.handleServiceResponse eventRouter.bad_request) else None), db1)) /\
  (forall e db1,
     eventRouter.eventService_delete (params req !! "id") db = (Throw e, db1) ->
     eventRouter.delete req db = (Throw e, db1)).
Proof.
  unfold eventRouter.post, eventRouter.put, eventRouter.delete, eventRouter.zod_catch.
  cbv beta delta [mbind mret M_bind M_ret try_catch throw].
  repeat split.
  - intros issues ->. done.
  - intros issues ->. done.
  - intros parsedEvent e db1 -> ->. by destruct (instanceof_ZodError e).
  - intros parsedEvent e db1 -> ->. by destruct (instanceof_ZodError e).
  - intros e db1 ->. done.
Qed.

Lemma eventRouter_errors_witness :
  eventRouter.post (H := scenarios.events) (scenarios.post_event "Meetup") fixture.empty_db
  = (Ok None, fixture.empty_db) /\
  eventRouter.delete (H := scenarios.events) (scenarios.post_event "Meetup") fixture.empty_db
  = (Throw (PostgresError "connection terminated"), fixture.empty_db).
Proof.
  destruct (eventRouter_errors (H := scenarios.events) (scenarios.post_event "Meetup")
              fixture.empty_db) as (_ & _ & Hpost & _ & Hdelete).
  split.
  - apply (Hpost (list_to_map [("title", VStr "Meetup")])
             (PostgresError "connection terminated") fixture.empty_db); reflexivity.
  - apply (Hdelete (PostgresError "connection terminated") fixture.empty_db); reflexivity.
Defined.
